(** * Terminology Evolution Tracker

    A shallow embedding of [app.py] (the demo store, the record producer of
    [SimpleTermTracker], the renderers and [analyze_term]) and of
    [terminology_evolution_tracker.py] (the [TerminologyEvolutionTracker]
    class), followed by the properties of the specification.

    Text.  A Python [str] is held as the [string] of the UTF-8 bytes of its
    characters, and [chars] cuts it into characters.  What the code asks of
    a character ([str.strip], [str.lower], [str.upper], the regex class
    [\d], [int], [repr]) is looked up by code point in the tables of the
    Unicode database that CPython 3.11 carries (Unicode 14.0), which are
    copied below.  Slicing and iteration count characters.  Console output
    ([print]) is left out.

    Numbers.  The numbers of a record are integers ([Z]); a record with a
    fractional number in it is not covered.  The floating-point numbers the
    chart builders compute are binary64 numbers ([spec_float]).

    Plotly.  A figure is the record of the keyword arguments its builder
    handed to Plotly.  Of the checks Plotly makes on them, the one that the
    data of a record can fail is kept: the [name] of a trace has to be a
    string or a number. *)

From Stdlib Require Import ZArith String Ascii List Bool Lia DecimalString.
From Stdlib Require Import Floats.SpecFloat.
From stdpp Require Import base option strings gmap.

Local Open Scope string_scope.
Set Warnings "-register-all".

(** ** Python text: bytes and characters *)

Definition code (c : ascii) : N := N_of_ascii c.

(** A byte as a number, and back. *)
Definition byte_val (c : ascii) : Z := Z.of_N (code c).
Definition byte (n : Z) : ascii := ascii_of_N (Z.to_N n).

(** A UTF-8 continuation byte, 0x80-0xbf. *)
Definition is_continuation (c : ascii) : bool := ((128 <=? code c) && (code c <? 192))%N.

(** How many continuation bytes the first byte of a character announces. *)
Definition width (c : ascii) : nat :=
  if (code c <? 192)%N then 0
  else if (code c <? 224)%N then 1
  else if (code c <? 240)%N then 2
  else if (code c <? 248)%N then 3
  else 0.

(** Up to [n] continuation bytes taken from the head of a list of
    characters, and the characters left. *)
Fixpoint absorb (n : nat) (l : list string) : string * list string :=
  match n, l with
  | S k, String b EmptyString :: r =>
      if is_continuation b then
        let (tail, rest) := absorb k r in (String b tail, rest)
      else (EmptyString, l)
  | _, _ => (EmptyString, l)
  end.

(** The characters of a string, as iterating over it yields them: a first
    byte with the continuation bytes it announces. *)
Fixpoint chars (s : string) : list string :=
  match s with
  | EmptyString => []
  | String c r =>
      let (tail, rest) := absorb (width c) (chars r) in
      String c tail :: rest
  end.

(** [''.join(l)]. *)
Fixpoint join (l : list string) : string :=
  match l with
  | [] => EmptyString
  | x :: r => x +:+ join r
  end.

(** [ord(ch)] for a one-character string; bytes that spell no character
    have none. *)
Definition ord (ch : string) : option Z :=
  match ch with
  | String a EmptyString =>
      if (byte_val a <? 128)%Z then Some (byte_val a) else None
  | String a (String b EmptyString) =>
      if ((194 <=? byte_val a) && (byte_val a <? 224))%Z && is_continuation b
      then Some ((byte_val a - 192) * 64 + (byte_val b - 128))%Z
      else None
  | String a (String b (String c EmptyString)) =>
      let n := ((byte_val a - 224) * 4096 + (byte_val b - 128) * 64 + (byte_val c - 128))%Z in
      if ((224 <=? byte_val a) && (byte_val a <? 240))%Z
         && is_continuation b && is_continuation c && (2048 <=? n)%Z
      then Some n
      else None
  | String a (String b (String c (String d EmptyString))) =>
      let n := ((byte_val a - 240) * 262144 + (byte_val b - 128) * 4096
                + (byte_val c - 128) * 64 + (byte_val d - 128))%Z in
      if ((240 <=? byte_val a) && (byte_val a <? 248))%Z
         && is_continuation b && is_continuation c && is_continuation d
         && ((65536 <=? n) && (n <=? 1114111))%Z
      then Some n
      else None
  | _ => None
  end.

(** [chr(n)]. *)
Definition chr (n : Z) : string :=
  (if n <? 128 then String (byte n) EmptyString
   else if n <? 2048 then
     String (byte (192 + n / 64)) (String (byte (128 + n mod 64)) EmptyString)
   else if n <? 65536 then
     String (byte (224 + n / 4096))
       (String (byte (128 + (n / 64) mod 64)) (String (byte (128 + n mod 64)) EmptyString))
   else
     String (byte (240 + n / 262144))
       (String (byte (128 + (n / 4096) mod 64))
          (String (byte (128 + (n / 64) mod 64))
             (String (byte (128 + n mod 64)) EmptyString))))%Z.

(** ** The Unicode tables *)

(** The characters [str.isspace] accepts and [str.strip] removes. *)
Definition whitespace : list (Z * Z) :=
  [
   (0x9, 0xD); (0x1C, 0x20); (0x85, 0x85); (0xA0, 0xA0); (0x1680, 0x1680); (0x2000, 0x200A);
   (0x2028, 0x2029); (0x202F, 0x202F); (0x205F, 0x205F); (0x3000, 0x3000) ]%Z.

(** The zero of every run of ten decimal digits (the characters that [\d]
    matches and [int] reads), in code point order. *)
Definition decimal_zeros : list Z :=
  [
   0x30; 0x660; 0x6F0; 0x7C0; 0x966; 0x9E6; 0xA66; 0xAE6; 0xB66; 0xBE6;
   0xC66; 0xCE6; 0xD66; 0xDE6; 0xE50; 0xED0; 0xF20; 0x1040; 0x1090; 0x17E0;
   0x1810; 0x1946; 0x19D0; 0x1A80; 0x1A90; 0x1B50; 0x1BB0; 0x1C40; 0x1C50; 0xA620;
   0xA8D0; 0xA900; 0xA9D0; 0xA9F0; 0xAA50; 0xABF0; 0xFF10; 0x104A0; 0x10D30; 0x11066;
   0x110F0; 0x11136; 0x111D0; 0x112F0; 0x11450; 0x114D0; 0x11650; 0x116C0; 0x11730; 0x118E0;
   0x11950; 0x11C50; 0x11D50; 0x11DA0; 0x16A60; 0x16AC0; 0x16B50; 0x1D7CE; 0x1D7D8; 0x1D7E2;
   0x1D7EC; 0x1D7F6; 0x1E140; 0x1E2F0; 0x1E950; 0x1FBF0 ]%Z.

(** [str.lower] on one character, where it changes it into one other
    character: every [stride]-th code point from [first] to [last] moves by
    [delta]. *)
Definition lowercase : list (Z * Z * Z * Z) :=
  [
   (0x41, 0x5A, 1, 32); (0xC0, 0xD6, 1, 32); (0xD8, 0xDE, 1, 32); (0x100, 0x12E, 2, 1);
   (0x132, 0x136, 2, 1); (0x139, 0x147, 2, 1); (0x14A, 0x176, 2, 1); (0x178, 0x178, 1, (-121));
   (0x179, 0x17D, 2, 1); (0x181, 0x181, 1, 210); (0x182, 0x184, 2, 1); (0x186, 0x186, 1, 206);
   (0x187, 0x187, 1, 1); (0x189, 0x18A, 1, 205); (0x18B, 0x18B, 1, 1); (0x18E, 0x18E, 1, 79);
   (0x18F, 0x18F, 1, 202); (0x190, 0x190, 1, 203); (0x191, 0x191, 1, 1); (0x193, 0x193, 1, 205);
   (0x194, 0x194, 1, 207); (0x196, 0x196, 1, 211); (0x197, 0x197, 1, 209); (0x198, 0x198, 1, 1);
   (0x19C, 0x19C, 1, 211); (0x19D, 0x19D, 1, 213); (0x19F, 0x19F, 1, 214); (0x1A0, 0x1A4, 2, 1);
   (0x1A6, 0x1A6, 1, 218); (0x1A7, 0x1A7, 1, 1); (0x1A9, 0x1A9, 1, 218); (0x1AC, 0x1AC, 1, 1);
   (0x1AE, 0x1AE, 1, 218); (0x1AF, 0x1AF, 1, 1); (0x1B1, 0x1B2, 1, 217); (0x1B3, 0x1B5, 2, 1);
   (0x1B7, 0x1B7, 1, 219); (0x1B8, 0x1B8, 1, 1); (0x1BC, 0x1BC, 1, 1); (0x1C4, 0x1C4, 1, 2);
   (0x1C5, 0x1C5, 1, 1); (0x1C7, 0x1C7, 1, 2); (0x1C8, 0x1C8, 1, 1); (0x1CA, 0x1CA, 1, 2);
   (0x1CB, 0x1DB, 2, 1); (0x1DE, 0x1EE, 2, 1); (0x1F1, 0x1F1, 1, 2); (0x1F2, 0x1F4, 2, 1);
   (0x1F6, 0x1F6, 1, (-97)); (0x1F7, 0x1F7, 1, (-56)); (0x1F8, 0x21E, 2, 1); (0x220, 0x220, 1, (-130));
   (0x222, 0x232, 2, 1); (0x23A, 0x23A, 1, 10795); (0x23B, 0x23B, 1, 1); (0x23D, 0x23D, 1, (-163));
   (0x23E, 0x23E, 1, 10792); (0x241, 0x241, 1, 1); (0x243, 0x243, 1, (-195)); (0x244, 0x244, 1, 69);
   (0x245, 0x245, 1, 71); (0x246, 0x24E, 2, 1); (0x370, 0x372, 2, 1); (0x376, 0x376, 1, 1);
   (0x37F, 0x37F, 1, 116); (0x386, 0x386, 1, 38); (0x388, 0x38A, 1, 37); (0x38C, 0x38C, 1, 64);
   (0x38E, 0x38F, 1, 63); (0x391, 0x3A1, 1, 32); (0x3A3, 0x3AB, 1, 32); (0x3CF, 0x3CF, 1, 8);
   (0x3D8, 0x3EE, 2, 1); (0x3F4, 0x3F4, 1, (-60)); (0x3F7, 0x3F7, 1, 1); (0x3F9, 0x3F9, 1, (-7));
   (0x3FA, 0x3FA, 1, 1); (0x3FD, 0x3FF, 1, (-130)); (0x400, 0x40F, 1, 80); (0x410, 0x42F, 1, 32);
   (0x460, 0x480, 2, 1); (0x48A, 0x4BE, 2, 1); (0x4C0, 0x4C0, 1, 15); (0x4C1, 0x4CD, 2, 1);
   (0x4D0, 0x52E, 2, 1); (0x531, 0x556, 1, 48); (0x10A0, 0x10C5, 1, 7264); (0x10C7, 0x10C7, 1, 7264);
   (0x10CD, 0x10CD, 1, 7264); (0x13A0, 0x13EF, 1, 38864); (0x13F0, 0x13F5, 1, 8); (0x1C90, 0x1CBA, 1, (-3008));
   (0x1CBD, 0x1CBF, 1, (-3008)); (0x1E00, 0x1E94, 2, 1); (0x1E9E, 0x1E9E, 1, (-7615)); (0x1EA0, 0x1EFE, 2, 1);
   (0x1F08, 0x1F0F, 1, (-8)); (0x1F18, 0x1F1D, 1, (-8)); (0x1F28, 0x1F2F, 1, (-8)); (0x1F38, 0x1F3F, 1, (-8));
   (0x1F48, 0x1F4D, 1, (-8)); (0x1F59, 0x1F5F, 2, (-8)); (0x1F68, 0x1F6F, 1, (-8)); (0x1F88, 0x1F8F, 1, (-8));
   (0x1F98, 0x1F9F, 1, (-8)); (0x1FA8, 0x1FAF, 1, (-8)); (0x1FB8, 0x1FB9, 1, (-8)); (0x1FBA, 0x1FBB, 1, (-74));
   (0x1FBC, 0x1FBC, 1, (-9)); (0x1FC8, 0x1FCB, 1, (-86)); (0x1FCC, 0x1FCC, 1, (-9)); (0x1FD8, 0x1FD9, 1, (-8));
   (0x1FDA, 0x1FDB, 1, (-100)); (0x1FE8, 0x1FE9, 1, (-8)); (0x1FEA, 0x1FEB, 1, (-112)); (0x1FEC, 0x1FEC, 1, (-7));
   (0x1FF8, 0x1FF9, 1, (-128)); (0x1FFA, 0x1FFB, 1, (-126)); (0x1FFC, 0x1FFC, 1, (-9)); (0x2126, 0x2126, 1, (-7517));
   (0x212A, 0x212A, 1, (-8383)); (0x212B, 0x212B, 1, (-8262)); (0x2132, 0x2132, 1, 28); (0x2160, 0x216F, 1, 16);
   (0x2183, 0x2183, 1, 1); (0x24B6, 0x24CF, 1, 26); (0x2C00, 0x2C2F, 1, 48); (0x2C60, 0x2C60, 1, 1);
   (0x2C62, 0x2C62, 1, (-10743)); (0x2C63, 0x2C63, 1, (-3814)); (0x2C64, 0x2C64, 1, (-10727)); (0x2C67, 0x2C6B, 2, 1);
   (0x2C6D, 0x2C6D, 1, (-10780)); (0x2C6E, 0x2C6E, 1, (-10749)); (0x2C6F, 0x2C6F, 1, (-10783)); (0x2C70, 0x2C70, 1, (-10782));
   (0x2C72, 0x2C72, 1, 1); (0x2C75, 0x2C75, 1, 1); (0x2C7E, 0x2C7F, 1, (-10815)); (0x2C80, 0x2CE2, 2, 1);
   (0x2CEB, 0x2CED, 2, 1); (0x2CF2, 0x2CF2, 1, 1); (0xA640, 0xA66C, 2, 1); (0xA680, 0xA69A, 2, 1);
   (0xA722, 0xA72E, 2, 1); (0xA732, 0xA76E, 2, 1); (0xA779, 0xA77B, 2, 1); (0xA77D, 0xA77D, 1, (-35332));
   (0xA77E, 0xA786, 2, 1); (0xA78B, 0xA78B, 1, 1); (0xA78D, 0xA78D, 1, (-42280)); (0xA790, 0xA792, 2, 1);
   (0xA796, 0xA7A8, 2, 1); (0xA7AA, 0xA7AA, 1, (-42308)); (0xA7AB, 0xA7AB, 1, (-42319)); (0xA7AC, 0xA7AC, 1, (-42315));
   (0xA7AD, 0xA7AD, 1, (-42305)); (0xA7AE, 0xA7AE, 1, (-42308)); (0xA7B0, 0xA7B0, 1, (-42258)); (0xA7B1, 0xA7B1, 1, (-42282));
   (0xA7B2, 0xA7B2, 1, (-42261)); (0xA7B3, 0xA7B3, 1, 928); (0xA7B4, 0xA7C2, 2, 1); (0xA7C4, 0xA7C4, 1, (-48));
   (0xA7C5, 0xA7C5, 1, (-42307)); (0xA7C6, 0xA7C6, 1, (-35384)); (0xA7C7, 0xA7C9, 2, 1); (0xA7D0, 0xA7D0, 1, 1);
   (0xA7D6, 0xA7D8, 2, 1); (0xA7F5, 0xA7F5, 1, 1); (0xFF21, 0xFF3A, 1, 32); (0x10400, 0x10427, 1, 40);
   (0x104B0, 0x104D3, 1, 40); (0x10570, 0x1057A, 1, 39); (0x1057C, 0x1058A, 1, 39); (0x1058C, 0x10592, 1, 39);
   (0x10594, 0x10595, 1, 39); (0x10C80, 0x10CB2, 1, 64); (0x118A0, 0x118BF, 1, 32); (0x16E40, 0x16E5F, 1, 32);
   (0x1E900, 0x1E921, 1, 34) ]%Z.

(** The characters [str.lower] turns into several. *)
Definition lowercase_special : list (Z * list Z) :=
  [
   (0x130, [0x69; 0x307]) ]%Z.

(** [str.upper] on one character, in the same form. *)
Definition uppercase : list (Z * Z * Z * Z) :=
  [
   (0x61, 0x7A, 1, (-32)); (0xB5, 0xB5, 1, 743); (0xE0, 0xF6, 1, (-32)); (0xF8, 0xFE, 1, (-32));
   (0xFF, 0xFF, 1, 121); (0x101, 0x12F, 2, (-1)); (0x131, 0x131, 1, (-232)); (0x133, 0x137, 2, (-1));
   (0x13A, 0x148, 2, (-1)); (0x14B, 0x177, 2, (-1)); (0x17A, 0x17E, 2, (-1)); (0x17F, 0x17F, 1, (-300));
   (0x180, 0x180, 1, 195); (0x183, 0x185, 2, (-1)); (0x188, 0x188, 1, (-1)); (0x18C, 0x18C, 1, (-1));
   (0x192, 0x192, 1, (-1)); (0x195, 0x195, 1, 97); (0x199, 0x199, 1, (-1)); (0x19A, 0x19A, 1, 163);
   (0x19E, 0x19E, 1, 130); (0x1A1, 0x1A5, 2, (-1)); (0x1A8, 0x1A8, 1, (-1)); (0x1AD, 0x1AD, 1, (-1));
   (0x1B0, 0x1B0, 1, (-1)); (0x1B4, 0x1B6, 2, (-1)); (0x1B9, 0x1B9, 1, (-1)); (0x1BD, 0x1BD, 1, (-1));
   (0x1BF, 0x1BF, 1, 56); (0x1C5, 0x1C5, 1, (-1)); (0x1C6, 0x1C6, 1, (-2)); (0x1C8, 0x1C8, 1, (-1));
   (0x1C9, 0x1C9, 1, (-2)); (0x1CB, 0x1CB, 1, (-1)); (0x1CC, 0x1CC, 1, (-2)); (0x1CE, 0x1DC, 2, (-1));
   (0x1DD, 0x1DD, 1, (-79)); (0x1DF, 0x1EF, 2, (-1)); (0x1F2, 0x1F2, 1, (-1)); (0x1F3, 0x1F3, 1, (-2));
   (0x1F5, 0x1F5, 1, (-1)); (0x1F9, 0x21F, 2, (-1)); (0x223, 0x233, 2, (-1)); (0x23C, 0x23C, 1, (-1));
   (0x23F, 0x240, 1, 10815); (0x242, 0x242, 1, (-1)); (0x247, 0x24F, 2, (-1)); (0x250, 0x250, 1, 10783);
   (0x251, 0x251, 1, 10780); (0x252, 0x252, 1, 10782); (0x253, 0x253, 1, (-210)); (0x254, 0x254, 1, (-206));
   (0x256, 0x257, 1, (-205)); (0x259, 0x259, 1, (-202)); (0x25B, 0x25B, 1, (-203)); (0x25C, 0x25C, 1, 42319);
   (0x260, 0x260, 1, (-205)); (0x261, 0x261, 1, 42315); (0x263, 0x263, 1, (-207)); (0x265, 0x265, 1, 42280);
   (0x266, 0x266, 1, 42308); (0x268, 0x268, 1, (-209)); (0x269, 0x269, 1, (-211)); (0x26A, 0x26A, 1, 42308);
   (0x26B, 0x26B, 1, 10743); (0x26C, 0x26C, 1, 42305); (0x26F, 0x26F, 1, (-211)); (0x271, 0x271, 1, 10749);
   (0x272, 0x272, 1, (-213)); (0x275, 0x275, 1, (-214)); (0x27D, 0x27D, 1, 10727); (0x280, 0x280, 1, (-218));
   (0x282, 0x282, 1, 42307); (0x283, 0x283, 1, (-218)); (0x287, 0x287, 1, 42282); (0x288, 0x288, 1, (-218));
   (0x289, 0x289, 1, (-69)); (0x28A, 0x28B, 1, (-217)); (0x28C, 0x28C, 1, (-71)); (0x292, 0x292, 1, (-219));
   (0x29D, 0x29D, 1, 42261); (0x29E, 0x29E, 1, 42258); (0x345, 0x345, 1, 84); (0x371, 0x373, 2, (-1));
   (0x377, 0x377, 1, (-1)); (0x37B, 0x37D, 1, 130); (0x3AC, 0x3AC, 1, (-38)); (0x3AD, 0x3AF, 1, (-37));
   (0x3B1, 0x3C1, 1, (-32)); (0x3C2, 0x3C2, 1, (-31)); (0x3C3, 0x3CB, 1, (-32)); (0x3CC, 0x3CC, 1, (-64));
   (0x3CD, 0x3CE, 1, (-63)); (0x3D0, 0x3D0, 1, (-62)); (0x3D1, 0x3D1, 1, (-57)); (0x3D5, 0x3D5, 1, (-47));
   (0x3D6, 0x3D6, 1, (-54)); (0x3D7, 0x3D7, 1, (-8)); (0x3D9, 0x3EF, 2, (-1)); (0x3F0, 0x3F0, 1, (-86));
   (0x3F1, 0x3F1, 1, (-80)); (0x3F2, 0x3F2, 1, 7); (0x3F3, 0x3F3, 1, (-116)); (0x3F5, 0x3F5, 1, (-96));
   (0x3F8, 0x3F8, 1, (-1)); (0x3FB, 0x3FB, 1, (-1)); (0x430, 0x44F, 1, (-32)); (0x450, 0x45F, 1, (-80));
   (0x461, 0x481, 2, (-1)); (0x48B, 0x4BF, 2, (-1)); (0x4C2, 0x4CE, 2, (-1)); (0x4CF, 0x4CF, 1, (-15));
   (0x4D1, 0x52F, 2, (-1)); (0x561, 0x586, 1, (-48)); (0x10D0, 0x10FA, 1, 3008); (0x10FD, 0x10FF, 1, 3008);
   (0x13F8, 0x13FD, 1, (-8)); (0x1C80, 0x1C80, 1, (-6254)); (0x1C81, 0x1C81, 1, (-6253)); (0x1C82, 0x1C82, 1, (-6244));
   (0x1C83, 0x1C84, 1, (-6242)); (0x1C85, 0x1C85, 1, (-6243)); (0x1C86, 0x1C86, 1, (-6236)); (0x1C87, 0x1C87, 1, (-6181));
   (0x1C88, 0x1C88, 1, 35266); (0x1D79, 0x1D79, 1, 35332); (0x1D7D, 0x1D7D, 1, 3814); (0x1D8E, 0x1D8E, 1, 35384);
   (0x1E01, 0x1E95, 2, (-1)); (0x1E9B, 0x1E9B, 1, (-59)); (0x1EA1, 0x1EFF, 2, (-1)); (0x1F00, 0x1F07, 1, 8);
   (0x1F10, 0x1F15, 1, 8); (0x1F20, 0x1F27, 1, 8); (0x1F30, 0x1F37, 1, 8); (0x1F40, 0x1F45, 1, 8);
   (0x1F51, 0x1F57, 2, 8); (0x1F60, 0x1F67, 1, 8); (0x1F70, 0x1F71, 1, 74); (0x1F72, 0x1F75, 1, 86);
   (0x1F76, 0x1F77, 1, 100); (0x1F78, 0x1F79, 1, 128); (0x1F7A, 0x1F7B, 1, 112); (0x1F7C, 0x1F7D, 1, 126);
   (0x1FB0, 0x1FB1, 1, 8); (0x1FBE, 0x1FBE, 1, (-7205)); (0x1FD0, 0x1FD1, 1, 8); (0x1FE0, 0x1FE1, 1, 8);
   (0x1FE5, 0x1FE5, 1, 7); (0x214E, 0x214E, 1, (-28)); (0x2170, 0x217F, 1, (-16)); (0x2184, 0x2184, 1, (-1));
   (0x24D0, 0x24E9, 1, (-26)); (0x2C30, 0x2C5F, 1, (-48)); (0x2C61, 0x2C61, 1, (-1)); (0x2C65, 0x2C65, 1, (-10795));
   (0x2C66, 0x2C66, 1, (-10792)); (0x2C68, 0x2C6C, 2, (-1)); (0x2C73, 0x2C73, 1, (-1)); (0x2C76, 0x2C76, 1, (-1));
   (0x2C81, 0x2CE3, 2, (-1)); (0x2CEC, 0x2CEE, 2, (-1)); (0x2CF3, 0x2CF3, 1, (-1)); (0x2D00, 0x2D25, 1, (-7264));
   (0x2D27, 0x2D27, 1, (-7264)); (0x2D2D, 0x2D2D, 1, (-7264)); (0xA641, 0xA66D, 2, (-1)); (0xA681, 0xA69B, 2, (-1));
   (0xA723, 0xA72F, 2, (-1)); (0xA733, 0xA76F, 2, (-1)); (0xA77A, 0xA77C, 2, (-1)); (0xA77F, 0xA787, 2, (-1));
   (0xA78C, 0xA78C, 1, (-1)); (0xA791, 0xA793, 2, (-1)); (0xA794, 0xA794, 1, 48); (0xA797, 0xA7A9, 2, (-1));
   (0xA7B5, 0xA7C3, 2, (-1)); (0xA7C8, 0xA7CA, 2, (-1)); (0xA7D1, 0xA7D1, 1, (-1)); (0xA7D7, 0xA7D9, 2, (-1));
   (0xA7F6, 0xA7F6, 1, (-1)); (0xAB53, 0xAB53, 1, (-928)); (0xAB70, 0xABBF, 1, (-38864)); (0xFF41, 0xFF5A, 1, (-32));
   (0x10428, 0x1044F, 1, (-40)); (0x104D8, 0x104FB, 1, (-40)); (0x10597, 0x105A1, 1, (-39)); (0x105A3, 0x105B1, 1, (-39));
   (0x105B3, 0x105B9, 1, (-39)); (0x105BB, 0x105BC, 1, (-39)); (0x10CC0, 0x10CF2, 1, (-64)); (0x118C0, 0x118DF, 1, (-32));
   (0x16E60, 0x16E7F, 1, (-32)); (0x1E922, 0x1E943, 1, (-34)) ]%Z.

(** The characters [str.upper] turns into several. *)
Definition uppercase_special : list (Z * list Z) :=
  [
   (0xDF, [0x53; 0x53]); (0x149, [0x2BC; 0x4E]); (0x1F0, [0x4A; 0x30C]); (0x390, [0x399; 0x308; 0x301]);
   (0x3B0, [0x3A5; 0x308; 0x301]); (0x587, [0x535; 0x552]); (0x1E96, [0x48; 0x331]); (0x1E97, [0x54; 0x308]);
   (0x1E98, [0x57; 0x30A]); (0x1E99, [0x59; 0x30A]); (0x1E9A, [0x41; 0x2BE]); (0x1F50, [0x3A5; 0x313]);
   (0x1F52, [0x3A5; 0x313; 0x300]); (0x1F54, [0x3A5; 0x313; 0x301]); (0x1F56, [0x3A5; 0x313; 0x342]); (0x1F80, [0x1F08; 0x399]);
   (0x1F81, [0x1F09; 0x399]); (0x1F82, [0x1F0A; 0x399]); (0x1F83, [0x1F0B; 0x399]); (0x1F84, [0x1F0C; 0x399]);
   (0x1F85, [0x1F0D; 0x399]); (0x1F86, [0x1F0E; 0x399]); (0x1F87, [0x1F0F; 0x399]); (0x1F88, [0x1F08; 0x399]);
   (0x1F89, [0x1F09; 0x399]); (0x1F8A, [0x1F0A; 0x399]); (0x1F8B, [0x1F0B; 0x399]); (0x1F8C, [0x1F0C; 0x399]);
   (0x1F8D, [0x1F0D; 0x399]); (0x1F8E, [0x1F0E; 0x399]); (0x1F8F, [0x1F0F; 0x399]); (0x1F90, [0x1F28; 0x399]);
   (0x1F91, [0x1F29; 0x399]); (0x1F92, [0x1F2A; 0x399]); (0x1F93, [0x1F2B; 0x399]); (0x1F94, [0x1F2C; 0x399]);
   (0x1F95, [0x1F2D; 0x399]); (0x1F96, [0x1F2E; 0x399]); (0x1F97, [0x1F2F; 0x399]); (0x1F98, [0x1F28; 0x399]);
   (0x1F99, [0x1F29; 0x399]); (0x1F9A, [0x1F2A; 0x399]); (0x1F9B, [0x1F2B; 0x399]); (0x1F9C, [0x1F2C; 0x399]);
   (0x1F9D, [0x1F2D; 0x399]); (0x1F9E, [0x1F2E; 0x399]); (0x1F9F, [0x1F2F; 0x399]); (0x1FA0, [0x1F68; 0x399]);
   (0x1FA1, [0x1F69; 0x399]); (0x1FA2, [0x1F6A; 0x399]); (0x1FA3, [0x1F6B; 0x399]); (0x1FA4, [0x1F6C; 0x399]);
   (0x1FA5, [0x1F6D; 0x399]); (0x1FA6, [0x1F6E; 0x399]); (0x1FA7, [0x1F6F; 0x399]); (0x1FA8, [0x1F68; 0x399]);
   (0x1FA9, [0x1F69; 0x399]); (0x1FAA, [0x1F6A; 0x399]); (0x1FAB, [0x1F6B; 0x399]); (0x1FAC, [0x1F6C; 0x399]);
   (0x1FAD, [0x1F6D; 0x399]); (0x1FAE, [0x1F6E; 0x399]); (0x1FAF, [0x1F6F; 0x399]); (0x1FB2, [0x1FBA; 0x399]);
   (0x1FB3, [0x391; 0x399]); (0x1FB4, [0x386; 0x399]); (0x1FB6, [0x391; 0x342]); (0x1FB7, [0x391; 0x342; 0x399]);
   (0x1FBC, [0x391; 0x399]); (0x1FC2, [0x1FCA; 0x399]); (0x1FC3, [0x397; 0x399]); (0x1FC4, [0x389; 0x399]);
   (0x1FC6, [0x397; 0x342]); (0x1FC7, [0x397; 0x342; 0x399]); (0x1FCC, [0x397; 0x399]); (0x1FD2, [0x399; 0x308; 0x300]);
   (0x1FD3, [0x399; 0x308; 0x301]); (0x1FD6, [0x399; 0x342]); (0x1FD7, [0x399; 0x308; 0x342]); (0x1FE2, [0x3A5; 0x308; 0x300]);
   (0x1FE3, [0x3A5; 0x308; 0x301]); (0x1FE4, [0x3A1; 0x313]); (0x1FE6, [0x3A5; 0x342]); (0x1FE7, [0x3A5; 0x308; 0x342]);
   (0x1FF2, [0x1FFA; 0x399]); (0x1FF3, [0x3A9; 0x399]); (0x1FF4, [0x38F; 0x399]); (0x1FF6, [0x3A9; 0x342]);
   (0x1FF7, [0x3A9; 0x342; 0x399]); (0x1FFC, [0x3A9; 0x399]); (0xFB00, [0x46; 0x46]); (0xFB01, [0x46; 0x49]);
   (0xFB02, [0x46; 0x4C]); (0xFB03, [0x46; 0x46; 0x49]); (0xFB04, [0x46; 0x46; 0x4C]); (0xFB05, [0x53; 0x54]);
   (0xFB06, [0x53; 0x54]); (0xFB13, [0x544; 0x546]); (0xFB14, [0x544; 0x535]); (0xFB15, [0x544; 0x53B]);
   (0xFB16, [0x54E; 0x546]); (0xFB17, [0x544; 0x53D]) ]%Z.

(** The characters the rule for a final sigma skips. *)
Definition case_ignorable : list (Z * Z) :=
  [
   (0x27, 0x27); (0x2E, 0x2E); (0x3A, 0x3A); (0x5E, 0x5E); (0x60, 0x60); (0xA8, 0xA8);
   (0xAD, 0xAD); (0xAF, 0xAF); (0xB4, 0xB4); (0xB7, 0xB8); (0x2B0, 0x36F); (0x374, 0x375);
   (0x37A, 0x37A); (0x384, 0x385); (0x387, 0x387); (0x483, 0x489); (0x559, 0x559); (0x55F, 0x55F);
   (0x591, 0x5BD); (0x5BF, 0x5BF); (0x5C1, 0x5C2); (0x5C4, 0x5C5); (0x5C7, 0x5C7); (0x5F4, 0x5F4);
   (0x600, 0x605); (0x610, 0x61A); (0x61C, 0x61C); (0x640, 0x640); (0x64B, 0x65F); (0x670, 0x670);
   (0x6D6, 0x6DD); (0x6DF, 0x6E8); (0x6EA, 0x6ED); (0x70F, 0x70F); (0x711, 0x711); (0x730, 0x74A);
   (0x7A6, 0x7B0); (0x7EB, 0x7F5); (0x7FA, 0x7FA); (0x7FD, 0x7FD); (0x816, 0x82D); (0x859, 0x85B);
   (0x888, 0x888); (0x890, 0x891); (0x898, 0x89F); (0x8C9, 0x902); (0x93A, 0x93A); (0x93C, 0x93C);
   (0x941, 0x948); (0x94D, 0x94D); (0x951, 0x957); (0x962, 0x963); (0x971, 0x971); (0x981, 0x981);
   (0x9BC, 0x9BC); (0x9C1, 0x9C4); (0x9CD, 0x9CD); (0x9E2, 0x9E3); (0x9FE, 0x9FE); (0xA01, 0xA02);
   (0xA3C, 0xA3C); (0xA41, 0xA42); (0xA47, 0xA48); (0xA4B, 0xA4D); (0xA51, 0xA51); (0xA70, 0xA71);
   (0xA75, 0xA75); (0xA81, 0xA82); (0xABC, 0xABC); (0xAC1, 0xAC5); (0xAC7, 0xAC8); (0xACD, 0xACD);
   (0xAE2, 0xAE3); (0xAFA, 0xAFF); (0xB01, 0xB01); (0xB3C, 0xB3C); (0xB3F, 0xB3F); (0xB41, 0xB44);
   (0xB4D, 0xB4D); (0xB55, 0xB56); (0xB62, 0xB63); (0xB82, 0xB82); (0xBC0, 0xBC0); (0xBCD, 0xBCD);
   (0xC00, 0xC00); (0xC04, 0xC04); (0xC3C, 0xC3C); (0xC3E, 0xC40); (0xC46, 0xC48); (0xC4A, 0xC4D);
   (0xC55, 0xC56); (0xC62, 0xC63); (0xC81, 0xC81); (0xCBC, 0xCBC); (0xCBF, 0xCBF); (0xCC6, 0xCC6);
   (0xCCC, 0xCCD); (0xCE2, 0xCE3); (0xD00, 0xD01); (0xD3B, 0xD3C); (0xD41, 0xD44); (0xD4D, 0xD4D);
   (0xD62, 0xD63); (0xD81, 0xD81); (0xDCA, 0xDCA); (0xDD2, 0xDD4); (0xDD6, 0xDD6); (0xE31, 0xE31);
   (0xE34, 0xE3A); (0xE46, 0xE4E); (0xEB1, 0xEB1); (0xEB4, 0xEBC); (0xEC6, 0xEC6); (0xEC8, 0xECD);
   (0xF18, 0xF19); (0xF35, 0xF35); (0xF37, 0xF37); (0xF39, 0xF39); (0xF71, 0xF7E); (0xF80, 0xF84);
   (0xF86, 0xF87); (0xF8D, 0xF97); (0xF99, 0xFBC); (0xFC6, 0xFC6); (0x102D, 0x1030); (0x1032, 0x1037);
   (0x1039, 0x103A); (0x103D, 0x103E); (0x1058, 0x1059); (0x105E, 0x1060); (0x1071, 0x1074); (0x1082, 0x1082);
   (0x1085, 0x1086); (0x108D, 0x108D); (0x109D, 0x109D); (0x10FC, 0x10FC); (0x135D, 0x135F); (0x1712, 0x1714);
   (0x1732, 0x1733); (0x1752, 0x1753); (0x1772, 0x1773); (0x17B4, 0x17B5); (0x17B7, 0x17BD); (0x17C6, 0x17C6);
   (0x17C9, 0x17D3); (0x17D7, 0x17D7); (0x17DD, 0x17DD); (0x180B, 0x180F); (0x1843, 0x1843); (0x1885, 0x1886);
   (0x18A9, 0x18A9); (0x1920, 0x1922); (0x1927, 0x1928); (0x1932, 0x1932); (0x1939, 0x193B); (0x1A17, 0x1A18);
   (0x1A1B, 0x1A1B); (0x1A56, 0x1A56); (0x1A58, 0x1A5E); (0x1A60, 0x1A60); (0x1A62, 0x1A62); (0x1A65, 0x1A6C);
   (0x1A73, 0x1A7C); (0x1A7F, 0x1A7F); (0x1AA7, 0x1AA7); (0x1AB0, 0x1ACE); (0x1B00, 0x1B03); (0x1B34, 0x1B34);
   (0x1B36, 0x1B3A); (0x1B3C, 0x1B3C); (0x1B42, 0x1B42); (0x1B6B, 0x1B73); (0x1B80, 0x1B81); (0x1BA2, 0x1BA5);
   (0x1BA8, 0x1BA9); (0x1BAB, 0x1BAD); (0x1BE6, 0x1BE6); (0x1BE8, 0x1BE9); (0x1BED, 0x1BED); (0x1BEF, 0x1BF1);
   (0x1C2C, 0x1C33); (0x1C36, 0x1C37); (0x1C78, 0x1C7D); (0x1CD0, 0x1CD2); (0x1CD4, 0x1CE0); (0x1CE2, 0x1CE8);
   (0x1CED, 0x1CED); (0x1CF4, 0x1CF4); (0x1CF8, 0x1CF9); (0x1D2C, 0x1D6A); (0x1D78, 0x1D78); (0x1D9B, 0x1DFF);
   (0x1FBD, 0x1FBD); (0x1FBF, 0x1FC1); (0x1FCD, 0x1FCF); (0x1FDD, 0x1FDF); (0x1FED, 0x1FEF); (0x1FFD, 0x1FFE);
   (0x200B, 0x200F); (0x2018, 0x2019); (0x2024, 0x2024); (0x2027, 0x2027); (0x202A, 0x202E); (0x2060, 0x2064);
   (0x2066, 0x206F); (0x2071, 0x2071); (0x207F, 0x207F); (0x2090, 0x209C); (0x20D0, 0x20F0); (0x2C7C, 0x2C7D);
   (0x2CEF, 0x2CF1); (0x2D6F, 0x2D6F); (0x2D7F, 0x2D7F); (0x2DE0, 0x2DFF); (0x2E2F, 0x2E2F); (0x3005, 0x3005);
   (0x302A, 0x302D); (0x3031, 0x3035); (0x303B, 0x303B); (0x3099, 0x309E); (0x30FC, 0x30FE); (0xA015, 0xA015);
   (0xA4F8, 0xA4FD); (0xA60C, 0xA60C); (0xA66F, 0xA672); (0xA674, 0xA67D); (0xA67F, 0xA67F); (0xA69C, 0xA69F);
   (0xA6F0, 0xA6F1); (0xA700, 0xA721); (0xA770, 0xA770); (0xA788, 0xA78A); (0xA7F2, 0xA7F4); (0xA7F8, 0xA7F9);
   (0xA802, 0xA802); (0xA806, 0xA806); (0xA80B, 0xA80B); (0xA825, 0xA826); (0xA82C, 0xA82C); (0xA8C4, 0xA8C5);
   (0xA8E0, 0xA8F1); (0xA8FF, 0xA8FF); (0xA926, 0xA92D); (0xA947, 0xA951); (0xA980, 0xA982); (0xA9B3, 0xA9B3);
   (0xA9B6, 0xA9B9); (0xA9BC, 0xA9BD); (0xA9CF, 0xA9CF); (0xA9E5, 0xA9E6); (0xAA29, 0xAA2E); (0xAA31, 0xAA32);
   (0xAA35, 0xAA36); (0xAA43, 0xAA43); (0xAA4C, 0xAA4C); (0xAA70, 0xAA70); (0xAA7C, 0xAA7C); (0xAAB0, 0xAAB0);
   (0xAAB2, 0xAAB4); (0xAAB7, 0xAAB8); (0xAABE, 0xAABF); (0xAAC1, 0xAAC1); (0xAADD, 0xAADD); (0xAAEC, 0xAAED);
   (0xAAF3, 0xAAF4); (0xAAF6, 0xAAF6); (0xAB5B, 0xAB5F); (0xAB69, 0xAB6B); (0xABE5, 0xABE5); (0xABE8, 0xABE8);
   (0xABED, 0xABED); (0xFB1E, 0xFB1E); (0xFBB2, 0xFBC2); (0xFE00, 0xFE0F); (0xFE13, 0xFE13); (0xFE20, 0xFE2F);
   (0xFE52, 0xFE52); (0xFE55, 0xFE55); (0xFEFF, 0xFEFF); (0xFF07, 0xFF07); (0xFF0E, 0xFF0E); (0xFF1A, 0xFF1A);
   (0xFF3E, 0xFF3E); (0xFF40, 0xFF40); (0xFF70, 0xFF70); (0xFF9E, 0xFF9F); (0xFFE3, 0xFFE3); (0xFFF9, 0xFFFB);
   (0x101FD, 0x101FD); (0x102E0, 0x102E0); (0x10376, 0x1037A); (0x10780, 0x10785); (0x10787, 0x107B0); (0x107B2, 0x107BA);
   (0x10A01, 0x10A03); (0x10A05, 0x10A06); (0x10A0C, 0x10A0F); (0x10A38, 0x10A3A); (0x10A3F, 0x10A3F); (0x10AE5, 0x10AE6);
   (0x10D24, 0x10D27); (0x10EAB, 0x10EAC); (0x10F46, 0x10F50); (0x10F82, 0x10F85); (0x11001, 0x11001); (0x11038, 0x11046);
   (0x11070, 0x11070); (0x11073, 0x11074); (0x1107F, 0x11081); (0x110B3, 0x110B6); (0x110B9, 0x110BA); (0x110BD, 0x110BD);
   (0x110C2, 0x110C2); (0x110CD, 0x110CD); (0x11100, 0x11102); (0x11127, 0x1112B); (0x1112D, 0x11134); (0x11173, 0x11173);
   (0x11180, 0x11181); (0x111B6, 0x111BE); (0x111C9, 0x111CC); (0x111CF, 0x111CF); (0x1122F, 0x11231); (0x11234, 0x11234);
   (0x11236, 0x11237); (0x1123E, 0x1123E); (0x112DF, 0x112DF); (0x112E3, 0x112EA); (0x11300, 0x11301); (0x1133B, 0x1133C);
   (0x11340, 0x11340); (0x11366, 0x1136C); (0x11370, 0x11374); (0x11438, 0x1143F); (0x11442, 0x11444); (0x11446, 0x11446);
   (0x1145E, 0x1145E); (0x114B3, 0x114B8); (0x114BA, 0x114BA); (0x114BF, 0x114C0); (0x114C2, 0x114C3); (0x115B2, 0x115B5);
   (0x115BC, 0x115BD); (0x115BF, 0x115C0); (0x115DC, 0x115DD); (0x11633, 0x1163A); (0x1163D, 0x1163D); (0x1163F, 0x11640);
   (0x116AB, 0x116AB); (0x116AD, 0x116AD); (0x116B0, 0x116B5); (0x116B7, 0x116B7); (0x1171D, 0x1171F); (0x11722, 0x11725);
   (0x11727, 0x1172B); (0x1182F, 0x11837); (0x11839, 0x1183A); (0x1193B, 0x1193C); (0x1193E, 0x1193E); (0x11943, 0x11943);
   (0x119D4, 0x119D7); (0x119DA, 0x119DB); (0x119E0, 0x119E0); (0x11A01, 0x11A0A); (0x11A33, 0x11A38); (0x11A3B, 0x11A3E);
   (0x11A47, 0x11A47); (0x11A51, 0x11A56); (0x11A59, 0x11A5B); (0x11A8A, 0x11A96); (0x11A98, 0x11A99); (0x11C30, 0x11C36);
   (0x11C38, 0x11C3D); (0x11C3F, 0x11C3F); (0x11C92, 0x11CA7); (0x11CAA, 0x11CB0); (0x11CB2, 0x11CB3); (0x11CB5, 0x11CB6);
   (0x11D31, 0x11D36); (0x11D3A, 0x11D3A); (0x11D3C, 0x11D3D); (0x11D3F, 0x11D45); (0x11D47, 0x11D47); (0x11D90, 0x11D91);
   (0x11D95, 0x11D95); (0x11D97, 0x11D97); (0x11EF3, 0x11EF4); (0x13430, 0x13438); (0x16AF0, 0x16AF4); (0x16B30, 0x16B36);
   (0x16B40, 0x16B43); (0x16F4F, 0x16F4F); (0x16F8F, 0x16F9F); (0x16FE0, 0x16FE1); (0x16FE3, 0x16FE4); (0x1AFF0, 0x1AFF3);
   (0x1AFF5, 0x1AFFB); (0x1AFFD, 0x1AFFE); (0x1BC9D, 0x1BC9E); (0x1BCA0, 0x1BCA3); (0x1CF00, 0x1CF2D); (0x1CF30, 0x1CF46);
   (0x1D167, 0x1D169); (0x1D173, 0x1D182); (0x1D185, 0x1D18B); (0x1D1AA, 0x1D1AD); (0x1D242, 0x1D244); (0x1DA00, 0x1DA36);
   (0x1DA3B, 0x1DA6C); (0x1DA75, 0x1DA75); (0x1DA84, 0x1DA84); (0x1DA9B, 0x1DA9F); (0x1DAA1, 0x1DAAF); (0x1E000, 0x1E006);
   (0x1E008, 0x1E018); (0x1E01B, 0x1E021); (0x1E023, 0x1E024); (0x1E026, 0x1E02A); (0x1E130, 0x1E13D); (0x1E2AE, 0x1E2AE);
   (0x1E2EC, 0x1E2EF); (0x1E8D0, 0x1E8D6); (0x1E944, 0x1E94B); (0x1F3FB, 0x1F3FF); (0xE0001, 0xE0001); (0xE0020, 0xE007F);
   (0xE0100, 0xE01EF) ]%Z.

(** The cased characters among those it does not skip. *)
Definition cased_letters : list (Z * Z) :=
  [
   (0x41, 0x5A); (0x61, 0x7A); (0xAA, 0xAA); (0xB5, 0xB5); (0xBA, 0xBA); (0xC0, 0xD6);
   (0xD8, 0xF6); (0xF8, 0x1BA); (0x1BC, 0x1BF); (0x1C4, 0x293); (0x295, 0x2AF); (0x370, 0x373);
   (0x376, 0x377); (0x37B, 0x37D); (0x37F, 0x37F); (0x386, 0x386); (0x388, 0x38A); (0x38C, 0x38C);
   (0x38E, 0x3A1); (0x3A3, 0x3F5); (0x3F7, 0x481); (0x48A, 0x52F); (0x531, 0x556); (0x560, 0x588);
   (0x10A0, 0x10C5); (0x10C7, 0x10C7); (0x10CD, 0x10CD); (0x10D0, 0x10FA); (0x10FD, 0x10FF); (0x13A0, 0x13F5);
   (0x13F8, 0x13FD); (0x1C80, 0x1C88); (0x1C90, 0x1CBA); (0x1CBD, 0x1CBF); (0x1D00, 0x1D2B); (0x1D6B, 0x1D77);
   (0x1D79, 0x1D9A); (0x1E00, 0x1F15); (0x1F18, 0x1F1D); (0x1F20, 0x1F45); (0x1F48, 0x1F4D); (0x1F50, 0x1F57);
   (0x1F59, 0x1F59); (0x1F5B, 0x1F5B); (0x1F5D, 0x1F5D); (0x1F5F, 0x1F7D); (0x1F80, 0x1FB4); (0x1FB6, 0x1FBC);
   (0x1FBE, 0x1FBE); (0x1FC2, 0x1FC4); (0x1FC6, 0x1FCC); (0x1FD0, 0x1FD3); (0x1FD6, 0x1FDB); (0x1FE0, 0x1FEC);
   (0x1FF2, 0x1FF4); (0x1FF6, 0x1FFC); (0x2102, 0x2102); (0x2107, 0x2107); (0x210A, 0x2113); (0x2115, 0x2115);
   (0x2119, 0x211D); (0x2124, 0x2124); (0x2126, 0x2126); (0x2128, 0x2128); (0x212A, 0x212D); (0x212F, 0x2134);
   (0x2139, 0x2139); (0x213C, 0x213F); (0x2145, 0x2149); (0x214E, 0x214E); (0x2160, 0x217F); (0x2183, 0x2184);
   (0x24B6, 0x24E9); (0x2C00, 0x2C7B); (0x2C7E, 0x2CE4); (0x2CEB, 0x2CEE); (0x2CF2, 0x2CF3); (0x2D00, 0x2D25);
   (0x2D27, 0x2D27); (0x2D2D, 0x2D2D); (0xA640, 0xA66D); (0xA680, 0xA69B); (0xA722, 0xA76F); (0xA771, 0xA787);
   (0xA78B, 0xA78E); (0xA790, 0xA7CA); (0xA7D0, 0xA7D1); (0xA7D3, 0xA7D3); (0xA7D5, 0xA7D9); (0xA7F5, 0xA7F6);
   (0xA7FA, 0xA7FA); (0xAB30, 0xAB5A); (0xAB60, 0xAB68); (0xAB70, 0xABBF); (0xFB00, 0xFB06); (0xFB13, 0xFB17);
   (0xFF21, 0xFF3A); (0xFF41, 0xFF5A); (0x10400, 0x1044F); (0x104B0, 0x104D3); (0x104D8, 0x104FB); (0x10570, 0x1057A);
   (0x1057C, 0x1058A); (0x1058C, 0x10592); (0x10594, 0x10595); (0x10597, 0x105A1); (0x105A3, 0x105B1); (0x105B3, 0x105B9);
   (0x105BB, 0x105BC); (0x10C80, 0x10CB2); (0x10CC0, 0x10CF2); (0x118A0, 0x118DF); (0x16E40, 0x16E7F); (0x1D400, 0x1D454);
   (0x1D456, 0x1D49C); (0x1D49E, 0x1D49F); (0x1D4A2, 0x1D4A2); (0x1D4A5, 0x1D4A6); (0x1D4A9, 0x1D4AC); (0x1D4AE, 0x1D4B9);
   (0x1D4BB, 0x1D4BB); (0x1D4BD, 0x1D4C3); (0x1D4C5, 0x1D505); (0x1D507, 0x1D50A); (0x1D50D, 0x1D514); (0x1D516, 0x1D51C);
   (0x1D51E, 0x1D539); (0x1D53B, 0x1D53E); (0x1D540, 0x1D544); (0x1D546, 0x1D546); (0x1D54A, 0x1D550); (0x1D552, 0x1D6A5);
   (0x1D6A8, 0x1D6C0); (0x1D6C2, 0x1D6DA); (0x1D6DC, 0x1D6FA); (0x1D6FC, 0x1D714); (0x1D716, 0x1D734); (0x1D736, 0x1D74E);
   (0x1D750, 0x1D76E); (0x1D770, 0x1D788); (0x1D78A, 0x1D7A8); (0x1D7AA, 0x1D7C2); (0x1D7C4, 0x1D7CB); (0x1DF00, 0x1DF09);
   (0x1DF0B, 0x1DF1E); (0x1E900, 0x1E943); (0x1F130, 0x1F149); (0x1F150, 0x1F169); (0x1F170, 0x1F189) ]%Z.

(** The characters [repr] writes as an escape ([str.isprintable] is false). *)
Definition not_printable : list (Z * Z) :=
  [
   (0x0, 0x1F); (0x7F, 0xA0); (0xAD, 0xAD); (0x378, 0x379); (0x380, 0x383); (0x38B, 0x38B);
   (0x38D, 0x38D); (0x3A2, 0x3A2); (0x530, 0x530); (0x557, 0x558); (0x58B, 0x58C); (0x590, 0x590);
   (0x5C8, 0x5CF); (0x5EB, 0x5EE); (0x5F5, 0x605); (0x61C, 0x61C); (0x6DD, 0x6DD); (0x70E, 0x70F);
   (0x74B, 0x74C); (0x7B2, 0x7BF); (0x7FB, 0x7FC); (0x82E, 0x82F); (0x83F, 0x83F); (0x85C, 0x85D);
   (0x85F, 0x85F); (0x86B, 0x86F); (0x88F, 0x897); (0x8E2, 0x8E2); (0x984, 0x984); (0x98D, 0x98E);
   (0x991, 0x992); (0x9A9, 0x9A9); (0x9B1, 0x9B1); (0x9B3, 0x9B5); (0x9BA, 0x9BB); (0x9C5, 0x9C6);
   (0x9C9, 0x9CA); (0x9CF, 0x9D6); (0x9D8, 0x9DB); (0x9DE, 0x9DE); (0x9E4, 0x9E5); (0x9FF, 0xA00);
   (0xA04, 0xA04); (0xA0B, 0xA0E); (0xA11, 0xA12); (0xA29, 0xA29); (0xA31, 0xA31); (0xA34, 0xA34);
   (0xA37, 0xA37); (0xA3A, 0xA3B); (0xA3D, 0xA3D); (0xA43, 0xA46); (0xA49, 0xA4A); (0xA4E, 0xA50);
   (0xA52, 0xA58); (0xA5D, 0xA5D); (0xA5F, 0xA65); (0xA77, 0xA80); (0xA84, 0xA84); (0xA8E, 0xA8E);
   (0xA92, 0xA92); (0xAA9, 0xAA9); (0xAB1, 0xAB1); (0xAB4, 0xAB4); (0xABA, 0xABB); (0xAC6, 0xAC6);
   (0xACA, 0xACA); (0xACE, 0xACF); (0xAD1, 0xADF); (0xAE4, 0xAE5); (0xAF2, 0xAF8); (0xB00, 0xB00);
   (0xB04, 0xB04); (0xB0D, 0xB0E); (0xB11, 0xB12); (0xB29, 0xB29); (0xB31, 0xB31); (0xB34, 0xB34);
   (0xB3A, 0xB3B); (0xB45, 0xB46); (0xB49, 0xB4A); (0xB4E, 0xB54); (0xB58, 0xB5B); (0xB5E, 0xB5E);
   (0xB64, 0xB65); (0xB78, 0xB81); (0xB84, 0xB84); (0xB8B, 0xB8D); (0xB91, 0xB91); (0xB96, 0xB98);
   (0xB9B, 0xB9B); (0xB9D, 0xB9D); (0xBA0, 0xBA2); (0xBA5, 0xBA7); (0xBAB, 0xBAD); (0xBBA, 0xBBD);
   (0xBC3, 0xBC5); (0xBC9, 0xBC9); (0xBCE, 0xBCF); (0xBD1, 0xBD6); (0xBD8, 0xBE5); (0xBFB, 0xBFF);
   (0xC0D, 0xC0D); (0xC11, 0xC11); (0xC29, 0xC29); (0xC3A, 0xC3B); (0xC45, 0xC45); (0xC49, 0xC49);
   (0xC4E, 0xC54); (0xC57, 0xC57); (0xC5B, 0xC5C); (0xC5E, 0xC5F); (0xC64, 0xC65); (0xC70, 0xC76);
   (0xC8D, 0xC8D); (0xC91, 0xC91); (0xCA9, 0xCA9); (0xCB4, 0xCB4); (0xCBA, 0xCBB); (0xCC5, 0xCC5);
   (0xCC9, 0xCC9); (0xCCE, 0xCD4); (0xCD7, 0xCDC); (0xCDF, 0xCDF); (0xCE4, 0xCE5); (0xCF0, 0xCF0);
   (0xCF3, 0xCFF); (0xD0D, 0xD0D); (0xD11, 0xD11); (0xD45, 0xD45); (0xD49, 0xD49); (0xD50, 0xD53);
   (0xD64, 0xD65); (0xD80, 0xD80); (0xD84, 0xD84); (0xD97, 0xD99); (0xDB2, 0xDB2); (0xDBC, 0xDBC);
   (0xDBE, 0xDBF); (0xDC7, 0xDC9); (0xDCB, 0xDCE); (0xDD5, 0xDD5); (0xDD7, 0xDD7); (0xDE0, 0xDE5);
   (0xDF0, 0xDF1); (0xDF5, 0xE00); (0xE3B, 0xE3E); (0xE5C, 0xE80); (0xE83, 0xE83); (0xE85, 0xE85);
   (0xE8B, 0xE8B); (0xEA4, 0xEA4); (0xEA6, 0xEA6); (0xEBE, 0xEBF); (0xEC5, 0xEC5); (0xEC7, 0xEC7);
   (0xECE, 0xECF); (0xEDA, 0xEDB); (0xEE0, 0xEFF); (0xF48, 0xF48); (0xF6D, 0xF70); (0xF98, 0xF98);
   (0xFBD, 0xFBD); (0xFCD, 0xFCD); (0xFDB, 0xFFF); (0x10C6, 0x10C6); (0x10C8, 0x10CC); (0x10CE, 0x10CF);
   (0x1249, 0x1249); (0x124E, 0x124F); (0x1257, 0x1257); (0x1259, 0x1259); (0x125E, 0x125F); (0x1289, 0x1289);
   (0x128E, 0x128F); (0x12B1, 0x12B1); (0x12B6, 0x12B7); (0x12BF, 0x12BF); (0x12C1, 0x12C1); (0x12C6, 0x12C7);
   (0x12D7, 0x12D7); (0x1311, 0x1311); (0x1316, 0x1317); (0x135B, 0x135C); (0x137D, 0x137F); (0x139A, 0x139F);
   (0x13F6, 0x13F7); (0x13FE, 0x13FF); (0x1680, 0x1680); (0x169D, 0x169F); (0x16F9, 0x16FF); (0x1716, 0x171E);
   (0x1737, 0x173F); (0x1754, 0x175F); (0x176D, 0x176D); (0x1771, 0x1771); (0x1774, 0x177F); (0x17DE, 0x17DF);
   (0x17EA, 0x17EF); (0x17FA, 0x17FF); (0x180E, 0x180E); (0x181A, 0x181F); (0x1879, 0x187F); (0x18AB, 0x18AF);
   (0x18F6, 0x18FF); (0x191F, 0x191F); (0x192C, 0x192F); (0x193C, 0x193F); (0x1941, 0x1943); (0x196E, 0x196F);
   (0x1975, 0x197F); (0x19AC, 0x19AF); (0x19CA, 0x19CF); (0x19DB, 0x19DD); (0x1A1C, 0x1A1D); (0x1A5F, 0x1A5F);
   (0x1A7D, 0x1A7E); (0x1A8A, 0x1A8F); (0x1A9A, 0x1A9F); (0x1AAE, 0x1AAF); (0x1ACF, 0x1AFF); (0x1B4D, 0x1B4F);
   (0x1B7F, 0x1B7F); (0x1BF4, 0x1BFB); (0x1C38, 0x1C3A); (0x1C4A, 0x1C4C); (0x1C89, 0x1C8F); (0x1CBB, 0x1CBC);
   (0x1CC8, 0x1CCF); (0x1CFB, 0x1CFF); (0x1F16, 0x1F17); (0x1F1E, 0x1F1F); (0x1F46, 0x1F47); (0x1F4E, 0x1F4F);
   (0x1F58, 0x1F58); (0x1F5A, 0x1F5A); (0x1F5C, 0x1F5C); (0x1F5E, 0x1F5E); (0x1F7E, 0x1F7F); (0x1FB5, 0x1FB5);
   (0x1FC5, 0x1FC5); (0x1FD4, 0x1FD5); (0x1FDC, 0x1FDC); (0x1FF0, 0x1FF1); (0x1FF5, 0x1FF5); (0x1FFF, 0x200F);
   (0x2028, 0x202F); (0x205F, 0x206F); (0x2072, 0x2073); (0x208F, 0x208F); (0x209D, 0x209F); (0x20C1, 0x20CF);
   (0x20F1, 0x20FF); (0x218C, 0x218F); (0x2427, 0x243F); (0x244B, 0x245F); (0x2B74, 0x2B75); (0x2B96, 0x2B96);
   (0x2CF4, 0x2CF8); (0x2D26, 0x2D26); (0x2D28, 0x2D2C); (0x2D2E, 0x2D2F); (0x2D68, 0x2D6E); (0x2D71, 0x2D7E);
   (0x2D97, 0x2D9F); (0x2DA7, 0x2DA7); (0x2DAF, 0x2DAF); (0x2DB7, 0x2DB7); (0x2DBF, 0x2DBF); (0x2DC7, 0x2DC7);
   (0x2DCF, 0x2DCF); (0x2DD7, 0x2DD7); (0x2DDF, 0x2DDF); (0x2E5E, 0x2E7F); (0x2E9A, 0x2E9A); (0x2EF4, 0x2EFF);
   (0x2FD6, 0x2FEF); (0x2FFC, 0x3000); (0x3040, 0x3040); (0x3097, 0x3098); (0x3100, 0x3104); (0x3130, 0x3130);
   (0x318F, 0x318F); (0x31E4, 0x31EF); (0x321F, 0x321F); (0xA48D, 0xA48F); (0xA4C7, 0xA4CF); (0xA62C, 0xA63F);
   (0xA6F8, 0xA6FF); (0xA7CB, 0xA7CF); (0xA7D2, 0xA7D2); (0xA7D4, 0xA7D4); (0xA7DA, 0xA7F1); (0xA82D, 0xA82F);
   (0xA83A, 0xA83F); (0xA878, 0xA87F); (0xA8C6, 0xA8CD); (0xA8DA, 0xA8DF); (0xA954, 0xA95E); (0xA97D, 0xA97F);
   (0xA9CE, 0xA9CE); (0xA9DA, 0xA9DD); (0xA9FF, 0xA9FF); (0xAA37, 0xAA3F); (0xAA4E, 0xAA4F); (0xAA5A, 0xAA5B);
   (0xAAC3, 0xAADA); (0xAAF7, 0xAB00); (0xAB07, 0xAB08); (0xAB0F, 0xAB10); (0xAB17, 0xAB1F); (0xAB27, 0xAB27);
   (0xAB2F, 0xAB2F); (0xAB6C, 0xAB6F); (0xABEE, 0xABEF); (0xABFA, 0xABFF); (0xD7A4, 0xD7AF); (0xD7C7, 0xD7CA);
   (0xD7FC, 0xF8FF); (0xFA6E, 0xFA6F); (0xFADA, 0xFAFF); (0xFB07, 0xFB12); (0xFB18, 0xFB1C); (0xFB37, 0xFB37);
   (0xFB3D, 0xFB3D); (0xFB3F, 0xFB3F); (0xFB42, 0xFB42); (0xFB45, 0xFB45); (0xFBC3, 0xFBD2); (0xFD90, 0xFD91);
   (0xFDC8, 0xFDCE); (0xFDD0, 0xFDEF); (0xFE1A, 0xFE1F); (0xFE53, 0xFE53); (0xFE67, 0xFE67); (0xFE6C, 0xFE6F);
   (0xFE75, 0xFE75); (0xFEFD, 0xFF00); (0xFFBF, 0xFFC1); (0xFFC8, 0xFFC9); (0xFFD0, 0xFFD1); (0xFFD8, 0xFFD9);
   (0xFFDD, 0xFFDF); (0xFFE7, 0xFFE7); (0xFFEF, 0xFFFB); (0xFFFE, 0xFFFF); (0x1000C, 0x1000C); (0x10027, 0x10027);
   (0x1003B, 0x1003B); (0x1003E, 0x1003E); (0x1004E, 0x1004F); (0x1005E, 0x1007F); (0x100FB, 0x100FF); (0x10103, 0x10106);
   (0x10134, 0x10136); (0x1018F, 0x1018F); (0x1019D, 0x1019F); (0x101A1, 0x101CF); (0x101FE, 0x1027F); (0x1029D, 0x1029F);
   (0x102D1, 0x102DF); (0x102FC, 0x102FF); (0x10324, 0x1032C); (0x1034B, 0x1034F); (0x1037B, 0x1037F); (0x1039E, 0x1039E);
   (0x103C4, 0x103C7); (0x103D6, 0x103FF); (0x1049E, 0x1049F); (0x104AA, 0x104AF); (0x104D4, 0x104D7); (0x104FC, 0x104FF);
   (0x10528, 0x1052F); (0x10564, 0x1056E); (0x1057B, 0x1057B); (0x1058B, 0x1058B); (0x10593, 0x10593); (0x10596, 0x10596);
   (0x105A2, 0x105A2); (0x105B2, 0x105B2); (0x105BA, 0x105BA); (0x105BD, 0x105FF); (0x10737, 0x1073F); (0x10756, 0x1075F);
   (0x10768, 0x1077F); (0x10786, 0x10786); (0x107B1, 0x107B1); (0x107BB, 0x107FF); (0x10806, 0x10807); (0x10809, 0x10809);
   (0x10836, 0x10836); (0x10839, 0x1083B); (0x1083D, 0x1083E); (0x10856, 0x10856); (0x1089F, 0x108A6); (0x108B0, 0x108DF);
   (0x108F3, 0x108F3); (0x108F6, 0x108FA); (0x1091C, 0x1091E); (0x1093A, 0x1093E); (0x10940, 0x1097F); (0x109B8, 0x109BB);
   (0x109D0, 0x109D1); (0x10A04, 0x10A04); (0x10A07, 0x10A0B); (0x10A14, 0x10A14); (0x10A18, 0x10A18); (0x10A36, 0x10A37);
   (0x10A3B, 0x10A3E); (0x10A49, 0x10A4F); (0x10A59, 0x10A5F); (0x10AA0, 0x10ABF); (0x10AE7, 0x10AEA); (0x10AF7, 0x10AFF);
   (0x10B36, 0x10B38); (0x10B56, 0x10B57); (0x10B73, 0x10B77); (0x10B92, 0x10B98); (0x10B9D, 0x10BA8); (0x10BB0, 0x10BFF);
   (0x10C49, 0x10C7F); (0x10CB3, 0x10CBF); (0x10CF3, 0x10CF9); (0x10D28, 0x10D2F); (0x10D3A, 0x10E5F); (0x10E7F, 0x10E7F);
   (0x10EAA, 0x10EAA); (0x10EAE, 0x10EAF); (0x10EB2, 0x10EFF); (0x10F28, 0x10F2F); (0x10F5A, 0x10F6F); (0x10F8A, 0x10FAF);
   (0x10FCC, 0x10FDF); (0x10FF7, 0x10FFF); (0x1104E, 0x11051); (0x11076, 0x1107E); (0x110BD, 0x110BD); (0x110C3, 0x110CF);
   (0x110E9, 0x110EF); (0x110FA, 0x110FF); (0x11135, 0x11135); (0x11148, 0x1114F); (0x11177, 0x1117F); (0x111E0, 0x111E0);
   (0x111F5, 0x111FF); (0x11212, 0x11212); (0x1123F, 0x1127F); (0x11287, 0x11287); (0x11289, 0x11289); (0x1128E, 0x1128E);
   (0x1129E, 0x1129E); (0x112AA, 0x112AF); (0x112EB, 0x112EF); (0x112FA, 0x112FF); (0x11304, 0x11304); (0x1130D, 0x1130E);
   (0x11311, 0x11312); (0x11329, 0x11329); (0x11331, 0x11331); (0x11334, 0x11334); (0x1133A, 0x1133A); (0x11345, 0x11346);
   (0x11349, 0x1134A); (0x1134E, 0x1134F); (0x11351, 0x11356); (0x11358, 0x1135C); (0x11364, 0x11365); (0x1136D, 0x1136F);
   (0x11375, 0x113FF); (0x1145C, 0x1145C); (0x11462, 0x1147F); (0x114C8, 0x114CF); (0x114DA, 0x1157F); (0x115B6, 0x115B7);
   (0x115DE, 0x115FF); (0x11645, 0x1164F); (0x1165A, 0x1165F); (0x1166D, 0x1167F); (0x116BA, 0x116BF); (0x116CA, 0x116FF);
   (0x1171B, 0x1171C); (0x1172C, 0x1172F); (0x11747, 0x117FF); (0x1183C, 0x1189F); (0x118F3, 0x118FE); (0x11907, 0x11908);
   (0x1190A, 0x1190B); (0x11914, 0x11914); (0x11917, 0x11917); (0x11936, 0x11936); (0x11939, 0x1193A); (0x11947, 0x1194F);
   (0x1195A, 0x1199F); (0x119A8, 0x119A9); (0x119D8, 0x119D9); (0x119E5, 0x119FF); (0x11A48, 0x11A4F); (0x11AA3, 0x11AAF);
   (0x11AF9, 0x11BFF); (0x11C09, 0x11C09); (0x11C37, 0x11C37); (0x11C46, 0x11C4F); (0x11C6D, 0x11C6F); (0x11C90, 0x11C91);
   (0x11CA8, 0x11CA8); (0x11CB7, 0x11CFF); (0x11D07, 0x11D07); (0x11D0A, 0x11D0A); (0x11D37, 0x11D39); (0x11D3B, 0x11D3B);
   (0x11D3E, 0x11D3E); (0x11D48, 0x11D4F); (0x11D5A, 0x11D5F); (0x11D66, 0x11D66); (0x11D69, 0x11D69); (0x11D8F, 0x11D8F);
   (0x11D92, 0x11D92); (0x11D99, 0x11D9F); (0x11DAA, 0x11EDF); (0x11EF9, 0x11FAF); (0x11FB1, 0x11FBF); (0x11FF2, 0x11FFE);
   (0x1239A, 0x123FF); (0x1246F, 0x1246F); (0x12475, 0x1247F); (0x12544, 0x12F8F); (0x12FF3, 0x12FFF); (0x1342F, 0x143FF);
   (0x14647, 0x167FF); (0x16A39, 0x16A3F); (0x16A5F, 0x16A5F); (0x16A6A, 0x16A6D); (0x16ABF, 0x16ABF); (0x16ACA, 0x16ACF);
   (0x16AEE, 0x16AEF); (0x16AF6, 0x16AFF); (0x16B46, 0x16B4F); (0x16B5A, 0x16B5A); (0x16B62, 0x16B62); (0x16B78, 0x16B7C);
   (0x16B90, 0x16E3F); (0x16E9B, 0x16EFF); (0x16F4B, 0x16F4E); (0x16F88, 0x16F8E); (0x16FA0, 0x16FDF); (0x16FE5, 0x16FEF);
   (0x16FF2, 0x16FFF); (0x187F8, 0x187FF); (0x18CD6, 0x18CFF); (0x18D09, 0x1AFEF); (0x1AFF4, 0x1AFF4); (0x1AFFC, 0x1AFFC);
   (0x1AFFF, 0x1AFFF); (0x1B123, 0x1B14F); (0x1B153, 0x1B163); (0x1B168, 0x1B16F); (0x1B2FC, 0x1BBFF); (0x1BC6B, 0x1BC6F);
   (0x1BC7D, 0x1BC7F); (0x1BC89, 0x1BC8F); (0x1BC9A, 0x1BC9B); (0x1BCA0, 0x1CEFF); (0x1CF2E, 0x1CF2F); (0x1CF47, 0x1CF4F);
   (0x1CFC4, 0x1CFFF); (0x1D0F6, 0x1D0FF); (0x1D127, 0x1D128); (0x1D173, 0x1D17A); (0x1D1EB, 0x1D1FF); (0x1D246, 0x1D2DF);
   (0x1D2F4, 0x1D2FF); (0x1D357, 0x1D35F); (0x1D379, 0x1D3FF); (0x1D455, 0x1D455); (0x1D49D, 0x1D49D); (0x1D4A0, 0x1D4A1);
   (0x1D4A3, 0x1D4A4); (0x1D4A7, 0x1D4A8); (0x1D4AD, 0x1D4AD); (0x1D4BA, 0x1D4BA); (0x1D4BC, 0x1D4BC); (0x1D4C4, 0x1D4C4);
   (0x1D506, 0x1D506); (0x1D50B, 0x1D50C); (0x1D515, 0x1D515); (0x1D51D, 0x1D51D); (0x1D53A, 0x1D53A); (0x1D53F, 0x1D53F);
   (0x1D545, 0x1D545); (0x1D547, 0x1D549); (0x1D551, 0x1D551); (0x1D6A6, 0x1D6A7); (0x1D7CC, 0x1D7CD); (0x1DA8C, 0x1DA9A);
   (0x1DAA0, 0x1DAA0); (0x1DAB0, 0x1DEFF); (0x1DF1F, 0x1DFFF); (0x1E007, 0x1E007); (0x1E019, 0x1E01A); (0x1E022, 0x1E022);
   (0x1E025, 0x1E025); (0x1E02B, 0x1E0FF); (0x1E12D, 0x1E12F); (0x1E13E, 0x1E13F); (0x1E14A, 0x1E14D); (0x1E150, 0x1E28F);
   (0x1E2AF, 0x1E2BF); (0x1E2FA, 0x1E2FE); (0x1E300, 0x1E7DF); (0x1E7E7, 0x1E7E7); (0x1E7EC, 0x1E7EC); (0x1E7EF, 0x1E7EF);
   (0x1E7FF, 0x1E7FF); (0x1E8C5, 0x1E8C6); (0x1E8D7, 0x1E8FF); (0x1E94C, 0x1E94F); (0x1E95A, 0x1E95D); (0x1E960, 0x1EC70);
   (0x1ECB5, 0x1ED00); (0x1ED3E, 0x1EDFF); (0x1EE04, 0x1EE04); (0x1EE20, 0x1EE20); (0x1EE23, 0x1EE23); (0x1EE25, 0x1EE26);
   (0x1EE28, 0x1EE28); (0x1EE33, 0x1EE33); (0x1EE38, 0x1EE38); (0x1EE3A, 0x1EE3A); (0x1EE3C, 0x1EE41); (0x1EE43, 0x1EE46);
   (0x1EE48, 0x1EE48); (0x1EE4A, 0x1EE4A); (0x1EE4C, 0x1EE4C); (0x1EE50, 0x1EE50); (0x1EE53, 0x1EE53); (0x1EE55, 0x1EE56);
   (0x1EE58, 0x1EE58); (0x1EE5A, 0x1EE5A); (0x1EE5C, 0x1EE5C); (0x1EE5E, 0x1EE5E); (0x1EE60, 0x1EE60); (0x1EE63, 0x1EE63);
   (0x1EE65, 0x1EE66); (0x1EE6B, 0x1EE6B); (0x1EE73, 0x1EE73); (0x1EE78, 0x1EE78); (0x1EE7D, 0x1EE7D); (0x1EE7F, 0x1EE7F);
   (0x1EE8A, 0x1EE8A); (0x1EE9C, 0x1EEA0); (0x1EEA4, 0x1EEA4); (0x1EEAA, 0x1EEAA); (0x1EEBC, 0x1EEEF); (0x1EEF2, 0x1EFFF);
   (0x1F02C, 0x1F02F); (0x1F094, 0x1F09F); (0x1F0AF, 0x1F0B0); (0x1F0C0, 0x1F0C0); (0x1F0D0, 0x1F0D0); (0x1F0F6, 0x1F0FF);
   (0x1F1AE, 0x1F1E5); (0x1F203, 0x1F20F); (0x1F23C, 0x1F23F); (0x1F249, 0x1F24F); (0x1F252, 0x1F25F); (0x1F266, 0x1F2FF);
   (0x1F6D8, 0x1F6DC); (0x1F6ED, 0x1F6EF); (0x1F6FD, 0x1F6FF); (0x1F774, 0x1F77F); (0x1F7D9, 0x1F7DF); (0x1F7EC, 0x1F7EF);
   (0x1F7F1, 0x1F7FF); (0x1F80C, 0x1F80F); (0x1F848, 0x1F84F); (0x1F85A, 0x1F85F); (0x1F888, 0x1F88F); (0x1F8AE, 0x1F8AF);
   (0x1F8B2, 0x1F8FF); (0x1FA54, 0x1FA5F); (0x1FA6E, 0x1FA6F); (0x1FA75, 0x1FA77); (0x1FA7D, 0x1FA7F); (0x1FA87, 0x1FA8F);
   (0x1FAAD, 0x1FAAF); (0x1FABB, 0x1FABF); (0x1FAC6, 0x1FACF); (0x1FADA, 0x1FADF); (0x1FAE8, 0x1FAEF); (0x1FAF7, 0x1FAFF);
   (0x1FB93, 0x1FB93); (0x1FBCB, 0x1FBEF); (0x1FBFA, 0x1FFFF); (0x2A6E0, 0x2A6FF); (0x2B739, 0x2B73F); (0x2B81E, 0x2B81F);
   (0x2CEA2, 0x2CEAF); (0x2EBE1, 0x2F7FF); (0x2FA1E, 0x2FFFF); (0x3134B, 0xE00FF); (0xE01F0, 0x10FFFF) ]%Z.

(** ** Python text: the character classes *)

Definition in_ranges (table : list (Z * Z)) (n : Z) : bool :=
  existsb (fun r => (fst r <=? n) && (n <=? snd r))%Z table.

Definition has_class (table : list (Z * Z)) (ch : string) : bool :=
  match ord ch with
  | Some n => in_ranges table n
  | None => false
  end.

(** [ch.isspace()]. *)
Definition is_space (ch : string) : bool := has_class whitespace ch.

(** The value of a decimal digit. *)
Definition decimal (n : Z) : option Z :=
  match find (fun zero => (zero <=? n) && (n <=? zero + 9))%Z decimal_zeros with
  | Some zero => Some (n - zero)%Z
  | None => None
  end.

Definition digit (ch : string) : option Z :=
  match ord ch with
  | Some n => decimal n
  | None => None
  end.

(** The regex class [\d]. *)
Definition is_digit (ch : string) : bool :=
  match digit ch with
  | Some _ => true
  | None => false
  end.

(** The entry of a case table that moves [n], applied. *)
Definition moved (table : list (Z * Z * Z * Z)) (n : Z) : option Z :=
  match find (fun e => match e with
                       | (first, last, stride, _) =>
                           (first <=? n) && (n <=? last) && ((n - first) mod stride =? 0)
                       end)%Z table with
  | Some (_, _, _, delta) => Some (n + delta)%Z
  | None => None
  end.

Fixpoint expansion (table : list (Z * list Z)) (n : Z) : option (list Z) :=
  match table with
  | [] => None
  | (k, l) :: r => if (k =? n)%Z then Some l else expansion r n
  end.

(** One character through a case table; what no entry names stays. *)
Definition change_case (table : list (Z * Z * Z * Z)) (special : list (Z * list Z))
    (ch : string) : string :=
  match ord ch with
  | None => ch
  | Some n =>
      match expansion special n with
      | Some l => join (map chr l)
      | None =>
          match moved table n with
          | Some n' => chr n'
          | None => ch
          end
      end
  end.

Definition lower_char : string -> string := change_case lowercase lowercase_special.
Definition upper_char : string -> string := change_case uppercase uppercase_special.

Definition is_case_ignorable (ch : string) : bool := has_class case_ignorable ch.
Definition is_cased (ch : string) : bool := has_class cased_letters ch.

(** Whether a cased letter follows, the characters that do not count
    skipped. *)
Fixpoint cased_follows (l : list string) : bool :=
  match l with
  | [] => false
  | ch :: r => if is_case_ignorable ch then cased_follows r else is_cased ch
  end.

(** [s.lower()], character by character.  A capital sigma becomes the
    final sigma when a cased letter stands before it and none behind it;
    [after_cased] tells whether one stands before. *)
Fixpoint lower_chars (after_cased : bool) (l : list string) : list string :=
  match l with
  | [] => []
  | ch :: r =>
      (if String.eqb ch "Σ" && after_cased && negb (cased_follows r) then "ς"
       else lower_char ch)
      :: lower_chars (if is_case_ignorable ch then after_cased else is_cased ch) r
  end.

(** [s.lower()] and [s.upper()]. *)
Definition lower (s : string) : string := join (lower_chars false (chars s)).
Definition upper (s : string) : string := join (map upper_char (chars s)).

(** [s.strip()]: whitespace removed at both ends. *)
Fixpoint lstrip (l : list string) : list string :=
  match l with
  | ch :: r => if is_space ch then lstrip r else l
  | [] => []
  end.

Fixpoint rstrip (l : list string) : list string :=
  match l with
  | [] => []
  | ch :: r =>
      match rstrip r with
      | [] => if is_space ch then [] else [ch]
      | r' => ch :: r'
      end
  end.

Definition strip (s : string) : string := join (rstrip (lstrip (chars s))).

(** [p in s] for two strings. *)
Fixpoint contains (p s : string) : bool :=
  String.prefix p s
  || match s with
     | EmptyString => false
     | String _ r => contains p r
     end.

(** [c * n] for a one-character string [c]. *)
Fixpoint repeat_char (c : ascii) (n : nat) : string :=
  match n with
  | O => EmptyString
  | S k => String c (repeat_char c k)
  end.

(** [s[:n]]: the first [n] characters. *)
Definition slice_to (n : nat) (s : string) : string := join (firstn n (chars s)).

(** [str(n)] for an integer. *)
Definition int_str (z : Z) : string := NilZero.string_of_int (Z.to_int z).

(** [int(m)] on a text [m] matched by [-?\d+], given by its characters;
    [int] does not raise there. *)
Definition digit_value (ch : string) : Z :=
  match digit ch with
  | Some v => v
  | None => 0%Z
  end.

Fixpoint int_digits (acc : Z) (m : list string) : Z :=
  match m with
  | [] => acc
  | ch :: r => int_digits (10 * acc + digit_value ch) r
  end.

Definition int_of_match (m : list string) : Z :=
  match m with
  | ch :: r => if String.eqb ch "-" then (- int_digits 0 r)%Z else int_digits 0 m
  | [] => int_digits 0 m
  end.

(** Hexadecimal digits, as [%02x], [%04x] and [%08x] print a number. *)
Definition hex_digit (n : N) : ascii :=
  if (n <? 10)%N then ascii_of_N (48 + n) else ascii_of_N (87 + n).
Definition hex2 (c : ascii) : string :=
  String (hex_digit (code c / 16)) (String (hex_digit (code c mod 16)) EmptyString).

Fixpoint hex (digits : nat) (n : N) : string :=
  match digits with
  | O => EmptyString
  | S k => hex k (n / 16) +:+ String (hex_digit (n mod 16)) EmptyString
  end.

(** ** Python values

    The records are what [json.loads] and the literal [DEMO_DATA] build:
    [None], booleans, integers, strings, lists and dictionaries with string
    keys.  A dictionary keeps its insertion order. *)

Inductive value : Type :=
| VNone
| VBool (b : bool)
| VInt (z : Z)
| VStr (s : string)
| VList (l : list value)
| VDict (kv : list (string * value)).

Inductive exn : Type :=
| AttributeError
| TypeError
| ValueError
| OverflowError.

(** The result of a call: a value, or an exception that leaves the call. *)
Inductive outcome (A : Type) : Type :=
| Returns (a : A)
| Raises (e : exn).
Arguments Returns {A} a.
Arguments Raises {A} e.

#[global] Instance outcome_ret : MRet outcome := fun A a => Returns a.
#[global] Instance outcome_bind : MBind outcome := fun A B f m =>
  match m with
  | Returns a => f a
  | Raises e => Raises e
  end.

Definition returned {A} (m : outcome A) : bool :=
  match m with Returns _ => true | Raises _ => false end.

(** [mapM]: the body of a [for] loop run on every element in turn, stopping
    at the first exception. *)
Fixpoint for_each {A B} (f : A -> outcome B) (l : list A) : outcome (list B) :=
  match l with
  | [] => Returns []
  | x :: r => y ← f x; ys ← for_each f r; Returns (y :: ys)
  end.

Fixpoint assoc (k : string) (kv : list (string * value)) : option value :=
  match kv with
  | [] => None
  | (k', v) :: r => if String.eqb k k' then Some v else assoc k r
  end.

(** [k in d] and [d.get(k, default)]. *)
Definition has_key (k : string) (kv : list (string * value)) : bool :=
  match assoc k kv with Some _ => true | None => false end.

Definition dict_get (kv : list (string * value)) (k : string) (default : value) : value :=
  match assoc k kv with Some v => v | None => default end.

(** [x.get(k, default)]: only a dictionary has the method. *)
Definition get (x : value) (k : string) (default : value) : outcome value :=
  match x with
  | VDict kv => Returns (dict_get kv k default)
  | _ => Raises AttributeError
  end.

(** [bool(x)]. *)
Definition truthy (x : value) : bool :=
  match x with
  | VNone => false
  | VBool b => b
  | VInt z => negb (z =? 0)%Z
  | VStr s => negb (String.eqb s EmptyString)
  | VList l => match l with [] => false | _ => true end
  | VDict kv => match kv with [] => false | _ => true end
  end.

(** [repr(s)] of a string: single quotes unless the text holds one and no
    double quote; backslash, the quote and control characters escaped. *)
Definition dquote : ascii := "034"%char.
Definition squote : ascii := "039"%char.
Definition backslash : ascii := "092"%char.

Fixpoint has_char (q : ascii) (s : string) : bool :=
  match s with
  | EmptyString => false
  | String c r => Ascii.eqb c q || has_char q r
  end.

(** One character inside the quotes [q]. *)
Definition repr_char (q : ascii) (ch : string) : string :=
  match ch with
  | String c EmptyString =>
      if Ascii.eqb c backslash || Ascii.eqb c q then String backslash ch
      else if Ascii.eqb c "009"%char then String backslash "t"
      else if Ascii.eqb c "010"%char then String backslash "n"
      else if Ascii.eqb c "013"%char then String backslash "r"
      else if (code c <? 32)%N || (code c =? 127)%N then String backslash ("x" +:+ hex2 c)
      else ch
  | _ =>
      match ord ch with
      | Some n =>
          if in_ranges not_printable n then
            if (n <? 256)%Z then String backslash ("x" +:+ hex 2 (Z.to_N n))
            else if (n <? 65536)%Z then String backslash ("u" +:+ hex 4 (Z.to_N n))
            else String backslash ("U" +:+ hex 8 (Z.to_N n))
          else ch
      | None => ch
      end
  end.

Definition repr_str (s : string) : string :=
  let q := if has_char squote s && negb (has_char dquote s) then dquote else squote in
  String q (join (map (repr_char q) (chars s)) +:+ String q EmptyString).

(** [repr(x)] and [str(x)]; an f-string field [{x}] is [str(x)]. *)
Fixpoint py_repr (x : value) : string :=
  match x with
  | VNone => "None"
  | VBool true => "True"
  | VBool false => "False"
  | VInt z => int_str z
  | VStr s => repr_str s
  | VList l => "[" +:+ String.concat ", " (map py_repr l) +:+ "]"
  | VDict kv =>
      "{" +:+ String.concat ", "
                (map (fun e => match e with (k, v) => repr_str k +:+ ": " +:+ py_repr v end) kv)
          +:+ "}"
  end.

Definition py_str (x : value) : string :=
  match x with
  | VStr s => s
  | _ => py_repr x
  end.

(** [x.lower()], [x.upper()]: string methods. *)
Definition str_lower (x : value) : outcome string :=
  match x with VStr s => Returns (lower s) | _ => Raises AttributeError end.
Definition str_upper (x : value) : outcome string :=
  match x with VStr s => Returns (upper s) | _ => Raises AttributeError end.

(** [iter(x)]: a list yields its items, a string its characters, a
    dictionary its keys; nothing else is iterable. *)
Definition py_iter (x : value) : outcome (list value) :=
  match x with
  | VList l => Returns l
  | VStr s => Returns (map VStr (chars s))
  | VDict kv => Returns (map (fun e => VStr (fst e)) kv)
  | _ => Raises TypeError
  end.

(** [a == b]: [True] and [False] are the integers 1 and 0, lists compare
    item by item, dictionaries as mappings whatever their order. *)
Definition as_int (x : value) : option Z :=
  match x with
  | VInt z => Some z
  | VBool true => Some 1%Z
  | VBool false => Some 0%Z
  | _ => None
  end.

Fixpoint py_eq (a b : value) {struct a} : bool :=
  match a with
  | VNone => match b with VNone => true | _ => false end
  | VBool _ | VInt _ =>
      match as_int a, as_int b with
      | Some m, Some n => (m =? n)%Z
      | _, _ => false
      end
  | VStr s => match b with VStr t => String.eqb s t | _ => false end
  | VList l =>
      match b with
      | VList l' =>
          (fix items (l l' : list value) {struct l} : bool :=
             match l, l' with
             | [], [] => true
             | x :: r, y :: r' => py_eq x y && items r r'
             | _, _ => false
             end) l l'
      | _ => false
      end
  | VDict kv =>
      match b with
      | VDict kv' =>
          Nat.eqb (length kv) (length kv')
          && (fix entries (kv : list (string * value)) : bool :=
                match kv with
                | [] => true
                | (k, v) :: r =>
                    match assoc k kv' with
                    | Some v' => py_eq v v'
                    | None => false
                    end && entries r
                end) kv
      | _ => false
      end
  end.

(** [x in xs] for a list, and [xs.index(x)] once [x] is known to be in. *)
Definition list_has (x : value) (xs : list value) : bool := existsb (py_eq x) xs.

Fixpoint list_index (x : value) (xs : list value) : nat :=
  match xs with
  | [] => O
  | y :: r => if py_eq y x then O else S (list_index x r)
  end.

(** [k in x] for a string [k]: a key of a dictionary, an item of a list, a
    substring of a string. *)
Definition py_in (k : string) (x : value) : outcome bool :=
  match x with
  | VDict kv => Returns (has_key k kv)
  | VList l => Returns (list_has (VStr k) l)
  | VStr s => Returns (contains k s)
  | _ => Raises TypeError
  end.

(** [x[:n]]: strings and lists can be sliced. *)
Definition py_slice_to (n : nat) (x : value) : outcome value :=
  match x with
  | VStr s => Returns (VStr (slice_to n s))
  | VList l => Returns (VList (firstn n l))
  | _ => Raises TypeError
  end.

(** An item handed to [str.join] has to be a string. *)
Definition as_str (x : value) : outcome string :=
  match x with
  | VStr s => Returns s
  | _ => Raises TypeError
  end.

(** Only [None], booleans, integers and strings can key a dictionary. *)
Definition hashable (x : value) : bool :=
  match x with
  | VList _ | VDict _ => false
  | _ => true
  end.

(** [enumerate(l, start)]. *)
Fixpoint enumerate {A} (start : nat) (l : list A) : list (nat * A) :=
  match l with
  | [] => []
  | x :: r => (start, x) :: enumerate (S start) r
  end.

(** [table.get(k, default)] on a literal table keyed by strings. *)
Fixpoint table_get {A} (table : list (string * A)) (k : string) (default : A) : A :=
  match table with
  | [] => default
  | (k', v) :: r => if String.eqb k k' then v else table_get r k default
  end.

Definition nl : string := String "010"%char EmptyString.

(** ** JSON text: [json.dumps(x, ensure_ascii=False, indent=indent)] *)

Definition json_escape (c : ascii) : string :=
  if Ascii.eqb c backslash then String backslash (String backslash EmptyString)
  else if Ascii.eqb c dquote then String backslash (String dquote EmptyString)
  else if Ascii.eqb c "008"%char then String backslash "b"
  else if Ascii.eqb c "012"%char then String backslash "f"
  else if Ascii.eqb c "010"%char then String backslash "n"
  else if Ascii.eqb c "013"%char then String backslash "r"
  else if Ascii.eqb c "009"%char then String backslash "t"
  else if (code c <? 32)%N then String backslash ("u00" +:+ hex2 c)
  else String c EmptyString.

Fixpoint json_escape_all (s : string) : string :=
  match s with
  | EmptyString => EmptyString
  | String c r => json_escape c +:+ json_escape_all r
  end.

Definition json_string (s : string) : string :=
  String dquote (json_escape_all s +:+ String dquote EmptyString).

(** A line break and [indent * level] spaces. *)
Definition newline_indent (indent level : nat) : string :=
  nl +:+ repeat_char " "%char (indent * level).

Fixpoint json_dumps_at (indent level : nat) (x : value) : string :=
  match x with
  | VNone => "null"
  | VBool true => "true"
  | VBool false => "false"
  | VInt z => int_str z
  | VStr s => json_string s
  | VList [] => "[]"
  | VList l =>
      "[" +:+ newline_indent indent (S level)
          +:+ String.concat ("," +:+ newline_indent indent (S level))
                (map (json_dumps_at indent (S level)) l)
          +:+ newline_indent indent level +:+ "]"
  | VDict [] => "{}"
  | VDict kv =>
      "{" +:+ newline_indent indent (S level)
          +:+ String.concat ("," +:+ newline_indent indent (S level))
                (map (fun e => match e with
                               | (k, v) => json_string k +:+ ": " +:+ json_dumps_at indent (S level) v
                               end) kv)
          +:+ newline_indent indent level +:+ "}"
  end.

Definition json_dumps (indent : nat) (x : value) : string := json_dumps_at indent 0 x.

(** ** Floating-point numbers

    A [float] is a binary64 number: 53 bits of precision, exponents up to
    1024. *)

(** The float nearest to [n * 2^e] for an integer [n], ties going to the
    even mantissa; [None] when it lies beyond the largest float.  It is used
    with [e] 0 and -1, where no result is small enough to be subnormal. *)
Definition nearest_float (n e : Z) : option spec_float :=
  (if n =? 0 then Some (S754_zero false)
   else
     let a := Z.abs n in
     let k := Z.log2 a + 1 - 53 in
     let m :=
       if k <=? 0 then a * 2 ^ (- k)
       else
         let q := a / 2 ^ k in
         let r := a mod 2 ^ k in
         let half := 2 ^ (k - 1) in
         if (r <? half) || ((r =? half) && Z.even q) then q else q + 1 in
     let k := if m =? 2 ^ 53 then k + 1 else k in
     let m := if m =? 2 ^ 53 then 2 ^ 52 else m in
     if 1024 - 53 <? k + e then None
     else Some (S754_finite (n <? 0) (Z.to_pos m) (k + e)))%Z.

(** [float(i)] for an index [i] of a list, which is far below the range. *)
Definition float_of_index (i : nat) : spec_float :=
  match nearest_float (Z.of_nat i) 0 with
  | Some f => f
  | None => S754_infinity false
  end.

(** The literal that reads [num / den], such as [13 / 10] for [1.3]. *)
Definition float_lit (num den : Z) : spec_float :=
  SFdiv 53 1024 (binary_normalize 53 1024 num 0 false) (binary_normalize 53 1024 den 0 false).

Definition float_sub : spec_float -> spec_float -> spec_float := SFsub 53 1024.
Definition float_mul : spec_float -> spec_float -> spec_float := SFmul 53 1024.

(** ** Plotly figures, as the arguments they were built from *)

Inductive attr : Type :=
| AStr (s : string)
| AInt (z : Z)
| AFloat (f : spec_float)
| ABool (b : bool)
| AVal (x : value)           (* a value of the record, handed over as it is *)
| AList (l : list attr)
| ADict (kv : list (string * attr)).

(** [go.Scatter(...)], [go.Pie(...)], [go.Sankey(...)]. *)
Record trace : Type := Trace { trace_kind : string; trace_args : list (string * attr) }.

Record Figure : Type := mkFigure {
  fig_data : list trace;
  fig_annotations : list (list (string * attr));
  fig_layout : list (string * attr)
}.

(** [go.Figure()]. *)
Definition go_Figure : Figure := mkFigure [] [] [].

Definition add_annotation (fig : Figure) (args : list (string * attr)) : Figure :=
  mkFigure (fig_data fig) (fig_annotations fig ++ [args]) (fig_layout fig).

Definition add_trace (fig : Figure) (t : trace) : Figure :=
  mkFigure (fig_data fig ++ [t]) (fig_annotations fig) (fig_layout fig).

Definition update_layout (fig : Figure) (args : list (string * attr)) : Figure :=
  mkFigure (fig_data fig) (fig_annotations fig) (fig_layout fig ++ args).

(** The [name] of a trace: Plotly takes [None], a string or a number and
    raises [ValueError] on a list or a dictionary. *)
Definition trace_name (x : value) : outcome attr :=
  match x with
  | VList _ | VDict _ => Raises ValueError
  | _ => Returns (AVal x)
  end.

(** ** Regular expressions of the two files *)

(** [\d{3,4}] at the head of the characters [l]: greedy, four digits when
    there are four. *)
Definition match_digits_3_4 (l : list string) : option (list string) :=
  match l with
  | a :: b :: c :: r =>
      if is_digit a && is_digit b && is_digit c then
        match r with
        | d :: _ => if is_digit d then Some [a; b; c; d] else Some [a; b; c]
        | [] => Some [a; b; c]
        end
      else None
  | _ => None
  end.

(** [-?\d{3,4}] at the head of [l]: the hyphen is taken when digits follow
    it. *)
Definition match_signed_year (l : list string) : option (list string) :=
  match l with
  | c :: r =>
      if String.eqb c "-" then
        match match_digits_3_4 r with
        | Some ds => Some (c :: ds)
        | None => match_digits_3_4 l
        end
      else match_digits_3_4 l
  | [] => None
  end.

(** [\d{4}] at the head of [l]. *)
Definition match_digits_4 (l : list string) : option (list string) :=
  match l with
  | a :: b :: c :: d :: _ =>
      if is_digit a && is_digit b && is_digit c && is_digit d
      then Some [a; b; c; d]
      else None
  | _ => None
  end.

(** [re.search] for a pattern on characters: the match at the leftmost
    character that has one. *)
Fixpoint re_search_chars (at_head : list string -> option (list string)) (l : list string)
  : option (list string) :=
  match at_head l with
  | Some m => Some m
  | None =>
      match l with
      | [] => None
      | _ :: r => re_search_chars at_head r
      end
  end.

(** The longest prefix of [s] that ends in a closing brace. *)
Fixpoint upto_last_brace (s : string) : option string :=
  match s with
  | EmptyString => None
  | String c r =>
      match upto_last_brace r with
      | Some m => Some (String c m)
      | None => if Ascii.eqb c "}" then Some (String c EmptyString) else None
      end
  end.

(** [\{[\s\S]*\}] anchored at the head of [s]: greedy, up to the last
    closing brace. *)
Definition match_braces (s : string) : option string :=
  match s with
  | String c r =>
      if Ascii.eqb c "{" then
        match upto_last_brace r with
        | Some m => Some (String c m)
        | None => None
        end
      else None
  | EmptyString => None
  end.

(** [re.search] for a pattern on ASCII bytes: the match at the leftmost
    position that has one. *)
Fixpoint re_search (at_head : string -> option string) (s : string) : option string :=
  match at_head s with
  | Some m => Some m
  | None =>
      match s with
      | EmptyString => None
      | String _ r => re_search at_head r
      end
  end.

(** The first entry of a table, in its order, whose key occurs in [s]. *)
Fixpoint first_keyword (table : list (string * Z)) (s : string) : option Z :=
  match table with
  | [] => None
  | (key, val) :: rest => if contains key s then Some val else first_keyword rest s
  end.

(** ** The external text-generation service

    A request carries the model identifier and the prompt.  A prompt is
    held by its template and the texts spliced into it; the fixed wording
    of the templates is not reproduced. *)

Inductive prompt : Type :=
| AnalyzePrompt (term domain : string)
| EvolutionPrompt (term domain : string) (time_periods : list string)
| ComparePrompt (terms : list string) (domain : string)
| NeologismPrompt (text domain reference_period : string).

Record request : Type := Request { req_model : string; req_prompt : prompt }.

(** The answer to [client.chat.complete(...)]: the text of
    [choices[0].message.content], or an exception raised by the call or by
    reading that text. *)
Inductive reply : Type :=
| Replied (text : string)
| Failed.

(** The requests sent so far, latest first. *)
Definition calls : Type := list request.

(** * app.py *)

Module app.

(** ** [extract_year] *)

(** [mappings], in the order of the literal. *)
Definition mappings : list (string * Z) :=
  [("pre-1900", 1850); ("1900", 1925); ("1950", 1965);
   ("1980", 1990); ("2000", 2005); ("2010", 2015);
   ("2020", 2022); ("present", 2023); ("bce", -400)]%Z.

Definition extract_year_str (period_str : string) : Z :=
  match re_search_chars match_signed_year (chars period_str) with
  | Some m => int_of_match m
  | None =>
      let period_lower := lower period_str in
      match first_keyword mappings period_lower with
      | Some val => val
      | None => 2000%Z
      end
  end.

(** [extract_year(period_str)] works on [str(period_str)]. *)
Definition extract_year (period_str : value) : Z := extract_year_str (py_str period_str).

(** ** [format_report] *)

Definition NA : value := VStr "N/A".

(** One pass of the loop over [snapshots]. *)
Definition snapshot_lines (e : nat * value) : outcome (list string) :=
  let (i, snap) := e in
  period ← get snap "period" NA;
  status ← get snap "status" NA;
  frequency ← get snap "frequency" NA;
  definition ← get snap "definition" NA;
  definition_zh ← get snap "definition_zh" NA;
  mret [ nl +:+ "【" +:+ int_str (Z.of_nat i) +:+ "】 " +:+ py_str period;
         "    Status: " +:+ py_str status +:+ " | Frequency: " +:+ py_str frequency;
         "    EN: " +:+ py_str definition;
         "    中: " +:+ py_str definition_zh ].

(** One pass of the loop over [semantic_shifts]. *)
Definition shift_lines (e : nat * value) : outcome (list string) :=
  let (i, shift) := e in
  shift_type ← get shift "shift_type" NA;
  shift_type_upper ← str_upper shift_type;
  period_from ← get shift "period_from" (VStr "");
  period_to ← get shift "period_to" (VStr "");
  meaning_before ← get shift "meaning_before" NA;
  meaning_after ← get shift "meaning_after" NA;
  explanation ← get shift "explanation" NA;
  explanation_zh ← get shift "explanation_zh" explanation;
  mret [ nl +:+ "【" +:+ int_str (Z.of_nat i) +:+ "】 " +:+ shift_type_upper;
         "    " +:+ py_str period_from +:+ " → " +:+ py_str period_to;
         "    Before: " +:+ py_str meaning_before;
         "    After: " +:+ py_str meaning_after;
         "    說明: " +:+ py_str explanation_zh ].

(** The lines before the first loop. *)
Definition header_lines (term domain origin_period origin_language etymology etymology_zh : value)
  : list string :=
  [ repeat_char "=" 60;
    "📚 TERMINOLOGY EVOLUTION REPORT 術語演變報告";
    repeat_char "=" 60;
    "";
    "📌 Term 術語: " +:+ py_str term;
    "🏷️  Domain 領域: " +:+ py_str domain;
    "🌍 Origin 起源: " +:+ py_str origin_period +:+ " (" +:+ py_str origin_language +:+ ")";
    "";
    "📖 Etymology 詞源:";
    "   EN: " +:+ py_str etymology;
    "   中: " +:+ py_str etymology_zh;
    "";
    repeat_char "-" 60;
    "📅 HISTORICAL SNAPSHOTS 歷史快照";
    repeat_char "-" 60 ].

Definition shifts_heading : list string :=
  [ ""; repeat_char "-" 60; "🔄 SEMANTIC SHIFTS 語義轉變"; repeat_char "-" 60 ].

Definition status_lines (current_status future_prediction future_prediction_zh : value)
  : list string :=
  [ ""; repeat_char "-" 60; "🔮 CURRENT STATUS & PREDICTIONS"; repeat_char "-" 60;
    nl +:+ "Current: " +:+ py_str current_status;
    nl +:+ "Prediction: " +:+ py_str future_prediction;
    "預測: " +:+ py_str future_prediction_zh ].

(** The closing [if data.get("related_terms")] block. *)
Definition related_lines (data : value) : outcome (list string) :=
  related ← get data "related_terms" VNone;
  if truthy related then
    related_terms ← get data "related_terms" (VList []);
    items ← py_iter related_terms;
    names ← for_each as_str items;
    mret [ nl +:+ "🔗 Related: " +:+ String.concat ", " names ]
  else mret [].

(** The list [lines] at the end of [format_report]. *)
Definition report_lines (data : value) : outcome (list string) :=
  term ← get data "term" NA;
  domain ← get data "domain" NA;
  origin_period ← get data "origin_period" NA;
  origin_language ← get data "origin_language" NA;
  etymology ← get data "etymology" NA;
  etymology_zh ← get data "etymology_zh" NA;
  snapshots ← get data "snapshots" (VList []);
  snaps ← py_iter snapshots;
  snap_entries ← for_each snapshot_lines (enumerate 1 snaps);
  semantic_shifts ← get data "semantic_shifts" (VList []);
  shifts ← py_iter semantic_shifts;
  shift_entries ← for_each shift_lines (enumerate 1 shifts);
  current_status ← get data "current_status" NA;
  future_prediction ← get data "future_prediction" NA;
  future_prediction_zh ← get data "future_prediction_zh" NA;
  related ← related_lines data;
  mret (header_lines term domain origin_period origin_language etymology etymology_zh
        ++ concat snap_entries
        ++ shifts_heading
        ++ concat shift_entries
        ++ status_lines current_status future_prediction future_prediction_zh
        ++ related)%list.

Definition format_report (data : value) : outcome string :=
  if negb (truthy data) then mret "No data available"
  else lines ← report_lines data; mret (String.concat nl lines).

(** ** The chart builders *)

Definition status_colors : list (string * string) :=
  [("emerging", "#22c55e"); ("established", "#3b82f6"); ("evolving", "#f59e0b");
   ("deprecated", "#ef4444"); ("archaic", "#6b7280"); ("revived", "#8b5cf6")].

Definition freq_sizes : list (string * Z) :=
  [("high", 45); ("medium", 35); ("low", 25); ("rare", 18)]%Z.

(** [shift_colors] of [create_timeline_chart]. *)
Definition shift_colors : list (string * string) :=
  [("narrowing", "#ef4444"); ("broadening", "#22c55e");
   ("metaphor", "#8b5cf6"); ("metonymy", "#06b6d4");
   ("amelioration", "#3b82f6"); ("pejoration", "#f59e0b");
   ("specialization", "#ec4899"); ("generalization", "#14b8a6")].

(** [go.Figure().add_annotation(text=..., showarrow=False)]. *)
Definition annotated (text : string) : Figure :=
  add_annotation go_Figure [("text", AStr text); ("showarrow", ABool false)].

(** The guard [not data or key not in data]. *)
Definition lacks (data : value) (key : string) : outcome bool :=
  if negb (truthy data) then mret true
  else present ← py_in key data; mret (negb present).

(** [(year_start + year_end) / 2]: two numbers give the float nearest to
    their mean, or [OverflowError] when that is beyond the floats; the sum
    of two strings or two lists exists but cannot be divided. *)
Definition midpoint (a b : value) : outcome attr :=
  match as_int a, as_int b with
  | Some m, Some n =>
      match nearest_float (m + n) (-1) with
      | Some f => Returns (AFloat f)
      | None => Raises OverflowError
      end
  | _, _ => Raises TypeError
  end.

(** The two traces added for one snapshot: the period bar and its marker. *)
Definition snapshot_traces (snap : value) : outcome (list trace) :=
  year_start ← get snap "year_start" (VInt 1900);
  year_end ← get snap "year_end" (VInt 2000);
  year_mid ← midpoint year_start year_end;
  status_field ← get snap "status" (VStr "established");
  status ← str_lower status_field;
  let color := table_get status_colors status "#3b82f6" in
  freq_field ← get snap "frequency" (VStr "medium");
  freq ← str_lower freq_field;
  let size := table_get freq_sizes freq 30%Z in
  period ← get snap "period" (VStr "");
  status_shown ← get snap "status" NA;
  frequency_shown ← get snap "frequency" NA;
  definition ← get snap "definition" (VStr "");
  definition_80 ← py_slice_to 80 definition;
  definition_zh ← get snap "definition_zh" (VStr "");
  definition_zh_40 ← py_slice_to 40 definition_zh;
  name ← trace_name period;
  mret [ Trace "Scatter"
           [ ("x", AList [AVal year_start; AVal year_end]);
             ("y", AList [AInt 1; AInt 1]);
             ("mode", AStr "lines");
             ("line", ADict [("color", AStr color); ("width", AInt 20)]);
             ("hoverinfo", AStr "skip");
             ("showlegend", ABool false) ];
         Trace "Scatter"
           [ ("x", AList [year_mid]);
             ("y", AList [AFloat (float_lit 13 10)]);
             ("mode", AStr "markers+text");
             ("marker", ADict [("size", AInt size); ("color", AStr color);
                               ("line", ADict [("color", AStr "white"); ("width", AInt 2)])]);
             ("text", AList [AVal period]);
             ("textposition", AStr "top center");
             ("textfont", ADict [("size", AInt 9)]);
             ("name", name);
             ("hovertemplate",
              AStr ("<b>" +:+ py_str period +:+ "</b><br>"
                    +:+ "Status: " +:+ py_str status_shown +:+ "<br>"
                    +:+ "Frequency: " +:+ py_str frequency_shown +:+ "<br>"
                    +:+ "Definition: " +:+ py_str definition_80 +:+ "...<br>"
                    +:+ "定義: " +:+ py_str definition_zh_40 +:+ "...<br>"
                    +:+ "<extra></extra>")) ] ].

(** The trace added for the shift at index [i], at the height
    [0.4 - (i * 0.2)]. *)
Definition shift_trace (e : nat * value) : outcome trace :=
  let (i, shift) := e in
  let y_pos := AFloat (float_sub (float_lit 4 10)
                                  (float_mul (float_of_index i) (float_lit 2 10))) in
  shift_type_field ← get shift "shift_type" (VStr "");
  shift_type ← str_lower shift_type_field;
  let color := table_get shift_colors shift_type "#6b7280" in
  period_from ← get shift "period_from" (VStr "1900");
  let year_from := extract_year period_from in
  period_to ← get shift "period_to" (VStr "2000");
  let year_to := extract_year period_to in
  meaning_before ← get shift "meaning_before" (VStr "");
  meaning_after ← get shift "meaning_after" (VStr "");
  period_from_shown ← get shift "period_from" (VStr "");
  period_to_shown ← get shift "period_to" (VStr "");
  mret (Trace "Scatter"
          [ ("x", AList [AInt year_from; AInt year_to]);
            ("y", AList [y_pos; y_pos]);
            ("mode", AStr "lines+markers+text");
            ("line", ADict [("color", AStr color); ("width", AInt 4)]);
            ("marker", ADict [("size", AInt 12);
                              ("symbol", AList [AStr "circle"; AStr "arrow-right"]);
                              ("color", AStr color)]);
            ("text", AList [AStr ""; AStr (upper shift_type)]);
            ("textposition", AStr "top center");
            ("textfont", ADict [("size", AInt 10); ("color", AStr color)]);
            ("name", AStr ("Shift: " +:+ shift_type));
            ("hovertemplate",
             AStr ("<b>" +:+ upper shift_type +:+ "</b><br>"
                   +:+ "Before: " +:+ py_str meaning_before +:+ "<br>"
                   +:+ "After: " +:+ py_str meaning_after +:+ "<br>"
                   +:+ py_str period_from_shown +:+ " → " +:+ py_str period_to_shown +:+ "<br>"
                   +:+ "<extra></extra>")) ]).

Definition create_timeline_chart (data : value) : outcome Figure :=
  missing ← lacks data "snapshots";
  if missing : bool then mret (annotated "No data available")
  else
    snapshots ← get data "snapshots" (VList []);
    snaps ← py_iter snapshots;
    snap_traces ← for_each snapshot_traces snaps;
    semantic_shifts ← get data "semantic_shifts" (VList []);
    shifts ← py_iter semantic_shifts;
    shift_traces ← for_each shift_trace (enumerate 0 shifts);
    term ← get data "term" (VStr "Term");
    mret (update_layout
            (mkFigure (concat snap_traces ++ shift_traces) [] [])
            [ ("title", ADict [("text", AStr ("📈 Evolution Timeline: " +:+ py_str term));
                               ("font", ADict [("size", AInt 18)])]);
              ("xaxis_title", AStr "Year 年份");
              ("yaxis", ADict [("visible", ABool false);
                               ("range", AList [AFloat (float_lit (-5) 10); AInt 2])]);
              ("height", AInt 500);
              ("template", AStr "plotly_white");
              ("showlegend", ABool true);
              ("legend", ADict [("orientation", AStr "h"); ("yanchor", AStr "bottom");
                                ("y", AFloat (float_lit (-15) 100)); ("x", AFloat (float_lit 5 10));
                                ("xanchor", AStr "center")]);
              ("margin", ADict [("l", AInt 50); ("r", AInt 50); ("t", AInt 80); ("b", AInt 80)]) ]).

(** [status_counts[status] = status_counts.get(status, 0) + 1]. *)
Fixpoint count_up (status : value) (status_counts : list (value * Z)) : list (value * Z) :=
  match status_counts with
  | [] => [(status, 1%Z)]
  | (k, n) :: r =>
      if py_eq k status then (k, (n + 1)%Z) :: r else (k, n) :: count_up status r
  end.

Fixpoint count_statuses (snaps : list value) (status_counts : list (value * Z))
  : outcome (list (value * Z)) :=
  match snaps with
  | [] => mret status_counts
  | snap :: r =>
      status ← get snap "status" (VStr "unknown");
      if hashable status then count_statuses r (count_up status status_counts)
      else Raises TypeError
  end.

(** [colors.get(s, "#888")] for a key [s] of [status_counts]. *)
Definition status_color (s : value) : string :=
  match s with
  | VStr name => table_get status_colors name "#888"
  | _ => "#888"
  end.

Definition create_status_pie (data : value) : outcome Figure :=
  missing ← lacks data "snapshots";
  if missing : bool then mret (annotated "No data")
  else
    snapshots ← get data "snapshots" (VList []);
    snaps ← py_iter snapshots;
    status_counts ← count_statuses snaps [];
    mret (update_layout
            (mkFigure
               [ Trace "Pie"
                   [ ("labels", AList (map (fun e => AVal (fst e)) status_counts));
                     ("values", AList (map (fun e => AInt (snd e)) status_counts));
                     ("marker_colors",
                      AList (map (fun e => AStr (status_color (fst e))) status_counts));
                     ("textinfo", AStr "label+percent");
                     ("hole", AFloat (float_lit 4 10)) ] ] [] [])
            [ ("title", AStr "📊 Status Distribution 狀態分布");
              ("height", AInt 300);
              ("template", AStr "plotly_white");
              ("margin", ADict [("l", AInt 20); ("r", AInt 20); ("t", AInt 50); ("b", AInt 20)]) ]).

(** [freq_map] and the lookup [freq_map.get(key, 2)] of
    [create_frequency_chart]. *)
Definition freq_map : list (string * Z) :=
  [("high", 4); ("medium", 3); ("low", 2); ("rare", 1)]%Z.

Definition freq_level (key : string) : Z := table_get freq_map key 2%Z.

Definition snapshot_period (s : value) : outcome attr :=
  period ← get s "period" (VStr ""); mret (AVal period).

(** [freq_map.get(s.get("frequency", "medium").lower(), 2)]. *)
Definition snapshot_freq (s : value) : outcome Z :=
  frequency ← get s "frequency" (VStr "medium");
  key ← str_lower frequency;
  mret (freq_level key).

Definition create_frequency_chart (data : value) : outcome Figure :=
  missing ← lacks data "snapshots";
  if missing : bool then mret (annotated "No data")
  else
    snapshots ← get data "snapshots" (VList []);
    snaps ← py_iter snapshots;
    periods ← for_each snapshot_period snaps;
    freqs ← for_each snapshot_freq snaps;
    mret (update_layout
            (add_trace go_Figure
               (Trace "Scatter"
                  [ ("x", AList periods);
                    ("y", AList (map AInt freqs));
                    ("mode", AStr "lines+markers");
                    ("line", ADict [("color", AStr "#3b82f6"); ("width", AInt 3)]);
                    ("marker", ADict [("size", AInt 12); ("color", AStr "#3b82f6")]);
                    ("fill", AStr "tozeroy");
                    ("fillcolor", AStr "rgba(59, 130, 246, 0.2)") ]))
            [ ("title", AStr "📈 Usage Frequency Over Time 使用頻率趨勢");
              ("xaxis_title", AStr "Period 時期");
              ("yaxis", ADict [("title", AStr "Frequency 頻率");
                               ("tickmode", AStr "array");
                               ("tickvals", AList [AInt 1; AInt 2; AInt 3; AInt 4]);
                               ("ticktext", AList [AStr "Rare 罕見"; AStr "Low 低";
                                                   AStr "Medium 中"; AStr "High 高"])]);
              ("height", AInt 300);
              ("template", AStr "plotly_white");
              ("margin", ADict [("l", AInt 50); ("r", AInt 20); ("t", AInt 50); ("b", AInt 50)]) ]).

(** [shift_colors] of [create_shift_sankey]. *)
Definition sankey_colors : list (string * string) :=
  [("narrowing", "rgba(239, 68, 68, 0.6)");
   ("broadening", "rgba(34, 197, 94, 0.6)");
   ("metaphor", "rgba(139, 92, 246, 0.6)");
   ("metonymy", "rgba(6, 182, 212, 0.6)");
   ("amelioration", "rgba(59, 130, 246, 0.6)");
   ("pejoration", "rgba(245, 158, 11, 0.6)");
   ("specialization", "rgba(236, 72, 153, 0.6)");
   ("generalization", "rgba(20, 184, 166, 0.6)")].

(** The five lists the Sankey loop fills. *)
Record sankey_lists : Type := SankeyLists {
  labels : list value;
  sources : list nat;
  targets : list nat;
  values : list Z;
  colors : list string
}.

Definition append_new (x : value) (xs : list value) : list value :=
  if list_has x xs then xs else xs ++ [x].

(** One pass of the loop over [shifts]. *)
Definition sankey_step (acc : sankey_lists) (shift : value) : outcome sankey_lists :=
  meaning_before ← get shift "meaning_before" (VStr "Unknown");
  before ← py_slice_to 30 meaning_before;
  meaning_after ← get shift "meaning_after" (VStr "Unknown");
  after ← py_slice_to 30 meaning_after;
  shift_type ← get shift "shift_type" (VStr "unknown");
  let labels' := append_new after (append_new before (labels acc)) in
  key ← str_lower shift_type;
  mret (SankeyLists labels'
          (sources acc ++ [list_index before labels'])
          (targets acc ++ [list_index after labels'])
          (values acc ++ [1%Z])
          (colors acc ++ [table_get sankey_colors key "rgba(128,128,128,0.5)"])).

Fixpoint sankey_loop (acc : sankey_lists) (shifts : list value) : outcome sankey_lists :=
  match shifts with
  | [] => mret acc
  | shift :: r => acc' ← sankey_step acc shift; sankey_loop acc' r
  end.

Definition create_shift_sankey (data : value) : outcome Figure :=
  missing ← lacks data "semantic_shifts";
  if missing : bool then mret (annotated "No semantic shifts found")
  else
    semantic_shifts ← get data "semantic_shifts" (VList []);
    if negb (truthy semantic_shifts) then mret (annotated "No semantic shifts recorded")
    else
      shifts ← py_iter semantic_shifts;
      filled ← sankey_loop (SankeyLists [] [] [] [] []) shifts;
      term ← get data "term" (VStr "Term");
      mret (update_layout
              (mkFigure
                 [ Trace "Sankey"
                     [ ("node", ADict [("pad", AInt 15); ("thickness", AInt 20);
                                       ("line", ADict [("color", AStr "black");
                                                       ("width", AFloat (float_lit 5 10))]);
                                       ("label", AList (map AVal (labels filled)));
                                       ("color", AStr "rgba(59, 130, 246, 0.8)")]);
                       ("link", ADict [("source", AList (map (fun n => AInt (Z.of_nat n)) (sources filled)));
                                       ("target", AList (map (fun n => AInt (Z.of_nat n)) (targets filled)));
                                       ("value", AList (map AInt (values filled)));
                                       ("color", AList (map AStr (colors filled)))]) ] ] [] [])
              [ ("title", AStr ("🔄 Semantic Shift Flow: " +:+ py_str term));
                ("height", AInt 350);
                ("template", AStr "plotly_white");
                ("margin", ADict [("l", AInt 20); ("r", AInt 20); ("t", AInt 50); ("b", AInt 20)]) ]).

(** ** [DEMO_DATA], entry by entry *)

Definition buddha_record : value :=
  (VDict [
    ("term", VStr "Buddha");
    ("domain", VStr "religion / philosophy");
    ("origin_period", VStr "6th-5th century BCE");
    ("origin_language", VStr "Sanskrit/Pali");
    ("etymology", VStr "From Sanskrit 'buddha' meaning 'awakened one' or 'enlightened one', derived from the root 'budh' (to awaken, to know).");
    ("etymology_zh", VStr "源自梵語「buddha」，意為「覺醒者」或「覺悟者」，來自詞根「budh」（覺醒、知曉）。");
    ("snapshots", VList [
        VDict [
          ("term", VStr "Buddha");
          ("period", VStr "6th-5th century BCE");
          ("year_start", VInt (-500));
          ("year_end", VInt (-400));
          ("definition", VStr "Title given to Siddhartha Gautama, the founder of Buddhism, meaning 'the awakened one'");
          ("definition_zh", VStr "授予悉達多·喬達摩的稱號，佛教創始人，意為「覺醒者」");
          ("usage_context", VStr "Religious/philosophical title");
          ("frequency", VStr "medium");
          ("domain", VStr "Buddhism");
          ("status", VStr "emerging");
          ("example_sentence", VStr "The Buddha taught the Middle Way.");
          ("notes", VStr "Originally referred specifically to Siddhartha Gautama") ];
        VDict [
          ("term", VStr "Buddha");
          ("period", VStr "1st-5th century CE");
          ("year_start", VInt 100);
          ("year_end", VInt 500);
          ("definition", VStr "Expanded to include multiple buddhas in Mahayana tradition; any fully enlightened being");
          ("definition_zh", VStr "在大乘佛教傳統中擴展為包括多位佛陀；任何完全覺悟的存在");
          ("usage_context", VStr "Religious worship and philosophy");
          ("frequency", VStr "high");
          ("domain", VStr "Buddhism");
          ("status", VStr "established");
          ("example_sentence", VStr "Amitabha Buddha presides over the Western Pure Land.");
          ("notes", VStr "Concept expanded with Mahayana Buddhism spread") ];
        VDict [
          ("term", VStr "Buddha");
          ("period", VStr "500-1500 CE");
          ("year_start", VInt 500);
          ("year_end", VInt 1500);
          ("definition", VStr "Central figure of worship across Asia; statues and temples built in his honor");
          ("definition_zh", VStr "亞洲各地崇拜的中心人物；為他建造雕像和寺廟");
          ("usage_context", VStr "Religious worship, art, architecture");
          ("frequency", VStr "high");
          ("domain", VStr "Buddhism/Culture");
          ("status", VStr "established");
          ("example_sentence", VStr "The giant Buddha statue was carved into the cliff.");
          ("notes", VStr "Buddhism spreads throughout Asia") ];
        VDict [
          ("term", VStr "Buddha");
          ("period", VStr "1800-1950");
          ("year_start", VInt 1800);
          ("year_end", VInt 1950);
          ("definition", VStr "Introduced to Western consciousness; studied academically; seen as philosopher");
          ("definition_zh", VStr "被引入西方意識；進行學術研究；被視為哲學家");
          ("usage_context", VStr "Academic study, orientalism, philosophy");
          ("frequency", VStr "medium");
          ("domain", VStr "Academia/Religion");
          ("status", VStr "evolving");
          ("example_sentence", VStr "Western scholars began translating Buddhist texts.");
          ("notes", VStr "Western academic interest grows") ];
        VDict [
          ("term", VStr "Buddha");
          ("period", VStr "1950-2000");
          ("year_start", VInt 1950);
          ("year_end", VInt 2000);
          ("definition", VStr "Symbol of peace, meditation, mindfulness; enters popular culture");
          ("definition_zh", VStr "和平、冥想、正念的象徵；進入流行文化");
          ("usage_context", VStr "Pop culture, meditation, wellness");
          ("frequency", VStr "high");
          ("domain", VStr "Culture/Wellness");
          ("status", VStr "evolving");
          ("example_sentence", VStr "She placed a Buddha statue in her meditation corner.");
          ("notes", VStr "Secularization and commercialization begins") ];
        VDict [
          ("term", VStr "Buddha");
          ("period", VStr "2000-Present");
          ("year_start", VInt 2000);
          ("year_end", VInt 2024);
          ("definition", VStr "Used in wellness industry, home decor, mindfulness apps; sometimes controversial commercialization");
          ("definition_zh", VStr "用於健康產業、家居裝飾、正念應用程式；商業化有時具爭議性");
          ("usage_context", VStr "Wellness, decor, apps, meditation");
          ("frequency", VStr "high");
          ("domain", VStr "Wellness/Commercial");
          ("status", VStr "evolving");
          ("example_sentence", VStr "The Buddha Bowl is a popular healthy meal option.");
          ("notes", VStr "Term used in secular contexts like 'Buddha bowl', 'Buddha belly'") ] ]);
    ("semantic_shifts", VList [
        VDict [
          ("term", VStr "Buddha");
          ("shift_type", VStr "broadening");
          ("period_from", VStr "6th century BCE");
          ("period_to", VStr "5th century CE");
          ("meaning_before", VStr "Specific title for Siddhartha Gautama");
          ("meaning_after", VStr "Any fully enlightened being (multiple Buddhas)");
          ("explanation", VStr "Mahayana Buddhism expanded the concept to include countless Buddhas across time and space");
          ("explanation_zh", VStr "大乘佛教將概念擴展為包括跨越時空的無數佛陀");
          ("evidence", VStr "Amitabha Buddha, Medicine Buddha, future Maitreya Buddha") ];
        VDict [
          ("term", VStr "Buddha");
          ("shift_type", VStr "generalization");
          ("period_from", VStr "1950s");
          ("period_to", VStr "2000s");
          ("meaning_before", VStr "Religious/spiritual figure requiring reverence");
          ("meaning_after", VStr "Cultural symbol of peace, calm, and mindfulness");
          ("explanation", VStr "Secularization in Western culture transformed Buddha into a lifestyle symbol");
          ("explanation_zh", VStr "西方文化的世俗化將佛陀轉變為生活方式的象徵");
          ("evidence", VStr "Buddha statues as decor, 'Buddha bowl' food trend") ];
        VDict [
          ("term", VStr "Buddha");
          ("shift_type", VStr "metaphor");
          ("period_from", VStr "1990s");
          ("period_to", VStr "2020s");
          ("meaning_before", VStr "Enlightened spiritual teacher");
          ("meaning_after", VStr "Adjective meaning calm, peaceful, or wise");
          ("explanation", VStr "Used metaphorically to describe a state of calm or wisdom");
          ("explanation_zh", VStr "隱喻性地用於描述平靜或智慧的狀態");
          ("evidence", VStr "'He's so Buddha about everything' (meaning calm/zen)") ] ]);
    ("related_terms", VList [VStr "Buddhism"; VStr "Dharma"; VStr "Sangha"; VStr "Nirvana"; VStr "Enlightenment"; VStr "Zen"; VStr "Mindfulness"; VStr "Meditation"]);
    ("current_status", VStr "Highly active in both religious and secular contexts; experiencing tension between sacred and commercial uses");
    ("future_prediction", VStr "Likely to continue expanding in wellness/secular contexts while maintaining religious significance; may see pushback against commercialization");
    ("future_prediction_zh", VStr "可能繼續在健康/世俗語境中擴展，同時保持宗教意義；可能會看到對商業化的反對") ])%Z.

Definition computer_record : value :=
  (VDict [
    ("term", VStr "Computer");
    ("domain", VStr "technology");
    ("origin_period", VStr "1640s");
    ("origin_language", VStr "English (from Latin 'computare')");
    ("etymology", VStr "From Latin 'computare' meaning 'to count, sum up, reckon together'. Originally referred to a person who computes.");
    ("etymology_zh", VStr "源自拉丁語「computare」，意為「計算、總結、一起計算」。最初指進行計算的人。");
    ("snapshots", VList [
        VDict [
          ("term", VStr "Computer");
          ("period", VStr "1640-1900");
          ("year_start", VInt 1640);
          ("year_end", VInt 1900);
          ("definition", VStr "A person who performs mathematical calculations");
          ("definition_zh", VStr "進行數學計算的人");
          ("usage_context", VStr "Professional occupation");
          ("frequency", VStr "low");
          ("domain", VStr "Mathematics/Business");
          ("status", VStr "established");
          ("example_sentence", VStr "The computers worked long hours calculating astronomical tables.");
          ("notes", VStr "Originally a job title, not a machine") ];
        VDict [
          ("term", VStr "Computer");
          ("period", VStr "1900-1945");
          ("year_start", VInt 1900);
          ("year_end", VInt 1945);
          ("definition", VStr "Both human calculators and early mechanical calculating machines");
          ("definition_zh", VStr "人類計算員和早期機械計算機器");
          ("usage_context", VStr "Business, military, science");
          ("frequency", VStr "medium");
          ("domain", VStr "Technology/Military");
          ("status", VStr "evolving");
          ("example_sentence", VStr "The women computers at NASA calculated rocket trajectories.");
          ("notes", VStr "Transition period - term applies to both humans and machines") ];
        VDict [
          ("term", VStr "Computer");
          ("period", VStr "1945-1980");
          ("year_start", VInt 1945);
          ("year_end", VInt 1980);
          ("definition", VStr "Large electronic calculating machine; mainframe systems");
          ("definition_zh", VStr "大型電子計算機器；主機系統");
          ("usage_context", VStr "Business, government, universities");
          ("frequency", VStr "high");
          ("domain", VStr "Technology");
          ("status", VStr "established");
          ("example_sentence", VStr "The company's computer filled an entire room.");
          ("notes", VStr "Human meaning becomes obsolete; machine meaning dominates") ];
        VDict [
          ("term", VStr "Computer");
          ("period", VStr "1980-2000");
          ("year_start", VInt 1980);
          ("year_end", VInt 2000);
          ("definition", VStr "Personal computing device; desktop and laptop machines");
          ("definition_zh", VStr "個人計算設備；桌上型和筆記型電腦");
          ("usage_context", VStr "Home, office, school");
          ("frequency", VStr "high");
          ("domain", VStr "Consumer Technology");
          ("status", VStr "established");
          ("example_sentence", VStr "Every household should have a computer.");
          ("notes", VStr "Personal computer revolution") ];
        VDict [
          ("term", VStr "Computer");
          ("period", VStr "2000-Present");
          ("year_start", VInt 2000);
          ("year_end", VInt 2024);
          ("definition", VStr "Any programmable electronic device; includes smartphones, tablets, embedded systems");
          ("definition_zh", VStr "任何可程式化的電子設備；包括智慧手機、平板電腦、嵌入式系統");
          ("usage_context", VStr "Ubiquitous in daily life");
          ("frequency", VStr "high");
          ("domain", VStr "Technology/Daily Life");
          ("status", VStr "established");
          ("example_sentence", VStr "Your phone is a computer more powerful than what sent humans to the moon.");
          ("notes", VStr "Term has broadened to include many device types") ] ]);
    ("semantic_shifts", VList [
        VDict [
          ("term", VStr "Computer");
          ("shift_type", VStr "narrowing");
          ("period_from", VStr "1640s");
          ("period_to", VStr "1950s");
          ("meaning_before", VStr "Person who computes (human calculator)");
          ("meaning_after", VStr "Electronic calculating machine only");
          ("explanation", VStr "As machines took over computing tasks, the human meaning became obsolete");
          ("explanation_zh", VStr "隨著機器接管計算任務，人類的含義變得過時");
          ("evidence", VStr "NASA 'computers' (human) replaced by electronic computers") ];
        VDict [
          ("term", VStr "Computer");
          ("shift_type", VStr "broadening");
          ("period_from", VStr "1980s");
          ("period_to", VStr "2020s");
          ("meaning_before", VStr "Large room-sized calculating machine");
          ("meaning_after", VStr "Any programmable device including phones and tablets");
          ("explanation", VStr "Miniaturization led to computers being embedded everywhere");
          ("explanation_zh", VStr "微型化導致計算機無處不在");
          ("evidence", VStr "Smartphones, smartwatches, IoT devices all called computers") ] ]);
    ("related_terms", VList [VStr "Computing"; VStr "Calculator"; VStr "Processor"; VStr "PC"; VStr "Laptop"; VStr "Server"; VStr "Mainframe"]);
    ("current_status", VStr "Ubiquitous term; sometimes considered old-fashioned compared to 'device' for phones/tablets");
    ("future_prediction", VStr "May further broaden to include AI systems, or narrow as 'traditional computers' versus AI agents");
    ("future_prediction_zh", VStr "可能進一步擴展到包括 AI 系統，或縮小為「傳統計算機」與 AI 代理的對比") ])%Z.

Definition virus_record : value :=
  (VDict [
    ("term", VStr "Virus");
    ("domain", VStr "medicine / technology");
    ("origin_period", VStr "1590s");
    ("origin_language", VStr "Latin");
    ("etymology", VStr "From Latin 'virus' meaning 'poison, sap of plants, slimy liquid'. Originally referred to any poisonous substance.");
    ("etymology_zh", VStr "源自拉丁語「virus」，意為「毒藥、植物汁液、黏液」。最初指任何有毒物質。");
    ("snapshots", VList [
        VDict [
          ("term", VStr "Virus");
          ("period", VStr "1590-1890");
          ("year_start", VInt 1590);
          ("year_end", VInt 1890);
          ("definition", VStr "Venom, poison, or any noxious substance causing disease");
          ("definition_zh", VStr "毒液、毒藥或任何引起疾病的有害物質");
          ("usage_context", VStr "Medical/scientific discourse");
          ("frequency", VStr "low");
          ("domain", VStr "Medicine");
          ("status", VStr "established");
          ("example_sentence", VStr "The virus in the wound caused infection.");
          ("notes", VStr "Pre-germ theory understanding") ];
        VDict [
          ("term", VStr "Virus");
          ("period", VStr "1890-1950");
          ("year_start", VInt 1890);
          ("year_end", VInt 1950);
          ("definition", VStr "Submicroscopic infectious agent smaller than bacteria");
          ("definition_zh", VStr "比細菌更小的亞顯微感染性病原體");
          ("usage_context", VStr "Microbiology, medicine");
          ("frequency", VStr "medium");
          ("domain", VStr "Medicine/Science");
          ("status", VStr "evolving");
          ("example_sentence", VStr "The tobacco mosaic virus was the first to be identified.");
          ("notes", VStr "Scientific discovery of viral nature") ];
        VDict [
          ("term", VStr "Virus");
          ("period", VStr "1950-1985");
          ("year_start", VInt 1950);
          ("year_end", VInt 1985);
          ("definition", VStr "Infectious agent consisting of nucleic acid in protein coat; causes diseases");
          ("definition_zh", VStr "由蛋白質外殼包裹的核酸組成的感染性病原體；引起疾病");
          ("usage_context", VStr "Medicine, public health");
          ("frequency", VStr "high");
          ("domain", VStr "Medicine");
          ("status", VStr "established");
          ("example_sentence", VStr "The polio virus was nearly eradicated by vaccines.");
          ("notes", VStr "Modern understanding of viral structure") ];
        VDict [
          ("term", VStr "Virus");
          ("period", VStr "1985-2000");
          ("year_start", VInt 1985);
          ("year_end", VInt 2000);
          ("definition", VStr "1) Biological pathogen 2) Malicious computer program that self-replicates");
          ("definition_zh", VStr "1) 生物病原體 2) 自我複製的惡意電腦程式");
          ("usage_context", VStr "Medicine and computing");
          ("frequency", VStr "high");
          ("domain", VStr "Medicine/Technology");
          ("status", VStr "evolving");
          ("example_sentence", VStr "My computer caught a virus from that email attachment.");
          ("notes", VStr "Metaphorical extension to computing") ];
        VDict [
          ("term", VStr "Virus");
          ("period", VStr "2000-Present");
          ("year_start", VInt 2000);
          ("year_end", VInt 2024);
          ("definition", VStr "1) Biological pathogen 2) Computer malware 3) 'Viral' content that spreads rapidly online");
          ("definition_zh", VStr "1) 生物病原體 2) 電腦惡意軟體 3) 在網上迅速傳播的「病毒式」內容");
          ("usage_context", VStr "Medicine, tech, social media");
          ("frequency", VStr "high");
          ("domain", VStr "Multiple domains");
          ("status", VStr "established");
          ("example_sentence", VStr "That video went viral overnight.");
          ("notes", VStr "'Viral' became common adjective for internet phenomena") ] ]);
    ("semantic_shifts", VList [
        VDict [
          ("term", VStr "Virus");
          ("shift_type", VStr "narrowing");
          ("period_from", VStr "1590s");
          ("period_to", VStr "1900s");
          ("meaning_before", VStr "Any poison or noxious substance");
          ("meaning_after", VStr "Specific type of submicroscopic pathogen");
          ("explanation", VStr "Scientific discovery narrowed the meaning to a specific biological entity");
          ("explanation_zh", VStr "科學發現將含義縮小到特定的生物實體");
          ("evidence", VStr "Discovery of viruses as distinct from bacteria") ];
        VDict [
          ("term", VStr "Virus");
          ("shift_type", VStr "metaphor");
          ("period_from", VStr "1983");
          ("period_to", VStr "1990s");
          ("meaning_before", VStr "Biological infectious agent only");
          ("meaning_after", VStr "Extended to self-replicating computer programs");
          ("explanation", VStr "The behavior of malicious programs mimicked viral spread");
          ("explanation_zh", VStr "惡意程式的行為模仿了病毒的傳播");
          ("evidence", VStr "First computer virus (Elk Cloner) named using biological metaphor") ];
        VDict [
          ("term", VStr "Virus");
          ("shift_type", VStr "broadening");
          ("period_from", VStr "2000s");
          ("period_to", VStr "2010s");
          ("meaning_before", VStr "Harmful entity (biological or digital)");
          ("meaning_after", VStr "Any rapidly spreading phenomenon (including positive ones)");
          ("explanation", VStr "'Going viral' can be positive - rapid spread of popular content");
          ("explanation_zh", VStr "「病毒式傳播」可以是正面的——流行內容的快速傳播");
          ("evidence", VStr "Viral marketing, viral videos, viral trends") ] ]);
    ("related_terms", VList [VStr "Viral"; VStr "Malware"; VStr "Pathogen"; VStr "Infection"; VStr "Contagion"; VStr "Epidemic"; VStr "Pandemic"]);
    ("current_status", VStr "Multi-domain term with biological, computing, and social media meanings all active");
    ("future_prediction", VStr "May develop further meanings related to AI or digital phenomena; biological meaning reinforced post-COVID");
    ("future_prediction_zh", VStr "可能發展出與 AI 或數位現象相關的更多含義；生物學含義在後疫情時代得到加強") ])%Z.

Definition cloud_record : value :=
  (VDict [
    ("term", VStr "Cloud");
    ("domain", VStr "technology");
    ("origin_period", VStr "Old English");
    ("origin_language", VStr "Old English (clūd)");
    ("etymology", VStr "From Old English 'clūd' originally meaning 'rock, hill' then shifting to 'mass of water vapor'. Technology meaning emerged in 1990s.");
    ("etymology_zh", VStr "源自古英語「clūd」，最初意為「岩石、山丘」，後轉變為「水蒸氣團」。科技含義於1990年代出現。");
    ("snapshots", VList [
        VDict [
          ("term", VStr "Cloud");
          ("period", VStr "Pre-1300");
          ("year_start", VInt 700);
          ("year_end", VInt 1300);
          ("definition", VStr "Rock or hill; mass of earth");
          ("definition_zh", VStr "岩石或山丘；土塊");
          ("usage_context", VStr "Geographic description");
          ("frequency", VStr "medium");
          ("domain", VStr "General");
          ("status", VStr "archaic");
          ("example_sentence", VStr "The shepherd climbed the cloud.");
          ("notes", VStr "Original meaning now completely obsolete") ];
        VDict [
          ("term", VStr "Cloud");
          ("period", VStr "1300-1990");
          ("year_start", VInt 1300);
          ("year_end", VInt 1990);
          ("definition", VStr "Visible mass of water droplets suspended in atmosphere");
          ("definition_zh", VStr "懸浮在大氣中的可見水滴團");
          ("usage_context", VStr "Weather, poetry, general usage");
          ("frequency", VStr "high");
          ("domain", VStr "Meteorology/General");
          ("status", VStr "established");
          ("example_sentence", VStr "Dark clouds gathered on the horizon.");
          ("notes", VStr "Primary meaning for centuries") ];
        VDict [
          ("term", VStr "Cloud");
          ("period", VStr "1990-2006");
          ("year_start", VInt 1990);
          ("year_end", VInt 2006);
          ("definition", VStr "1) Atmospheric phenomenon 2) Network diagram symbol for the internet");
          ("definition_zh", VStr "1) 大氣現象 2) 網路圖中代表網際網路的符號");
          ("usage_context", VStr "Meteorology and technical diagrams");
          ("frequency", VStr "high");
          ("domain", VStr "Weather/Technology");
          ("status", VStr "evolving");
          ("example_sentence", VStr "The cloud symbol represents external network connections.");
          ("notes", VStr "Cloud used in network diagrams to represent 'somewhere else'") ];
        VDict [
          ("term", VStr "Cloud");
          ("period", VStr "2006-Present");
          ("year_start", VInt 2006);
          ("year_end", VInt 2024);
          ("definition", VStr "1) Atmospheric phenomenon 2) Remote computing services accessed via internet");
          ("definition_zh", VStr "1) 大氣現象 2) 通過網際網路訪問的遠端計算服務");
          ("usage_context", VStr "Technology, business, daily life");
          ("frequency", VStr "high");
          ("domain", VStr "Technology");
          ("status", VStr "established");
          ("example_sentence", VStr "Store your files in the cloud for easy access anywhere.");
          ("notes", VStr "Amazon Web Services launched 2006; term became mainstream") ] ]);
    ("semantic_shifts", VList [
        VDict [
          ("term", VStr "Cloud");
          ("shift_type", VStr "metaphor");
          ("period_from", VStr "Pre-1300");
          ("period_to", VStr "1300s");
          ("meaning_before", VStr "Rock or hill (solid earth mass)");
          ("meaning_after", VStr "Mass of water vapor in sky");
          ("explanation", VStr "Transferred from earthly mass to sky mass based on visual similarity");
          ("explanation_zh", VStr "基於視覺相似性，從地面的土塊轉移到天空的雲團");
          ("evidence", VStr "Historical etymology documented in OED") ];
        VDict [
          ("term", VStr "Cloud");
          ("shift_type", VStr "metaphor");
          ("period_from", VStr "1990s");
          ("period_to", VStr "2000s");
          ("meaning_before", VStr "Only atmospheric water vapor");
          ("meaning_after", VStr "Remote computing infrastructure (invisible, 'up there')");
          ("explanation", VStr "The amorphous, 'somewhere up there' nature of clouds mapped onto remote servers");
          ("explanation_zh", VStr "雲的模糊、「在某處上方」的特性被映射到遠端服務器上");
          ("evidence", VStr "Network engineers used cloud symbol; term stuck") ] ]);
    ("related_terms", VList [VStr "Cloud computing"; VStr "SaaS"; VStr "IaaS"; VStr "PaaS"; VStr "Server"; VStr "AWS"; VStr "Azure"; VStr "Cloudscape"]);
    ("current_status", VStr "Dual meaning fully established; context usually clarifies which meaning intended");
    ("future_prediction", VStr "Technology meaning may become primary as cloud computing becomes ubiquitous; new compounds likely (cloud AI, cloud gaming)");
    ("future_prediction_zh", VStr "隨著雲計算變得無處不在，科技含義可能成為主要含義；可能出現新的複合詞（雲端 AI、雲端遊戲）") ])%Z.

Definition mouse_record : value :=
  (VDict [
    ("term", VStr "Mouse");
    ("domain", VStr "technology");
    ("origin_period", VStr "Old English");
    ("origin_language", VStr "Old English (mūs)");
    ("etymology", VStr "From Old English 'mūs', from Proto-Germanic *mūs, from PIE root *mus- meaning 'mouse'. Computer meaning from 1965.");
    ("etymology_zh", VStr "源自古英語「mūs」，來自原始日耳曼語 *mūs，來自原始印歐語詞根 *mus-，意為「老鼠」。電腦含義始於1965年。");
    ("snapshots", VList [
        VDict [
          ("term", VStr "Mouse");
          ("period", VStr "Old English-1965");
          ("year_start", VInt 700);
          ("year_end", VInt 1965);
          ("definition", VStr "Small rodent with pointed snout and long tail");
          ("definition_zh", VStr "有尖嘴和長尾巴的小型齧齒動物");
          ("usage_context", VStr "General, zoology");
          ("frequency", VStr "high");
          ("domain", VStr "General/Biology");
          ("status", VStr "established");
          ("example_sentence", VStr "The cat caught a mouse in the barn.");
          ("notes", VStr "Sole meaning for centuries") ];
        VDict [
          ("term", VStr "Mouse");
          ("period", VStr "1965-1984");
          ("year_start", VInt 1965);
          ("year_end", VInt 1984);
          ("definition", VStr "1) Rodent 2) Experimental pointing device for computers");
          ("definition_zh", VStr "1) 齧齒動物 2) 電腦實驗性指向設備");
          ("usage_context", VStr "Research labs, early computing");
          ("frequency", VStr "low");
          ("domain", VStr "Technology (specialized)");
          ("status", VStr "emerging");
          ("example_sentence", VStr "Engelbart demonstrated the mouse at the 1968 conference.");
          ("notes", VStr "Invented by Douglas Engelbart; named for resemblance to rodent") ];
        VDict [
          ("term", VStr "Mouse");
          ("period", VStr "1984-2000");
          ("year_start", VInt 1984);
          ("year_end", VInt 2000);
          ("definition", VStr "1) Rodent 2) Hand-held computer input device with buttons");
          ("definition_zh", VStr "1) 齧齒動物 2) 帶按鈕的手持電腦輸入設備");
          ("usage_context", VStr "Personal computing, offices");
          ("frequency", VStr "high");
          ("domain", VStr "Technology");
          ("status", VStr "established");
          ("example_sentence", VStr "Click the left mouse button to select.");
          ("notes", VStr "Apple Macintosh popularized the mouse in 1984") ];
        VDict [
          ("term", VStr "Mouse");
          ("period", VStr "2000-Present");
          ("year_start", VInt 2000);
          ("year_end", VInt 2024);
          ("definition", VStr "1) Rodent 2) Computer pointing device (now wireless, optical, or gaming variants)");
          ("definition_zh", VStr "1) 齧齒動物 2) 電腦指向設備（現有無線、光學或遊戲版本）");
          ("usage_context", VStr "Computing, gaming");
          ("frequency", VStr "high");
          ("domain", VStr "Technology");
          ("status", VStr "established");
          ("example_sentence", VStr "This gaming mouse has 12 programmable buttons.");
          ("notes", VStr "Plural 'mice' or 'mouses' both acceptable for devices") ] ]);
    ("semantic_shifts", VList [
        VDict [
          ("term", VStr "Mouse");
          ("shift_type", VStr "metaphor");
          ("period_from", VStr "1965");
          ("period_to", VStr "1984");
          ("meaning_before", VStr "Only a small rodent");
          ("meaning_after", VStr "Also a computer input device");
          ("explanation", VStr "Named for visual resemblance - small body with a 'tail' (cord)");
          ("explanation_zh", VStr "因視覺相似性而命名——小型機身帶有「尾巴」（電線）");
          ("evidence", VStr "Douglas Engelbart's naming; cord resembled mouse tail") ] ]);
    ("related_terms", VList [VStr "Trackpad"; VStr "Touchpad"; VStr "Pointer"; VStr "Cursor"; VStr "Click"; VStr "Scroll"; VStr "Trackball"]);
    ("current_status", VStr "Both meanings fully active; context always clear");
    ("future_prediction", VStr "Computer meaning may decline as touchscreens and gesture control increase; may become retro/specialized term");
    ("future_prediction_zh", VStr "隨著觸控螢幕和手勢控制增加，電腦含義可能下降；可能成為復古/專業術語") ])%Z.

Definition DEMO_DATA : list (string * value) :=
  [ ("buddha", buddha_record);
    ("computer", computer_record);
    ("virus", virus_record);
    ("cloud", cloud_record);
    ("mouse", mouse_record) ].

(** ** [SimpleTermTracker] and [analyze_term] *)

(** The six values [analyze_term] hands to the interface: the report, the
    timeline, the status pie, the frequency chart, the Sankey diagram and
    the JSON text. *)
Definition analysis : Type := (string * Figure * Figure * Figure * Figure * string)%type.

(** The block shared by the demo branch and the API branch. *)
Definition render (data : value) : outcome analysis :=
  report ← format_report data;
  timeline ← create_timeline_chart data;
  status_pie ← create_status_pie data;
  freq_chart ← create_frequency_chart data;
  sankey ← create_shift_sankey data;
  let json_out := json_dumps 2 data in
  mret (report, timeline, status_pie, freq_chart, sankey, json_out).

Definition empty_term_message : string := "❌ Please enter a term. 請輸入術語。".

Definition miss_message (term : string) : string :=
  "⚠️ No data for '" +:+ term +:+ "'. Try demo terms: buddha, computer, virus, cloud, mouse"
  +:+ nl +:+ nl +:+ "Or set your API key to analyze custom terms.".

(** The tuple returned for an empty term. *)
Definition empty_term_result : analysis :=
  (empty_term_message, go_Figure, go_Figure, go_Figure, go_Figure, "").

(** The tuple returned when there is no data. *)
Definition miss_result (term : string) : analysis :=
  (miss_message term, annotated ("No data for '" +:+ term +:+ "'"),
   go_Figure, go_Figure, go_Figure, "").

(** A [SimpleTermTracker]: its key, and whether [__init__] could build the
    Mistral client ([self.client] is [None] otherwise). *)
Record SimpleTermTracker : Type := { api_key : string; client : bool }.

(** [SimpleTermTracker(api_key)]: [mistral] tells whether importing
    [mistralai] and building the client went through; otherwise the
    exception is caught and [self.client] stays [None]. *)
Definition new_tracker (mistral : bool) (key : string) : SimpleTermTracker :=
  {| api_key := key; client := mistral |}.

Definition key_set_message : string :=
  "✅ API key set! You can now analyze custom terms. Demo data available for: buddha, computer, virus, cloud, mouse".

Definition no_key_message : string :=
  "⚠️ No API key provided. Using demo data only. Available terms: buddha, computer, virus, cloud, mouse".

(** [initialize_tracker(api_key)]: the status text and the global
    [tracker] after the call. *)
Definition initialize_tracker (mistral : bool) (key : string)
    (tracker : option SimpleTermTracker) : string * option SimpleTermTracker :=
  if negb (String.eqb key "") && negb (String.eqb (strip key) "")
  then (key_set_message, Some (new_tracker mistral (strip key)))
  else (no_key_message, tracker).

Section Service.

(** The service answers a request given the requests made before it;
    [json_loads] is [json.loads], [None] standing for its exception. *)
Variable service : calls -> request -> reply.
Variable json_loads : string -> option value.

(** [SimpleTermTracker.analyze_term]: one request; every exception inside
    the [try] is caught and the method falls through to [return None]. *)
Definition tracker_analyze_term (self : SimpleTermTracker) (term domain : string)
    (log : calls) : option value * calls :=
  if negb (client self) then (None, log)
  else
    let rq := Request "mistral-small-latest" (AnalyzePrompt term domain) in
    match service log rq with
    | Failed => (None, rq :: log)
    | Replied text =>
        match re_search match_braces text with
        | Some m =>
            match json_loads m with
            | Some data => (Some data, rq :: log)
            | None => (None, rq :: log)
            end
        | None => (None, rq :: log)
        end
    end.

(** [analyze_term(term, domain)], reading the global [tracker]. *)
Definition analyze_term (tracker : option SimpleTermTracker) (term domain : string)
    (log : calls) : outcome analysis * calls :=
  if String.eqb term "" || String.eqb (strip term) "" then (Returns empty_term_result, log)
  else
    let term_lower := lower (strip term) in
    match assoc term_lower DEMO_DATA with
    | Some data => (render data, log)
    | None =>
        match tracker with
        | Some t =>
            if client t then
              match tracker_analyze_term t term domain log with
              | (Some data, log') =>
                  if truthy data then (render data, log')
                  else (Returns (miss_result term), log')
              | (None, log') => (Returns (miss_result term), log')
              end
            else (Returns (miss_result term), log)
        | None => (Returns (miss_result term), log)
        end
    end.

End Service.

End app.

(** * terminology_evolution_tracker.py *)

Module terminology_evolution_tracker.

(** The dataclass [TermEvolutionRecord]; its fields hold whatever the
    parsed reply held. *)
Record TermEvolutionRecord : Type := {
  term : value;
  domain : value;
  origin_period : value;
  origin_language : value;
  etymology : value;
  etymology_zh : value;
  snapshots : value;
  semantic_shifts : value;
  related_terms : value;
  current_status : value;
  future_prediction : value;
  future_prediction_zh : value
}.

(** An instance of [TerminologyEvolutionTracker]; [self.client] is built
    from [api_key] and is the service below. *)
Record TerminologyEvolutionTracker : Type := {
  api_key : string;
  model : string;
  evolution_database : gmap string TermEvolutionRecord
}.

(** [__init__]: [environ_key] is [os.environ.get("MISTRAL_API_KEY")]. *)
Definition init (api_key : option string) (model : string) (environ_key : option string)
  : outcome TerminologyEvolutionTracker :=
  let key :=
    match api_key with
    | Some k => if String.eqb k "" then environ_key else Some k
    | None => environ_key
    end in
  match key with
  | Some k =>
      if String.eqb k "" then Raises ValueError
      else Returns {| api_key := k; model := model; evolution_database := ∅ |}
  | None => Raises ValueError
  end.

Definition default_time_periods : list string :=
  ["Pre-1900"; "1900-1950"; "1950-1980"; "1980-2000"; "2000-2010"; "2010-2020"; "2020-Present"].

(** [if not time_periods: time_periods = [...]]. *)
Definition periods_or_default (time_periods : option (list string)) : list string :=
  match time_periods with
  | None | Some [] => default_time_periods
  | Some l => l
  end.

(** ** [_extract_year] *)

(** The [if]/[elif] chain on the lowercased label. *)
Definition decade_of (period_lower : string) : Z :=
  (if contains "pre-1900" period_lower || contains "19th century" period_lower then 1850
   else if contains "1900" period_lower then 1925
   else if contains "1950" period_lower then 1965
   else if contains "1980" period_lower then 1990
   else if contains "2000" period_lower then 2005
   else if contains "2010" period_lower then 2015
   else if contains "2020" period_lower || contains "present" period_lower then 2022
   else 2000)%Z.

Definition _extract_year_str (period_str : string) : Z :=
  match re_search_chars match_digits_4 (chars period_str) with
  | Some m => int_of_match m
  | None => decade_of (lower period_str)
  end.

Definition _extract_year (period_str : value) : Z := _extract_year_str (py_str period_str).

(** ** Pure methods *)

(** [TermEvolutionRecord(term=data.get("term", term), ...)]. *)
Definition record_of (data : value) (term_arg domain_arg : string) : outcome TermEvolutionRecord :=
  term ← get data "term" (VStr term_arg);
  domain ← get data "domain" (VStr domain_arg);
  origin_period ← get data "origin_period" (VStr "Unknown");
  origin_language ← get data "origin_language" (VStr "Unknown");
  etymology ← get data "etymology" (VStr "");
  etymology_zh ← get data "etymology_zh" (VStr "");
  snapshots ← get data "snapshots" (VList []);
  semantic_shifts ← get data "semantic_shifts" (VList []);
  related_terms ← get data "related_terms" (VList []);
  current_status ← get data "current_status" (VStr "");
  future_prediction ← get data "future_prediction" (VStr "");
  future_prediction_zh ← get data "future_prediction_zh" (VStr "");
  mret {| term := term; domain := domain; origin_period := origin_period;
          origin_language := origin_language; etymology := etymology;
          etymology_zh := etymology_zh; snapshots := snapshots;
          semantic_shifts := semantic_shifts; related_terms := related_terms;
          current_status := current_status; future_prediction := future_prediction;
          future_prediction_zh := future_prediction_zh |}.

(** [to_dict]: [asdict(record)]. *)
Definition to_dict (record : TermEvolutionRecord) : value :=
  VDict [ ("term", term record); ("domain", domain record);
          ("origin_period", origin_period record);
          ("origin_language", origin_language record);
          ("etymology", etymology record); ("etymology_zh", etymology_zh record);
          ("snapshots", snapshots record); ("semantic_shifts", semantic_shifts record);
          ("related_terms", related_terms record);
          ("current_status", current_status record);
          ("future_prediction", future_prediction record);
          ("future_prediction_zh", future_prediction_zh record) ].

Definition to_json (record : TermEvolutionRecord) (indent : nat) : string :=
  json_dumps indent (to_dict record).

Definition timeline_period (snapshot : value) : outcome value :=
  period ← get snapshot "period" (VStr "");
  year_start ← get snapshot "year_start" (VInt 0);
  year_end ← get snapshot "year_end" (VInt 0);
  definition ← get snapshot "definition" (VStr "");
  status ← get snapshot "status" (VStr "");
  frequency ← get snapshot "frequency" (VStr "");
  mret (VDict [ ("period", period); ("year_start", year_start); ("year_end", year_end);
                ("definition", definition); ("status", status); ("frequency", frequency) ]).

Definition timeline_shift (shift : value) : outcome value :=
  shift_type ← get shift "shift_type" (VStr "");
  period_from ← get shift "period_from" (VStr "");
  period_to ← get shift "period_to" (VStr "");
  meaning_before ← get shift "meaning_before" (VStr "");
  meaning_after ← get shift "meaning_after" (VStr "");
  explanation ← get shift "explanation" (VStr "");
  mret (VDict [ ("type", shift_type); ("period_from", period_from); ("period_to", period_to);
                ("meaning_before", meaning_before); ("meaning_after", meaning_after);
                ("explanation", explanation) ]).

Definition generate_timeline_data (record : TermEvolutionRecord) : outcome value :=
  let origin :=
    VDict [ ("type", VStr "origin");
            ("year", VInt (_extract_year (origin_period record)));
            ("period", origin_period record);
            ("label", VStr ("Origin: " +:+ py_str (origin_language record)));
            ("description", etymology record) ] in
  snaps ← py_iter (snapshots record);
  periods ← for_each timeline_period snaps;
  shifts_in ← py_iter (semantic_shifts record);
  shifts ← for_each timeline_shift shifts_in;
  mret (VDict [ ("term", term record); ("domain", domain record);
                ("events", VList [origin]); ("periods", VList periods);
                ("shifts", VList shifts) ]).

(** ** Methods that call the service *)

Section Service.

Variable service : calls -> request -> reply.
Variable json_loads : string -> option value.

(** The body of a [try] that sends one request, finds the braces and parses
    them: [None] when the call raises, when nothing matches, and when
    [json.loads] raises. *)
Definition ask (rq : request) (log : calls) : option value :=
  match service log rq with
  | Failed => None
  | Replied response_text =>
      match re_search match_braces response_text with
      | Some json_match => json_loads json_match
      | None => None
      end
  end.

Definition analyze_term_evolution (self : TerminologyEvolutionTracker)
    (term domain : string) (time_periods : option (list string)) (log : calls)
  : option TermEvolutionRecord * TerminologyEvolutionTracker * calls :=
  let time_periods := periods_or_default time_periods in
  let rq := Request (model self) (EvolutionPrompt term domain time_periods) in
  match ask rq log with
  | Some data =>
      match record_of data term domain with
      | Returns record =>
          (Some record,
           {| api_key := api_key self; model := model self;
              evolution_database := <[term := record]> (evolution_database self) |},
           rq :: log)
      | Raises _ => (None, self, rq :: log)
      end
  | None => (None, self, rq :: log)
  end.

(** [analyze_multiple_terms]: an instance of the dataclass is always true,
    so every record obtained is kept. *)
Fixpoint analyze_multiple_terms (self : TerminologyEvolutionTracker)
    (terms : list string) (domain : string) (log : calls)
  : list TermEvolutionRecord * TerminologyEvolutionTracker * calls :=
  match terms with
  | [] => ([], self, log)
  | term :: rest =>
      match analyze_term_evolution self term domain None log with
      | (result, self', log') =>
          match analyze_multiple_terms self' rest domain log' with
          | (results, self'', log'') =>
              (match result with
               | Some record => record :: results
               | None => results
               end, self'', log'')
          end
      end
  end.

Definition compare_terms_evolution (self : TerminologyEvolutionTracker)
    (terms : list string) (domain : string) (log : calls)
  : option value * TerminologyEvolutionTracker * calls :=
  let rq := Request (model self) (ComparePrompt terms domain) in
  (ask rq log, self, rq :: log).

Definition detect_neologisms (self : TerminologyEvolutionTracker)
    (text domain reference_period : string) (log : calls)
  : option value * TerminologyEvolutionTracker * calls :=
  let rq := Request (model self) (NeologismPrompt text domain reference_period) in
  (ask rq log, self, rq :: log).

(** [track_term_evolution], the convenience function of the module. *)
Definition track_term_evolution (term domain : string) (api_key environ_key : option string)
    (log : calls) : outcome (option TermEvolutionRecord) * calls :=
  match init api_key "mistral-medium-latest" environ_key with
  | Returns tracker =>
      match analyze_term_evolution tracker term domain None log with
      | (result, _, log') => (Returns result, log')
      end
  | Raises e => (Raises e, log)
  end.

(** The public operations of an instance, and what each hands back. *)
Inductive operation : Type :=
| AnalyzeTermEvolution (term domain : string) (time_periods : option (list string))
| AnalyzeMultipleTerms (terms : list string) (domain : string)
| CompareTermsEvolution (terms : list string) (domain : string)
| DetectNeologisms (text domain reference_period : string)
| GenerateTimelineData (record : TermEvolutionRecord)
| ExtractYear (period_str : value)
| ToDict (record : TermEvolutionRecord)
| ToJson (record : TermEvolutionRecord) (indent : nat).

Inductive result : Type :=
| OptRecord (r : option TermEvolutionRecord)
| Records (rs : list TermEvolutionRecord)
| OptValue (v : option value)
| Timeline (v : outcome value)
| Year (y : Z)
| Dict (v : value)
| Text (s : string).

Definition run (op : operation) (self : TerminologyEvolutionTracker) (log : calls)
  : result * TerminologyEvolutionTracker * calls :=
  match op with
  | AnalyzeTermEvolution term domain time_periods =>
      match analyze_term_evolution self term domain time_periods log with
      | (r, self', log') => (OptRecord r, self', log')
      end
  | AnalyzeMultipleTerms terms domain =>
      match analyze_multiple_terms self terms domain log with
      | (rs, self', log') => (Records rs, self', log')
      end
  | CompareTermsEvolution terms domain =>
      match compare_terms_evolution self terms domain log with
      | (v, self', log') => (OptValue v, self', log')
      end
  | DetectNeologisms text domain reference_period =>
      match detect_neologisms self text domain reference_period log with
      | (v, self', log') => (OptValue v, self', log')
      end
  | GenerateTimelineData record => (Timeline (generate_timeline_data record), self, log)
  | ExtractYear period_str => (Year (_extract_year period_str), self, log)
  | ToDict record => (Dict (to_dict record), self, log)
  | ToJson record indent => (Text (to_json record indent), self, log)
  end.

End Service.

End terminology_evolution_tracker.

(** * Notions used to state the properties *)

(** The two cases of an ASCII letter. *)
Definition is_upper (c : ascii) : bool := ((65 <=? code c) && (code c <=? 90))%N.
Definition is_lower (c : ascii) : bool := ((97 <=? code c) && (code c <=? 122))%N.

Definition ascii_lower (c : ascii) : ascii :=
  if is_upper c then ascii_of_N (code c + 32) else c.
Definition ascii_upper (c : ascii) : ascii :=
  if is_lower c then ascii_of_N (code c - 32) else c.

(** [q] is a letter-casing of [key]: the same text, each letter in either
    case. *)
Fixpoint casing_of (key q : string) : Prop :=
  match key, q with
  | EmptyString, EmptyString => True
  | String a key', String b q' =>
      (b = a \/ b = ascii_upper a \/ b = ascii_lower a) /\ casing_of key' q'
  | _, _ => False
  end.

Fixpoint all_chars (p : ascii -> bool) (s : string) : bool :=
  match s with
  | EmptyString => true
  | String c r => p c && all_chars p r
  end.

Fixpoint map_chars (f : ascii -> ascii) (s : string) : string :=
  match s with
  | EmptyString => EmptyString
  | String c r => String (f c) (map_chars f r)
  end.

(** ASCII characters only. *)
Definition ascii_text (s : string) : bool := all_chars (fun c => (code c <? 128)%N) s.

(** No byte of the text is a whitespace character. *)
Definition spaceless (s : string) : bool :=
  all_chars (fun c => negb (is_space (String c EmptyString))) s.

(** The text does not begin in the middle of a character. *)
Definition starts_clean (s : string) : bool :=
  match s with
  | EmptyString => true
  | String c _ => negb (is_continuation c)
  end.

(** A list of characters that does not open with a lone continuation
    byte. *)
Definition closed_head (l : list string) : Prop :=
  match l with
  | [] => True
  | ch :: _ => starts_clean ch = true /\ ch <> ""
  end.

(** Whitespace only (the empty text included). *)
Definition blank (s : string) : bool := forallb is_space (chars s).

(** The last character is a hyphen. *)
Fixpoint last_is_hyphen (l : list string) : bool :=
  match l with
  | [] => false
  | [ch] => String.eqb ch "-"
  | _ :: r => last_is_hyphen r
  end.

Definition ends_with_hyphen (s : string) : bool := last_is_hyphen (chars s).

(** The last character is a digit. *)
Fixpoint last_is_digit (l : list string) : bool :=
  match l with
  | [] => false
  | [ch] => is_digit ch
  | _ :: r => last_is_digit r
  end.

Definition ends_with_digit (s : string) : bool := last_is_digit (chars s).

(** Three digits stand in a row somewhere. *)
Fixpoint three_digits (l : list string) : bool :=
  match l with
  | [] => false
  | a :: r =>
      match r with
      | b :: c :: _ => is_digit a && is_digit b && is_digit c
      | _ => false
      end
      || three_digits r
  end.

Definition has_three_digits (s : string) : bool := three_digits (chars s).

(** Four characters of the class [p] stand in a row somewhere. *)
Fixpoint four_in_row (p : string -> bool) (l : list string) : bool :=
  match l with
  | [] => false
  | a :: r =>
      (p a && match r with
              | b :: c :: d :: _ => p b && p c && p d
              | _ => false
              end)
      || four_in_row p r
  end.

(** An ASCII digit, as a byte and as a character. *)
Definition is_ascii_digit (c : ascii) : bool := ((48 <=? code c) && (code c <=? 57))%N.

Definition ascii_digit_char (ch : string) : bool :=
  match ch with
  | String d EmptyString => is_ascii_digit d
  | _ => false
  end.

(** Four ASCII digits stand in a row somewhere in the bytes of a text. *)
Fixpoint four_digit_bytes (s : string) : bool :=
  match s with
  | EmptyString => false
  | String a r =>
      (is_ascii_digit a
       && match r with
          | String b (String c (String d _)) =>
              is_ascii_digit b && is_ascii_digit c && is_ascii_digit d
          | _ => false
          end)
      || four_digit_bytes r
  end.

(** The shape of a character that [chars] cuts out: a first byte, then
    continuation bytes, none of them behind a byte that announces none. *)
Definition char_shape (ch : string) : Prop :=
  match ch with
  | EmptyString => False
  | String c tail => all_chars is_continuation tail = true /\ (width c = 0%nat -> tail = EmptyString)
  end.

(** The lines of a text. *)
Fixpoint lines_from (cur : string) (s : string) : list string :=
  match s with
  | EmptyString => [cur]
  | String c r =>
      if Ascii.eqb c "010" then cur :: lines_from EmptyString r
      else lines_from (cur +:+ String c EmptyString) r
  end.

Definition text_lines (s : string) : list string := lines_from EmptyString s.

(** How many lines of a text begin with [p]. *)
Definition lines_starting (p : string) (text : string) : nat :=
  length (filter (fun line => String.prefix p line = true) (text_lines text)).

(** A figure that plots nothing. *)
Definition placeholder (fig : Figure) : Prop := fig_data fig = [].

Definition is_dict (x : value) : bool := match x with VDict _ => true | _ => false end.
Definition is_str (x : value) : bool := match x with VStr _ => true | _ => false end.

(** A shift whose [shift_type], when present, is a string. *)
Definition shift_ready (x : value) : bool :=
  match x with
  | VDict kv =>
      match assoc "shift_type" kv with
      | None | Some (VStr _) => true
      | Some _ => false
      end
  | _ => false
  end.

(** A record every present field of which has the shape the report walks
    through: [snapshots] a list of dictionaries, [semantic_shifts] a list of
    shifts, [related_terms] a list of strings.  Any field may be missing. *)
Definition report_ready (data : value) : bool :=
  match data with
  | VDict kv =>
      match assoc "snapshots" kv with
      | None => true
      | Some (VList l) => forallb is_dict l
      | Some _ => false
      end
      && match assoc "semantic_shifts" kv with
         | None => true
         | Some (VList l) => forallb shift_ready l
         | Some _ => false
         end
      && match assoc "related_terms" kv with
         | None => true
         | Some (VList l) => forallb is_str l
         | Some _ => false
         end
  | _ => false
  end.

(** The record with [key] set to [default] when it has no such field. *)
Definition set_default (key : string) (default : value) (x : value) : value :=
  match x with
  | VDict kv => if has_key key kv then x else VDict (kv ++ [(key, default)])
  | _ => x
  end.

(** The defaults [format_report] names for the fields of a record, of a
    snapshot and of a shift. *)
Definition report_defaults : list (string * value) :=
  [ ("term", app.NA); ("domain", app.NA); ("origin_period", app.NA);
    ("origin_language", app.NA); ("etymology", app.NA); ("etymology_zh", app.NA);
    ("snapshots", VList []); ("semantic_shifts", VList []);
    ("current_status", app.NA); ("future_prediction", app.NA);
    ("future_prediction_zh", app.NA); ("related_terms", VList []) ].

Definition snapshot_defaults : list (string * value) :=
  [ ("period", app.NA); ("status", app.NA); ("frequency", app.NA);
    ("definition", app.NA); ("definition_zh", app.NA) ].

Definition shift_defaults : list (string * value) :=
  [ ("shift_type", app.NA); ("period_from", VStr ""); ("period_to", VStr "");
    ("meaning_before", app.NA); ("meaning_after", app.NA); ("explanation", app.NA) ].

(** A reply from which no record can be taken: the call raised, the text
    holds no brace-delimited part, or that part does not parse. *)
Definition unusable (json_loads : string -> option value) (r : reply) : Prop :=
  match r with
  | Failed => True
  | Replied text =>
      match re_search match_braces text with
      | None => True
      | Some m => json_loads m = None
      end
  end.

(** Two instances of the library's tracker that differ at most in their
    cache. *)
Definition same_client (s1 s2 : terminology_evolution_tracker.TerminologyEvolutionTracker) : Prop :=
  terminology_evolution_tracker.api_key s1 = terminology_evolution_tracker.api_key s2
  /\ terminology_evolution_tracker.model s1 = terminology_evolution_tracker.model s2.

(** A service that is down and a parser that accepts nothing, and a service
    with one fixed answer read by a parser that accepts one fixed text: the
    concrete collaborators of the examples. *)
Definition service_down : calls -> request -> reply := fun _ _ => Failed.
Definition parse_nothing : string -> option value := fun _ => None.
Definition service_says (text : string) : calls -> request -> reply := fun _ _ => Replied text.
Definition parse_only (text : string) (data : value) : string -> option value :=
  fun s => if String.eqb s text then Some data else None.

(** Two instances of the library's tracker with the same key and model,
    one with an empty cache and one that already holds a record, and a
    tracker of the web app whose client exists. *)
Definition stored_record : terminology_evolution_tracker.TermEvolutionRecord :=
  {| terminology_evolution_tracker.term := VStr "selfie";
     terminology_evolution_tracker.domain := VStr "general";
     terminology_evolution_tracker.origin_period := VStr "2002";
     terminology_evolution_tracker.origin_language := VStr "English";
     terminology_evolution_tracker.etymology := VStr "";
     terminology_evolution_tracker.etymology_zh := VStr "";
     terminology_evolution_tracker.snapshots := VList [];
     terminology_evolution_tracker.semantic_shifts := VList [];
     terminology_evolution_tracker.related_terms := VList [];
     terminology_evolution_tracker.current_status := VStr "";
     terminology_evolution_tracker.future_prediction := VStr "";
     terminology_evolution_tracker.future_prediction_zh := VStr "" |}.

(** A record with two snapshots and one shift, its origin written in
    full-width digits. *)
Definition dated_record : terminology_evolution_tracker.TermEvolutionRecord :=
  {| terminology_evolution_tracker.term := VStr "selfie";
     terminology_evolution_tracker.domain := VStr "general";
     terminology_evolution_tracker.origin_period := VStr "２００２年";
     terminology_evolution_tracker.origin_language := VStr "English";
     terminology_evolution_tracker.etymology := VStr "self + -ie";
     terminology_evolution_tracker.etymology_zh := VStr "";
     terminology_evolution_tracker.snapshots :=
       VList [ VDict [("period", VStr "2000s"); ("year_start", VInt 2002);
                      ("status", VStr "emerging"); ("note", VStr "forum slang")];
               VDict [("period", VStr "2010s"); ("year_start", VInt 2010);
                      ("year_end", VInt 2019)] ];
     terminology_evolution_tracker.semantic_shifts :=
       VList [ VDict [("shift_type", VStr "broadening"); ("period_from", VStr "2002")] ];
     terminology_evolution_tracker.related_terms := VList [];
     terminology_evolution_tracker.current_status := VStr "";
     terminology_evolution_tracker.future_prediction := VStr "";
     terminology_evolution_tracker.future_prediction_zh := VStr "" |}.

Definition fresh_tracker : terminology_evolution_tracker.TerminologyEvolutionTracker :=
  {| terminology_evolution_tracker.api_key := "key";
     terminology_evolution_tracker.model := "mistral-medium-latest";
     terminology_evolution_tracker.evolution_database := ∅ |}.

Definition used_tracker : terminology_evolution_tracker.TerminologyEvolutionTracker :=
  {| terminology_evolution_tracker.api_key := "key";
     terminology_evolution_tracker.model := "mistral-medium-latest";
     terminology_evolution_tracker.evolution_database := {[ "selfie" := stored_record ]} |}.

Definition web_tracker : app.SimpleTermTracker :=
  {| app.api_key := "key"; app.client := true |}.

(** A value that cannot be iterated over. *)
Definition not_iterable (x : value) : bool :=
  match x with
  | VNone | VBool _ | VInt _ => true
  | _ => false
  end.

(** A dictionary in which [key] is missing or holds a string. *)
Definition str_or_missing (key : string) (x : value) : bool :=
  match x with
  | VDict kv =>
      match assoc key kv with
      | None | Some (VStr _) => true
      | Some _ => false
      end
  | _ => false
  end.

(** A shift as the Sankey loop can take it: its two meanings and its type
    are strings where present. *)
Definition sankey_shift (x : value) : bool :=
  str_or_missing "meaning_before" x && str_or_missing "meaning_after" x
  && str_or_missing "shift_type" x.

Definition sum_Z (l : list Z) : Z := fold_right Z.add 0%Z l.

(** The number of characters of a text. *)
Definition char_count (s : string) : nat := length (chars s).

(** What a Sankey trace holds under [node.label] and under a key of
    [link]. *)
Definition node_labels (t : trace) : attr :=
  match table_get (trace_args t) "node" (ADict []) with
  | ADict node => table_get node "label" (AList [])
  | _ => AList []
  end.

Definition link_attr (key : string) (t : trace) : attr :=
  match table_get (trace_args t) "link" (ADict []) with
  | ADict link => table_get link key (AList [])
  | _ => AList []
  end.


(** No usable key: [None] or the empty string. *)
Definition no_key (k : option string) : Prop := k = None \/ k = Some "".

(** The request [analyze_multiple_terms] sends for one term. *)
Definition evolution_request (model domain term : string) : request :=
  Request model
    (EvolutionPrompt term domain terminology_evolution_tracker.default_time_periods).

(** The keys of a dictionary, in order. *)
Definition dict_keys (x : value) : list string :=
  match x with
  | VDict kv => map fst kv
  | _ => []
  end.






(** * Properties *)

(** ** Bytes and characters *)

Ltac each_char c := destruct c as [[] [] [] [] [] [] [] []]; vm_compute; try reflexivity; try discriminate.

Lemma append_nil_l (s : string) : "" +:+ s = s.
Proof. reflexivity. Qed.

Lemma append_cons c (a b : string) : String c a +:+ b = String c (a +:+ b).
Proof. reflexivity. Qed.

Ltac unapp := rewrite ?append_cons, ?append_nil_l.

Lemma append_empty_r (a : string) : a +:+ "" = a.
Proof. induction a as [|x a IH]; unapp; [reflexivity | f_equal; exact IH]. Qed.

Lemma append_assoc (a b c : string) : (a +:+ b) +:+ c = a +:+ (b +:+ c).
Proof. induction a as [|x a IH]; unapp; [reflexivity | now rewrite IH]. Qed.

Lemma absorb_zero l : absorb 0 l = ("", l).
Proof. now destruct l. Qed.

Lemma absorb_join n : forall l tail rest, absorb n l = (tail, rest) -> tail +:+ join rest = join l.
Proof.
  induction n as [|n IH]; intros l tail rest.
  - rewrite absorb_zero. now intros [= <- <-].
  - destruct l as [|x l]; [now intros [= <- <-] |].
    destruct x as [|b [|b' x]]; try (now intros [= <- <-]).
    cbn [absorb]. destruct (is_continuation b); [| now intros [= <- <-]].
    destruct (absorb n l) as [t r] eqn:E. intros [= <- <-].
    cbn [join]. unapp. f_equal. now apply IH.
Qed.

(** Cutting a text into characters loses nothing. *)
Lemma join_chars s : join (chars s) = s.
Proof.
  induction s as [|c s IH]; [reflexivity |]. cbn [chars].
  destruct (absorb (width c) (chars s)) as [t r] eqn:E. cbn [join]. unapp.
  f_equal. now rewrite (absorb_join _ _ _ _ E).
Qed.

Lemma chars_cons c s : exists tail rest, chars (String c s) = String c tail :: rest.
Proof.
  cbn [chars]. destruct (absorb (width c) (chars s)) as [t r]. now exists t, r.
Qed.

Lemma chars_closed_head s : starts_clean s = true -> closed_head (chars s).
Proof.
  destruct s as [|c s]; [exact (fun _ => I) |]. intros H.
  destruct (chars_cons c s) as (t & r & ->). now split.
Qed.

Lemma absorb_app n : forall l1 l2,
  closed_head l2 ->
  absorb n (l1 ++ l2) = (let (tail, rest) := absorb n l1 in (tail, rest ++ l2))%list.
Proof.
  induction n as [|n IH]; intros l1 l2 H.
  - now rewrite !absorb_zero.
  - destruct l1 as [|x l1].
    + cbn [app]. destruct l2 as [|[|b [|b' y]] l2]; try reflexivity.
      cbn [absorb]. destruct H as [H _]. cbn [starts_clean] in H.
      apply negb_true_iff in H. now rewrite H.
    + cbn [app]. destruct x as [|b [|b' x]]; try reflexivity.
      cbn [absorb]. destruct (is_continuation b); [| reflexivity].
      rewrite (IH l1 l2 H). now destruct (absorb n l1).
Qed.

(** The characters of two texts put together are those of the one and
    those of the other, unless the second begins inside a character. *)
Lemma chars_app a b : starts_clean b = true -> chars (a +:+ b) = (chars a ++ chars b)%list.
Proof.
  intros H. induction a as [|c a IH]; [reflexivity |]. unapp. cbn [chars].
  rewrite IH, (absorb_app _ _ _ (chars_closed_head _ H)).
  now destruct (absorb (width c) (chars a)).
Qed.

Lemma chars_narrow c s : width c = 0%nat -> chars (String c s) = String c "" :: chars s.
Proof. intros H. cbn [chars]. now rewrite H, absorb_zero. Qed.

Lemma width_ascii c : (code c <? 128)%N = true -> width c = 0%nat.
Proof.
  intros H. unfold width. apply N.ltb_lt in H.
  destruct (code c <? 192)%N eqn:E; [reflexivity |]. apply N.ltb_ge in E. lia.
Qed.

Lemma ord_clean ch n : ord ch = Some n -> starts_clean ch = true /\ ch <> "".
Proof.
  assert (Hlow : forall a, (byte_val a <? 128)%Z = true -> is_continuation a = false).
  { intros a H. apply Z.ltb_lt in H. unfold is_continuation, byte_val in *.
    apply andb_false_iff. left. apply N.leb_gt. lia. }
  assert (Hhigh : forall a lo, (192 <= lo)%Z -> (lo <=? byte_val a)%Z = true ->
                               is_continuation a = false).
  { intros a lo Hlo H. apply Z.leb_le in H. unfold is_continuation, byte_val in *.
    apply andb_false_iff. right. apply N.ltb_ge. lia. }
  destruct ch as [|a [|b [|c [|d [|e ch]]]]]; cbn [ord starts_clean]; try discriminate.
  - destruct (byte_val a <? 128)%Z eqn:E; [| discriminate].
    intros _. now rewrite (Hlow _ E).
  - destruct (194 <=? byte_val a)%Z eqn:E; [| discriminate].
    intros _. now rewrite (Hhigh a 194%Z ltac:(lia) E).
  - destruct (224 <=? byte_val a)%Z eqn:E; [| discriminate].
    intros _. now rewrite (Hhigh a 224%Z ltac:(lia) E).
  - destruct (240 <=? byte_val a)%Z eqn:E; [| discriminate].
    intros _. now rewrite (Hhigh a 240%Z ltac:(lia) E).
Qed.

Lemma has_class_clean table ch : has_class table ch = true -> starts_clean ch = true /\ ch <> "".
Proof.
  unfold has_class. destruct (ord ch) as [n |] eqn:E; [| discriminate].
  intros _. now apply (ord_clean ch n).
Qed.

Lemma is_digit_clean ch : is_digit ch = true -> starts_clean ch = true /\ ch <> "".
Proof.
  unfold is_digit, digit. destruct (ord ch) as [n |] eqn:E; [| discriminate].
  intros _. now apply (ord_clean ch n).
Qed.

(** ** ASCII text *)

Lemma ascii_lower_ascii c : (code c <? 128)%N = true -> (code (ascii_lower c) <? 128)%N = true.
Proof. each_char c. Qed.

Lemma ascii_upper_ascii c : (code c <? 128)%N = true -> (code (ascii_upper c) <? 128)%N = true.
Proof. each_char c. Qed.

Lemma ascii_lower_idem c : ascii_lower (ascii_lower c) = ascii_lower c.
Proof. each_char c. Qed.

Lemma ascii_lower_upper c : ascii_lower (ascii_upper c) = ascii_lower c.
Proof. each_char c. Qed.

(** On an ASCII character [str.lower] is the ASCII rule. *)
Lemma lower_char_ascii c :
  (code c <? 128)%N = true ->
  lower_char (String c "") = String (ascii_lower c) "" /\ String.eqb (String c "") "Σ" = false.
Proof. each_char c; intros _; split; reflexivity. Qed.

Lemma is_space_ascii_lower c :
  (code c <? 128)%N = true -> is_space (String (ascii_lower c) "") = is_space (String c "").
Proof. each_char c. Qed.

Lemma is_space_ascii_upper c :
  (code c <? 128)%N = true -> is_space (String (ascii_upper c) "") = is_space (String c "").
Proof. each_char c. Qed.

Lemma lower_chars_ascii s : forall after_cased,
  ascii_text s = true -> join (lower_chars after_cased (chars s)) = map_chars ascii_lower s.
Proof.
  induction s as [|c s IH]; intros st H; [reflexivity |].
  cbn [ascii_text all_chars] in H. apply andb_true_iff in H as [Hc Hs].
  rewrite (chars_narrow _ _ (width_ascii _ Hc)). cbn [lower_chars join map_chars].
  destruct (lower_char_ascii c Hc) as [-> ->]. cbn [andb]. unapp.
  f_equal. now apply IH.
Qed.

Lemma lower_ascii s : ascii_text s = true -> lower s = map_chars ascii_lower s.
Proof. apply lower_chars_ascii. Qed.

Lemma casing_ascii key q : casing_of key q -> ascii_text key = true -> ascii_text q = true.
Proof.
  revert q; induction key as [|a key IH]; intros [|b q]; simpl; try tauto.
  intros [Hb Hq] H. unfold ascii_text in *. cbn [all_chars] in *.
  apply andb_true_iff in H as [Ha Hk]. rewrite (IH _ Hq Hk), andb_true_r.
  destruct Hb as [-> | [-> | ->]];
    [exact Ha | now apply ascii_upper_ascii | now apply ascii_lower_ascii].
Qed.

Lemma casing_lower key q :
  casing_of key q -> map_chars ascii_lower q = map_chars ascii_lower key.
Proof.
  revert q; induction key as [|a key IH]; intros [|b q]; simpl; try tauto.
  intros [Hb Hq]. rewrite (IH _ Hq). f_equal.
  destruct Hb as [-> | [-> | ->]];
    [reflexivity | apply ascii_lower_upper | apply ascii_lower_idem].
Qed.

Lemma casing_spaceless key q :
  casing_of key q -> ascii_text key = true -> spaceless q = spaceless key.
Proof.
  revert q; induction key as [|a key IH]; intros [|b q]; simpl; try tauto.
  intros [Hb Hq] H. unfold ascii_text, spaceless in *. cbn [all_chars] in *.
  apply andb_true_iff in H as [Ha Hk]. rewrite (IH _ Hq Hk). f_equal.
  destruct Hb as [-> | [-> | ->]];
    [reflexivity | now rewrite is_space_ascii_upper | now rewrite is_space_ascii_lower].
Qed.

Lemma chars_spaceless s :
  ascii_text s = true -> spaceless s = true ->
  forallb (fun ch => negb (is_space ch)) (chars s) = true.
Proof.
  induction s as [|c s IH]; intros H Hs; [reflexivity |].
  unfold ascii_text, spaceless in *. cbn [all_chars] in *.
  apply andb_true_iff in H as [Hc H]. apply andb_true_iff in Hs as [Hn Hs].
  rewrite (chars_narrow _ _ (width_ascii _ Hc)). cbn [forallb].
  now rewrite Hn, IH.
Qed.

Lemma ascii_clean s : ascii_text s = true -> starts_clean s = true.
Proof.
  destruct s as [|c s]; [reflexivity |]. unfold ascii_text. cbn [all_chars starts_clean].
  intros H. apply andb_true_iff in H as [H _]. apply N.ltb_lt in H.
  apply negb_true_iff, andb_false_iff. left. apply N.leb_gt. exact H.
Qed.

(** ** Stripping *)

Lemma lstrip_blank l x : forallb is_space l = true -> lstrip (l ++ x) = lstrip x.
Proof.
  induction l as [|c l IH]; cbn [forallb app lstrip]; [reflexivity |].
  intros H. apply andb_true_iff in H as [Hc Hl]. rewrite Hc. now apply IH.
Qed.

Lemma rstrip_blank_all r : forallb is_space r = true -> rstrip r = [].
Proof.
  induction r as [|c r IH]; cbn [forallb rstrip]; [reflexivity |].
  intros H. apply andb_true_iff in H as [Hc Hr]. rewrite (IH Hr). now rewrite Hc.
Qed.

Lemma rstrip_blank x r : forallb is_space r = true -> rstrip (x ++ r) = rstrip x.
Proof.
  intros Hr. induction x as [|c x IH]; cbn [app rstrip].
  - now apply rstrip_blank_all.
  - now rewrite IH.
Qed.

Lemma rstrip_no_space l : forallb (fun ch => negb (is_space ch)) l = true -> rstrip l = l.
Proof.
  induction l as [|c l IH]; cbn [forallb rstrip]; [reflexivity |].
  intros H. apply andb_true_iff in H as [Hc Hl].
  rewrite (IH Hl). apply negb_true_iff in Hc. rewrite Hc.
  now destruct l.
Qed.

Lemma blank_clean s : blank s = true -> starts_clean s = true.
Proof.
  destruct s as [|c s]; [reflexivity |]. unfold blank.
  destruct (chars_cons c s) as (t & r & ->). cbn [forallb].
  intros H. apply andb_true_iff in H as [H _].
  now destruct (has_class_clean _ _ H) as [H' _].
Qed.

(** A text without whitespace, padded with whitespace, strips down to
    itself. *)
Lemma strip_padded l s r :
  blank l = true -> blank r = true ->
  starts_clean s = true ->
  forallb (fun ch => negb (is_space ch)) (chars s) = true ->
  strip (l +:+ s +:+ r) = s.
Proof.
  intros Hl Hr Hc Hs. unfold strip.
  assert (Hsr : chars (s +:+ r) = (chars s ++ chars r)%list)
    by (apply chars_app; now apply blank_clean).
  assert (Hclean : starts_clean (s +:+ r) = true).
  { destruct s as [|c s]; [unapp; now apply blank_clean | exact Hc]. }
  rewrite (chars_app _ _ Hclean), Hsr.
  rewrite (lstrip_blank _ _ Hl).
  destruct (chars s) as [|c cs] eqn:E.
  - cbn [app]. replace (chars r) with (chars r ++ [])%list by apply app_nil_r.
    rewrite (lstrip_blank _ _ Hr). cbn.
    rewrite <- (join_chars s), E. reflexivity.
  - assert (Hn : is_space c = false).
    { cbn [forallb] in Hs. apply andb_true_iff in Hs as [Hn _]. now apply negb_true_iff in Hn. }
    cbn [app lstrip]. rewrite Hn.
    change (c :: (cs ++ chars r)%list) with ((c :: cs) ++ chars r)%list.
    rewrite (rstrip_blank _ _ Hr), (rstrip_no_space _ Hs), <- E. apply join_chars.
Qed.

Lemma strip_blank s : blank s = true -> strip s = "".
Proof.
  intros H. unfold strip.
  replace (chars s) with (chars s ++ [])%list by apply app_nil_r.
  now rewrite (lstrip_blank _ _ H).
Qed.

(** ** Digits *)

Lemma digit_range ch v : digit ch = Some v -> (0 <= v <= 9)%Z.
Proof.
  unfold digit, decimal. destruct (ord ch) as [n |]; [| discriminate].
  destruct (find _ decimal_zeros) as [zero |] eqn:F; [| discriminate].
  apply find_some in F as [_ F]. intros [= <-]. lia.
Qed.

Lemma digit_value_range ch : (0 <= digit_value ch <= 9)%Z.
Proof.
  unfold digit_value. destruct (digit ch) as [v |] eqn:E; [| lia].
  now apply (digit_range ch).
Qed.

Lemma digit_not_hyphen ch : is_digit ch = true -> String.eqb ch "-" = false.
Proof.
  intros H. destruct (String.eqb ch "-") eqn:E; [| reflexivity].
  apply String.eqb_eq in E. subst. vm_compute in H. discriminate.
Qed.

Lemma ascii_digit_is_digit ch : ascii_digit_char ch = true -> is_digit ch = true.
Proof.
  destruct ch as [|d [|x ch]]; try discriminate. cbn [ascii_digit_char]. revert d.
  intros d. each_char d.
Qed.

(** ** Searching for a year *)

Lemma re_search_chars_cons f c l :
  re_search_chars f (c :: l)
  = match f (c :: l) with
    | Some m => Some m
    | None => re_search_chars f l
    end.
Proof. reflexivity. Qed.

Lemma re_search_chars_inv f l m :
  re_search_chars f l = Some m -> exists pre rest, l = (pre ++ rest)%list /\ f rest = Some m.
Proof.
  induction l as [|c l IH].
  - simpl. destruct (f []) as [m' |] eqn:E; [| discriminate].
    intros [= <-]. now exists [], [].
  - rewrite re_search_chars_cons. destruct (f (c :: l)) as [m' |] eqn:E.
    + intros [= <-]. now exists [], (c :: l).
    + intros H. destruct (IH H) as (pre & rest & -> & Hf).
      now exists (c :: pre), rest.
Qed.

(** What [\d{3,4}] takes at the head of a text. *)
Lemma match_digits_3_4_inv l m :
  match_digits_3_4 l = Some m ->
  exists a b c r,
    l = a :: b :: c :: r
    /\ is_digit a = true /\ is_digit b = true /\ is_digit c = true
    /\ (m = [a; b; c] \/ exists d r', r = d :: r' /\ is_digit d = true /\ m = [a; b; c; d]).
Proof.
  destruct l as [|a [|b [|c r]]]; try discriminate. unfold match_digits_3_4.
  destruct (is_digit a) eqn:Ha; [| discriminate].
  destruct (is_digit b) eqn:Hb; [| discriminate].
  destruct (is_digit c) eqn:Hc; [| discriminate]. cbn [andb].
  intros H. exists a, b, c, r. split; [reflexivity |].
  repeat (split; [assumption |]).
  destruct r as [|d r']; [left; congruence |].
  destruct (is_digit d) eqn:Hd; [| left; congruence].
  right. exists d, r'. repeat split; congruence.
Qed.

Lemma match_digits_4_inv l m :
  match_digits_4 l = Some m ->
  exists a b c d r,
    l = a :: b :: c :: d :: r /\ m = [a; b; c; d]
    /\ is_digit a = true /\ is_digit b = true /\ is_digit c = true /\ is_digit d = true.
Proof.
  destruct l as [|a [|b [|c [|d r]]]]; try discriminate. unfold match_digits_4.
  destruct (is_digit a) eqn:Ha; [| discriminate].
  destruct (is_digit b) eqn:Hb; [| discriminate].
  destruct (is_digit c) eqn:Hc; [| discriminate].
  destruct (is_digit d) eqn:Hd; [| discriminate]. cbn [andb].
  intros [= <-]. now exists a, b, c, d, r.
Qed.

Lemma three_digits_head l m : match_digits_3_4 l = Some m -> three_digits l = true.
Proof.
  intros H. destruct (match_digits_3_4_inv _ _ H) as (a & b & c & r & -> & Ha & Hb & Hc & _).
  cbn [three_digits]. now rewrite Ha, Hb, Hc.
Qed.

Lemma three_digits_tail a l : three_digits l = true -> three_digits (a :: l) = true.
Proof. intros H. cbn [three_digits]. rewrite H. apply orb_true_r. Qed.

Lemma match_signed_year_three l m : match_signed_year l = Some m -> three_digits l = true.
Proof.
  destruct l as [|c r]; [discriminate |]. unfold match_signed_year.
  destruct (String.eqb c "-").
  - destruct (match_digits_3_4 r) as [ds |] eqn:E.
    + intros _. apply three_digits_tail. now apply (three_digits_head r ds).
    + apply three_digits_head.
  - apply three_digits_head.
Qed.

(** [-?\d{3,4}] is found exactly where three digits stand in a row. *)
Lemma search_signed_year_none l :
  re_search_chars match_signed_year l = None <-> three_digits l = false.
Proof.
  split.
  - intros H. destruct (three_digits l) eqn:T; [| reflexivity]. exfalso.
    induction l as [|a l IH]; [discriminate |].
    rewrite re_search_chars_cons in H.
    destruct (match_signed_year (a :: l)) as [m |] eqn:E; [discriminate |].
    cbn [three_digits] in T. apply orb_true_iff in T as [T | T]; [| now apply IH].
    destruct l as [|b [|c r]]; try discriminate.
    unfold match_signed_year in E.
    assert (E' : match_digits_3_4 (a :: b :: c :: r) = None)
      by (destruct (String.eqb a "-"); [destruct (match_digits_3_4 (b :: c :: r)) |];
          congruence).
    unfold match_digits_3_4 in E'. rewrite T in E'. now destruct r as [|d r]; [| destruct (is_digit d)].
  - intros T. induction l as [|a l IH]; [reflexivity |].
    rewrite re_search_chars_cons.
    destruct (match_signed_year (a :: l)) as [m |] eqn:E.
    + apply match_signed_year_three in E. congruence.
    + apply IH. cbn [three_digits] in T. now apply orb_false_iff in T as [_ T].
Qed.

Lemma four_in_row_three l : four_in_row is_digit l = true -> three_digits l = true.
Proof.
  induction l as [|a l IH]; [discriminate |]. cbn [four_in_row three_digits].
  intros H. apply orb_true_iff in H as [H | H].
  - destruct l as [|b [|c [|d r]]]; try (now rewrite andb_false_r in H).
    apply andb_true_iff in H as [Ha H]. apply andb_true_iff in H as [H _].
    apply andb_true_iff in H as [Hb Hc]. now rewrite Ha, Hb, Hc.
  - rewrite (IH H). apply orb_true_r.
Qed.

(** [\d{4}] is found exactly where four digits stand in a row. *)
Lemma search_digits_4_none l :
  re_search_chars match_digits_4 l = None <-> four_in_row is_digit l = false.
Proof.
  induction l as [|a l IH]; [split; reflexivity |].
  rewrite re_search_chars_cons. cbn [four_in_row].
  destruct l as [|b [|c [|d r]]].
  - cbn. rewrite andb_false_r. split; reflexivity.
  - change (match_digits_4 [a; b]) with (@None (list string)). rewrite andb_false_r. exact IH.
  - change (match_digits_4 [a; b; c]) with (@None (list string)). rewrite andb_false_r. exact IH.
  - unfold match_digits_4 at 1.
    replace (is_digit a && (is_digit b && is_digit c && is_digit d))
      with (is_digit a && is_digit b && is_digit c && is_digit d)
      by (now rewrite !andb_assoc).
    destruct (is_digit a && is_digit b && is_digit c && is_digit d);
      [split; discriminate | exact IH].
Qed.

Lemma three_digits_none_four l : three_digits l = false -> four_in_row is_digit l = false.
Proof.
  intros H. destruct (four_in_row is_digit l) eqn:E; [| reflexivity].
  apply four_in_row_three in E. congruence.
Qed.

Lemma four_in_row_impl (p q : string -> bool) l :
  (forall ch, p ch = true -> q ch = true) -> four_in_row p l = true -> four_in_row q l = true.
Proof.
  intros Hpq. induction l as [|a l IH]; [discriminate |]. cbn [four_in_row].
  intros H. apply orb_true_iff in H as [H | H]; [| rewrite (IH H); apply orb_true_r].
  destruct l as [|b [|c [|d r]]]; try (now rewrite andb_false_r in H).
  apply andb_true_iff in H as [Ha H]. apply andb_true_iff in H as [H Hd].
  apply andb_true_iff in H as [Hb Hc].
  now rewrite (Hpq _ Ha), (Hpq _ Hb), (Hpq _ Hc), (Hpq _ Hd).
Qed.

(** ** Lowercasing and the digits of a text *)

Lemma code_byte z : (0 <= z < 256)%Z -> byte_val (byte z) = z.
Proof.
  intros H. unfold byte_val, byte, code.
  rewrite N_ascii_embedding by lia. lia.
Qed.

Lemma high_byte z : (58 <= z < 256)%Z -> is_ascii_digit (byte z) = false.
Proof.
  intros H. unfold is_ascii_digit. pose proof (code_byte z ltac:(lia)) as E.
  unfold byte_val in E. apply andb_false_iff. right. apply N.leb_gt. lia.
Qed.

Lemma continuation_no_digit c : is_continuation c = true -> is_ascii_digit c = false.
Proof.
  unfold is_continuation, is_ascii_digit. intros H.
  apply andb_true_iff in H as [H _]. apply N.leb_le in H.
  apply andb_false_iff. right. apply N.leb_gt. lia.
Qed.

Lemma ascii_digit_narrow c : is_ascii_digit c = true -> width c = 0%nat.
Proof.
  unfold is_ascii_digit. intros H. apply andb_true_iff in H as [_ H]. apply N.leb_le in H.
  apply width_ascii. apply N.ltb_lt. lia.
Qed.

(** A character above the digits is written without an ASCII digit. *)
Lemma chr_no_digit n :
  (57 < n < 1114112)%Z ->
  all_chars (fun c => negb (is_ascii_digit c)) (chr n) = true /\ chr n <> "".
Proof.
  intros H. unfold chr.
  destruct (n <? 128)%Z eqn:E1; [apply Z.ltb_lt in E1 | apply Z.ltb_ge in E1].
  { cbn [all_chars]. rewrite high_byte by lia. now split. }
  destruct (n <? 2048)%Z eqn:E2; [apply Z.ltb_lt in E2 | apply Z.ltb_ge in E2].
  { cbn [all_chars].
    pose proof (Z.div_pos n 64 ltac:(lia) ltac:(lia)).
    pose proof (Z.div_lt_upper_bound n 64 32 ltac:(lia) ltac:(lia)).
    pose proof (Z.mod_pos_bound n 64 ltac:(lia)).
    rewrite !high_byte by lia. now split. }
  destruct (n <? 65536)%Z eqn:E3; [apply Z.ltb_lt in E3 | apply Z.ltb_ge in E3].
  { cbn [all_chars].
    pose proof (Z.div_pos n 4096 ltac:(lia) ltac:(lia)).
    pose proof (Z.div_lt_upper_bound n 4096 16 ltac:(lia) ltac:(lia)).
    pose proof (Z.mod_pos_bound (n / 64) 64 ltac:(lia)).
    pose proof (Z.mod_pos_bound n 64 ltac:(lia)).
    rewrite !high_byte by lia. now split. }
  cbn [all_chars].
  pose proof (Z.div_pos n 262144 ltac:(lia) ltac:(lia)).
  pose proof (Z.div_lt_upper_bound n 262144 5 ltac:(lia) ltac:(lia)).
  pose proof (Z.mod_pos_bound (n / 4096) 64 ltac:(lia)).
  pose proof (Z.mod_pos_bound (n / 64) 64 ltac:(lia)).
  pose proof (Z.mod_pos_bound n 64 ltac:(lia)).
  rewrite !high_byte by lia. now split.
Qed.

(** The lowercase table neither takes nor gives an ASCII digit. *)
Lemma moved_lowercase n n' :
  moved lowercase n = Some n' -> (57 < n)%Z /\ (57 < n' < 1114112)%Z.
Proof.
  assert (T : forallb (fun e => match e with
                                | (first, last, stride, delta) =>
                                    (57 <? first) && (57 <? first + delta)
                                    && (last + delta <? 1114112)
                                end)%Z lowercase = true) by (vm_compute; reflexivity).
  unfold moved. destruct (find _ lowercase) as [[[[first last] stride] delta] |] eqn:F;
    [| discriminate].
  apply find_some in F as [Hin F]. rewrite forallb_forall in T. specialize (T _ Hin).
  cbn beta iota in T. intros [= <-].
  apply andb_true_iff in T as [T T3]. apply andb_true_iff in T as [T1 T2].
  apply andb_true_iff in F as [F _]. apply andb_true_iff in F as [F1 F2].
  apply Z.ltb_lt in T1, T2, T3. apply Z.leb_le in F1, F2. lia.
Qed.

Lemma expansion_lowercase n l :
  expansion lowercase_special n = Some l -> n = 304%Z /\ join (map chr l) = "i̇".
Proof.
  unfold lowercase_special, expansion.
  destruct (304 =? n)%Z eqn:E; [| discriminate].
  apply Z.eqb_eq in E. intros [= <-]. split; [now symmetry | reflexivity].
Qed.

(** The bytes of a character that is not itself an ASCII digit hold none. *)
Lemma shape_no_digit ch :
  char_shape ch -> ascii_digit_char ch = false ->
  all_chars (fun c => negb (is_ascii_digit c)) ch = true.
Proof.
  destruct ch as [|c tail]; [reflexivity |]. intros [Ht Hw] Hd. cbn [all_chars].
  assert (Htail : all_chars (fun c => negb (is_ascii_digit c)) tail = true).
  { clear -Ht. induction tail as [|x t IH]; [reflexivity |]. cbn [all_chars] in *.
    apply andb_true_iff in Ht as [Hx Ht]. now rewrite (continuation_no_digit _ Hx), IH. }
  rewrite Htail, andb_true_r.
  destruct (is_ascii_digit c) eqn:E; [| reflexivity].
  rewrite (Hw (ascii_digit_narrow _ E)) in Hd. cbn [ascii_digit_char] in Hd. congruence.
Qed.

Lemma ascii_lower_digit d : is_ascii_digit d = true -> ascii_lower d = d.
Proof. each_char d. Qed.

(** What [str.lower] writes for one character: an ASCII digit stays, and
    nothing else turns into text with an ASCII digit or into nothing. *)
Lemma lower_piece ch after_cased r :
  char_shape ch ->
  let piece := if String.eqb ch "Σ" && after_cased && negb (cased_follows r) then "ς"
               else lower_char ch in
  if ascii_digit_char ch then piece = ch
  else all_chars (fun c => negb (is_ascii_digit c)) piece = true /\ piece <> "".
Proof.
  intros Hs piece. destruct (ascii_digit_char ch) eqn:D.
  - destruct ch as [|d [|x ch]]; try discriminate. cbn [ascii_digit_char] in D.
    assert (Hd : (code d <? 128)%N = true).
    { unfold is_ascii_digit in D. apply andb_true_iff in D as [_ D]. apply N.leb_le in D.
      apply N.ltb_lt. lia. }
    subst piece. destruct (lower_char_ascii d Hd) as [-> ->]. cbn [andb].
    now rewrite (ascii_lower_digit _ D).
  - subst piece.
    destruct (String.eqb ch "Σ" && after_cased && negb (cased_follows r));
      [split; [reflexivity | discriminate] |].
    assert (Hne : ch <> "") by (destruct ch; [destruct Hs | discriminate]).
    unfold lower_char, change_case.
    destruct (ord ch) as [n |] eqn:O; [| split; [now apply shape_no_digit | exact Hne]].
    destruct (expansion lowercase_special n) as [l |] eqn:X.
    { destruct (expansion_lowercase _ _ X) as [_ ->]. split; [reflexivity | discriminate]. }
    destruct (moved lowercase n) as [n' |] eqn:M;
      [| split; [now apply shape_no_digit | exact Hne]].
    destruct (moved_lowercase _ _ M) as [_ Hn']. now apply chr_no_digit.
Qed.

Lemma four_digit_bytes_skip p x :
  all_chars (fun c => negb (is_ascii_digit c)) p = true ->
  four_digit_bytes (p +:+ x) = four_digit_bytes x.
Proof.
  induction p as [|c p IH]; [reflexivity |]. cbn [all_chars]. intros H.
  apply andb_true_iff in H as [Hc Hp]. apply negb_true_iff in Hc.
  unapp. cbn [four_digit_bytes]. rewrite Hc. cbn [andb orb]. now apply IH.
Qed.

Lemma four_digit_bytes_app_l a b : four_digit_bytes b = true -> four_digit_bytes (a +:+ b) = true.
Proof.
  intros H. induction a as [|c a IH]; [exact H |]. unapp. cbn [four_digit_bytes].
  rewrite IH. apply orb_true_r.
Qed.

Lemma four_digit_bytes_app_r a b : four_digit_bytes a = true -> four_digit_bytes (a +:+ b) = true.
Proof.
  induction a as [|c a IH]; [discriminate |]. cbn [four_digit_bytes]. intros H.
  unapp. cbn [four_digit_bytes].
  apply orb_true_iff in H as [H | H]; [| rewrite (IH H); apply orb_true_r].
  destruct a as [|x [|y [|z a]]]; try (now rewrite andb_false_r in H).
  unapp. now rewrite H.
Qed.

(** Where the lowercased text opens with an ASCII digit, the text opens
    with that digit. *)
Lemma lower_head_digit l after_cased b x :
  Forall char_shape l ->
  join (lower_chars after_cased l) = String b x -> is_ascii_digit b = true ->
  exists r after_cased', l = String b "" :: r /\ x = join (lower_chars after_cased' r).
Proof.
  intros Hl. destruct Hl as [|ch r Hch Hr]; [discriminate |].
  cbn [lower_chars join]. pose proof (lower_piece ch after_cased r Hch) as P. cbv zeta in P.
  destruct (ascii_digit_char ch) eqn:D.
  - rewrite P. destruct ch as [|d [|y ch]]; try discriminate. unapp.
    intros [= -> <-] _. eexists _, _. split; reflexivity.
  - destruct P as [Pd Pn]. intros E Hb. exfalso.
    destruct (if String.eqb ch "Σ" && after_cased && negb (cased_follows r) then "ς"
              else lower_char ch) as [|p0 p]; [now elim Pn |].
    rewrite append_cons in E. injection E as -> _. cbn [all_chars] in Pd.
    rewrite Hb in Pd. discriminate.
Qed.

(** Four ASCII digits in a row in the lowercased text stand in a row in the
    text itself. *)
Lemma lower_four_digits l :
  Forall char_shape l ->
  forall after_cased,
    four_digit_bytes (join (lower_chars after_cased l)) = true ->
    four_in_row ascii_digit_char l = true.
Proof.
  induction 1 as [|ch r Hch Hr IH]; intros st H; [discriminate |].
  cbn [lower_chars join] in H. pose proof (lower_piece ch st r Hch) as P. cbv zeta in P.
  cbn [four_in_row]. destruct (ascii_digit_char ch) eqn:D.
  - rewrite P in H. destruct ch as [|d [|y ch]]; try discriminate.
    rewrite append_cons, append_nil_l in H. cbn [four_digit_bytes] in H.
    apply orb_true_iff in H as [H | H]; [| rewrite (IH _ H); apply orb_true_r].
    destruct (join (lower_chars _ r)) as [|b [|c [|e y]]] eqn:J;
      try (now rewrite andb_false_r in H).
    apply andb_true_iff in H as [_ H]. apply andb_true_iff in H as [H He].
    apply andb_true_iff in H as [Hb Hc].
    destruct (lower_head_digit _ _ _ _ Hr J Hb) as (r1 & st1 & -> & J1).
    apply Forall_inv_tail in Hr.
    destruct (lower_head_digit _ _ _ _ Hr (eq_sym J1) Hc) as (r2 & st2 & -> & J2).
    apply Forall_inv_tail in Hr.
    destruct (lower_head_digit _ _ _ _ Hr (eq_sym J2) He) as (r3 & st3 & -> & J3).
    cbn [ascii_digit_char]. now rewrite Hb, Hc, He.
  - destruct P as [Pd _]. rewrite (four_digit_bytes_skip _ _ Pd) in H.
    rewrite (IH _ H). apply orb_true_r.
Qed.

Lemma absorb_shape n : forall l tail rest,
  absorb n l = (tail, rest) ->
  all_chars is_continuation tail = true /\ (n = 0%nat -> tail = "")
  /\ exists pre, l = (pre ++ rest)%list.
Proof.
  induction n as [|n IH]; intros l tail rest.
  - rewrite absorb_zero. intros [= <- <-]. repeat split. now exists [].
  - assert (Hstop : (tail, rest) = ("", l) ->
                    all_chars is_continuation tail = true /\ (S n = 0%nat -> tail = "")
                    /\ exists pre, l = (pre ++ rest)%list).
    { intros [= -> ->]. repeat split. now exists []. }
    destruct l as [|x l]; [now intros [= <- <-]; apply Hstop |].
    destruct x as [|b [|b' x]]; try (now intros [= <- <-]; apply Hstop).
    cbn [absorb]. destruct (is_continuation b) eqn:B; [| now intros [= <- <-]; apply Hstop].
    destruct (absorb n l) as [t r] eqn:E. intros [= <- <-].
    destruct (IH _ _ _ E) as (Ht & _ & pre & ->).
    split; [cbn [all_chars]; now rewrite B, Ht |]. split; [discriminate |].
    now exists (String b "" :: pre).
Qed.

(** Every character that [chars] cuts out has the shape of one. *)
Lemma chars_shape s : Forall char_shape (chars s).
Proof.
  induction s as [|c s IH]; [constructor |]. cbn [chars].
  destruct (absorb (width c) (chars s)) as [t r] eqn:E.
  destruct (absorb_shape _ _ _ _ E) as (Ht & Hw & pre & Hpre).
  constructor.
  - now split.
  - rewrite Hpre in IH. apply Forall_app in IH. tauto.
Qed.

Lemma prefix_split p s : String.prefix p s = true -> exists post, s = p +:+ post.
Proof.
  revert s. induction p as [|a p IH]; intros s H.
  - now exists s.
  - destruct s as [|b s]; [discriminate |]. simpl in H.
    destruct (ascii_dec a b) as [-> | ?]; [| discriminate].
    destruct (IH s H) as [post ->]. now exists post.
Qed.

Lemma contains_split p s :
  contains p s = true -> exists pre post, s = pre +:+ p +:+ post.
Proof.
  induction s as [|c s IH]; intros H.
  - destruct p; [now exists "", "" | discriminate].
  - cbn [contains] in H. apply orb_true_iff in H as [H | H].
    + destruct (prefix_split _ _ H) as [post ->]. now exists "", post.
    + destruct (IH H) as (pre & post & ->). now exists (String c pre), post.
Qed.

(** A keyword with four digits in a row is found in the lowercased label
    only if the label has four digits in a row. *)
Lemma keyword_digits key s :
  four_digit_bytes key = true -> contains key (lower s) = true ->
  four_in_row is_digit (chars s) = true.
Proof.
  intros Hk H. destruct (contains_split _ _ H) as (pre & post & E).
  apply (four_in_row_impl ascii_digit_char); [exact ascii_digit_is_digit |].
  apply (lower_four_digits _ (chars_shape s) false). fold (lower s). rewrite E.
  apply four_digit_bytes_app_l. now apply four_digit_bytes_app_r.
Qed.

(** ** The first run of digits *)

Lemma match_digits_3_4_nondigit c r : is_digit c = false -> match_digits_3_4 (c :: r) = None.
Proof. intros H. destruct r as [|b [|d r]]; simpl; try reflexivity. now rewrite H. Qed.

(** No match of [\d{3,4}] begins in a text that has no three digits in a
    row and does not end in a digit, whatever follows it. *)
Lemma no_match_inside l rest :
  l <> [] -> three_digits l = false -> last_is_digit l = false ->
  match_digits_3_4 (l ++ rest) = None.
Proof.
  intros Hne T D. destruct l as [|x [|y [|z l]]]; [now elim Hne | | |].
  - cbn [last_is_digit] in D. now apply match_digits_3_4_nondigit.
  - cbn [last_is_digit] in D. cbn [app]. destruct rest as [|a rest]; [reflexivity |].
    unfold match_digits_3_4. now rewrite D, andb_false_r.
  - cbn [three_digits] in T. apply orb_false_iff in T as [T _].
    cbn [app]. unfold match_digits_3_4. now rewrite T.
Qed.

Lemma match_digits_4_3_4 l m : match_digits_4 l = Some m -> match_digits_3_4 l = Some m.
Proof.
  intros H. destruct (match_digits_4_inv _ _ H) as (a & b & c & d & r & -> & -> & Ha & Hb & Hc & Hd).
  unfold match_digits_3_4. now rewrite Ha, Hb, Hc, Hd.
Qed.

Lemma last_is_digit_cons x y l : last_is_digit (x :: y :: l) = last_is_digit (y :: l).
Proof. reflexivity. Qed.

Lemma last_is_hyphen_cons x y l : last_is_hyphen (x :: y :: l) = last_is_hyphen (y :: l).
Proof. reflexivity. Qed.

(** The search of [extract_year] passes over such a text and takes the run
    of digits behind it, with the hyphen when one stands directly before. *)
Lemma signed_first_run l : forall rest m,
  three_digits l = false -> last_is_digit l = false ->
  match_digits_3_4 rest = Some m ->
  re_search_chars match_signed_year (l ++ rest)
  = Some (if last_is_hyphen l then "-" :: m else m).
Proof.
  induction l as [|x l IH]; intros rest m T D Hm.
  - cbn [app last_is_hyphen].
    destruct (match_digits_3_4_inv _ _ Hm) as (a & b & c & r & -> & Ha & _).
    rewrite re_search_chars_cons. unfold match_signed_year.
    now rewrite (digit_not_hyphen _ Ha), Hm.
  - assert (T' : three_digits l = false)
      by (cbn [three_digits] in T; now apply orb_false_iff in T as [_ T]).
    pose proof (no_match_inside (x :: l) rest ltac:(discriminate) T D) as Hx.
    cbn [app] in *. rewrite re_search_chars_cons. unfold match_signed_year at 1.
    rewrite Hx. destruct l as [|y l].
    + cbn [app last_is_hyphen]. destruct (String.eqb x "-") eqn:E.
      * rewrite Hm. apply String.eqb_eq in E. now subst.
      * exact (IH rest m eq_refl eq_refl Hm).
    + rewrite last_is_digit_cons in D. rewrite last_is_hyphen_cons.
      rewrite (no_match_inside (y :: l) rest ltac:(discriminate) T' D).
      destruct (String.eqb x "-"); exact (IH rest m T' D Hm).
Qed.


Lemma chars_head_clean s ch r : chars s = ch :: r -> starts_clean s = starts_clean ch.
Proof.
  destruct s as [|c s]; [discriminate |].
  destruct (chars_cons c s) as (t & r' & ->). now intros [= <- _].
Qed.

(** The characters of a label that is cut before a run of digits. *)
Lemma chars_before_digits pre rest m :
  match_digits_3_4 (chars rest) = Some m ->
  chars (pre +:+ rest) = (chars pre ++ chars rest)%list.
Proof.
  intros H. apply chars_app.
  destruct (match_digits_3_4_inv _ _ H) as (a & b & c & r & E & Ha & _).
  rewrite (chars_head_clean _ _ _ E). now apply is_digit_clean.
Qed.

Lemma int_of_digits m :
  match m with ch :: _ => is_digit ch = true | [] => True end ->
  int_of_match m = int_digits 0 m.
Proof.
  destruct m as [|ch r]; [reflexivity |]. intros H. unfold int_of_match.
  now rewrite (digit_not_hyphen _ H).
Qed.

(** ** The keywords of the two extractors *)

Lemma keyword_dead key s :
  four_digit_bytes key = true -> four_in_row is_digit (chars s) = false ->
  contains key (lower s) = false.
Proof.
  intros Hk H. destruct (contains key (lower s)) eqn:C; [| reflexivity].
  rewrite (keyword_digits key s Hk C) in H. discriminate.
Qed.



Lemma match_digits_3_4_value l m :
  match_digits_3_4 l = Some m ->
  (0 <= int_digits 0 m <= 9999)%Z /\ int_of_match m = int_digits 0 m
  /\ (three_digits l = true).
Proof.
  intros H. pose proof (three_digits_head _ _ H) as T.
  destruct (match_digits_3_4_inv _ _ H) as (a & b & c & r & -> & Ha & Hb & Hc & Hm).
  pose proof (digit_value_range a). pose proof (digit_value_range b).
  pose proof (digit_value_range c).
  destruct Hm as [-> | (d & r' & -> & Hd & ->)].
  - rewrite (int_of_digits [a; b; c] Ha). cbn [int_digits]. repeat split; try lia. exact T.
  - pose proof (digit_value_range d).
    rewrite (int_of_digits [a; b; c; d] Ha). cbn [int_digits]. repeat split; try lia. exact T.
Qed.

Lemma match_signed_year_value l m :
  match_signed_year l = Some m -> (-9999 <= int_of_match m <= 9999)%Z.
Proof.
  destruct l as [|c r]; [discriminate |]. unfold match_signed_year.
  assert (Hplain : forall l', match_digits_3_4 l' = Some m ->
                              (-9999 <= int_of_match m <= 9999)%Z).
  { intros l' H. destruct (match_digits_3_4_value _ _ H) as (Hv & -> & _). lia. }
  destruct (String.eqb c "-") eqn:E; [| apply Hplain].
  destruct (match_digits_3_4 r) as [ds |] eqn:D; [| apply Hplain].
  intros [= <-]. destruct (match_digits_3_4_value _ _ D) as (Hv & _).
  unfold int_of_match. rewrite E. lia.
Qed.

Lemma match_digits_4_value l m :
  match_digits_4 l = Some m -> (0 <= int_of_match m <= 9999)%Z.
Proof.
  intros H. apply match_digits_4_3_4 in H.
  destruct (match_digits_3_4_value _ _ H) as (Hv & -> & _). exact Hv.
Qed.

(** ** The search for the braces *)

Lemma re_search_cons f c s :
  re_search f (String c s)
  = match f (String c s) with
    | Some m => Some m
    | None => re_search f s
    end.
Proof. reflexivity. Qed.

(** ** Slicing *)

Lemma length_append (a b : string) :
  String.length (a +:+ b) = (String.length a + String.length b)%nat.
Proof. induction a as [|c a IH]; unapp; cbn [String.length]; [reflexivity | now rewrite IH]. Qed.

Lemma continuation_narrow c : is_continuation c = true -> width c = 0%nat.
Proof.
  unfold is_continuation, width. intros H. apply andb_true_iff in H as [_ H]. now rewrite H.
Qed.

(** What [absorb] takes from the characters of a text is the continuation
    bytes the text opens with, as many as asked for. *)
Lemma absorb_chars n : forall s tail rest,
  absorb n (chars s) = (tail, rest) ->
  exists s', s = tail +:+ s' /\ rest = chars s'
             /\ (String.length tail <= n)%nat
             /\ ((String.length tail < n)%nat -> starts_clean s' = true).
Proof.
  induction n as [|n IH]; intros s tail rest.
  - rewrite absorb_zero. intros [= <- <-]. exists s.
    split; [reflexivity |]. split; [reflexivity |]. split; [cbn; lia |].
    intros H. cbn in H. lia.
  - destruct s as [|b s].
    { intros [= <- <-]. exists "". split; [reflexivity |]. split; [reflexivity |].
      split; [cbn; lia | reflexivity]. }
    destruct (is_continuation b) eqn:B.
    + rewrite (chars_narrow _ _ (continuation_narrow _ B)). cbn [absorb]. rewrite B.
      destruct (absorb n (chars s)) as [t r] eqn:E. intros [= <- <-].
      destruct (IH _ _ _ E) as (s' & -> & -> & Hlen & Hclean).
      exists s'. split; [reflexivity |]. split; [reflexivity |].
      split; [cbn [String.length]; lia |].
      intros H. apply Hclean. cbn [String.length] in H. lia.
    + destruct (chars_cons b s) as (t & r & E). rewrite E.
      assert (Hstop : absorb (S n) (String b t :: r) = ("", String b t :: r))
        by (destruct t; cbn [absorb]; [now rewrite B | reflexivity]).
      rewrite Hstop. intros [= <- <-]. exists (String b s).
      split; [reflexivity |]. split; [now rewrite E |]. split; [cbn; lia |].
      intros _. cbn [starts_clean]. now rewrite B.
Qed.

(** Taking back what was there: the continuation bytes [tail], then
    characters that do not go on with one unless [tail] is full. *)
Lemma absorb_back n : forall tail l,
  all_chars is_continuation tail = true ->
  (String.length tail <= n)%nat -> ((String.length tail < n)%nat -> closed_head l) ->
  absorb n (chars tail ++ l) = (tail, l).
Proof.
  induction n as [|n IH]; intros tail l Hc Hlen Hl.
  - destruct tail; [| cbn in Hlen; lia]. now rewrite absorb_zero.
  - destruct tail as [|b t].
    + cbn [chars app]. destruct l as [|[|x [|y ch]] l]; try reflexivity.
      cbn [absorb]. destruct (Hl ltac:(cbn; lia)) as [H _]. cbn [starts_clean] in H.
      apply negb_true_iff in H. now rewrite H.
    + cbn [all_chars] in Hc. apply andb_true_iff in Hc as [Hb Ht].
      rewrite (chars_narrow _ _ (continuation_narrow _ Hb)). cbn [app absorb]. rewrite Hb.
      rewrite (IH t l Ht); [reflexivity | cbn [String.length] in Hlen; lia |].
      intros H. apply Hl. cbn [String.length]. lia.
Qed.

Lemma chars_continuation tail s :
  all_chars is_continuation tail = true -> chars (tail +:+ s) = (chars tail ++ chars s)%list.
Proof.
  induction tail as [|b t IH]; [reflexivity |]. cbn [all_chars]. intros H.
  apply andb_true_iff in H as [Hb Ht]. unapp.
  rewrite !(chars_narrow _ _ (continuation_narrow _ Hb)). cbn [app]. now rewrite IH.
Qed.

Lemma closed_head_firstn n l : closed_head l -> closed_head (firstn n l).
Proof. destruct n, l; cbn; tauto. Qed.

(** The first characters of a text, put together, are cut into the same
    characters again. *)
Lemma chars_firstn k : forall s n,
  (String.length s <= k)%nat -> chars (join (firstn n (chars s))) = firstn n (chars s).
Proof.
  induction k as [|k IH]; intros s n Hk.
  - destruct s; [now destruct n | cbn in Hk; lia].
  - destruct s as [|c s]; [now destruct n |]. destruct n as [|n]; [reflexivity |].
    cbn [chars]. destruct (absorb (width c) (chars s)) as [t r] eqn:E.
    destruct (absorb_shape _ _ _ _ E) as (Ht & _ & _).
    destruct (absorb_chars _ _ _ _ E) as (s' & -> & -> & Hlen & Hclean).
    assert (Hs' : (String.length s' <= k)%nat).
    { cbn [String.length] in Hk. rewrite length_append in Hk. lia. }
    cbn [firstn join]. unapp. cbn [chars].
    rewrite (chars_continuation _ _ Ht), (IH s' n Hs').
    rewrite absorb_back; [reflexivity | exact Ht | exact Hlen |].
    intros H. apply closed_head_firstn, chars_closed_head. now apply Hclean.
Qed.

Lemma char_count_slice n s : (char_count (slice_to n s) <= n)%nat.
Proof.
  unfold char_count, slice_to. rewrite (chars_firstn (String.length s) s n (le_n _)).
  apply firstn_le_length.
Qed.
(** ** Year extraction: [extract_year] and [_extract_year] *)



(** C2.  The claim: a period label that contains a 3-4 digit number gives
    that number, and a label without digits goes through the keyword table
    with 2000 as the default.  The code reads a hyphen that stands directly
    before the digits as a minus sign.  The label "Pre-1300", which is the
    [period_from] of the first shift of the stored [cloud] record, contains
    the number 1300; [extract_year] returns -1300 for it, and that is the
    year at which [create_timeline_chart] starts the arrow of the shift
    (the ninth trace, after the eight of the four snapshots).  In the same
    way "pre-1900", a key of the function's own table with the value 1850,
    gives -1900.  [_extract_year] of the library returns 1300. *)
Theorem extract_year_hyphen_read_as_minus :
  app.extract_year (VStr "Pre-1300") = (-1300)%Z
  /\ (exists fig arrow,
        app.create_timeline_chart app.cloud_record = Returns fig
        /\ nth_error (fig_data fig) 8 = Some arrow
        /\ table_get (trace_args arrow) "x" (AList []) = AList [AInt (-1300); AInt 1300])
  /\ app.extract_year (VStr "pre-1900") = (-1900)%Z
  /\ table_get app.mappings "pre-1900" 0%Z = 1850%Z
  /\ terminology_evolution_tracker._extract_year (VStr "Pre-1300") = 1300%Z.
Proof.
  split; [vm_compute; reflexivity |].
  split.
  - eexists; eexists.
    split; [vm_compute; reflexivity |].
    split; vm_compute; reflexivity.
  - repeat split; vm_compute; reflexivity.
Qed.



(** ** The frequency tiers of [create_frequency_chart] *)

Lemma table_get_miss {A} (table : list (string * A)) k (d : A) :
  ~ In k (map fst table) -> table_get table k d = d.
Proof.
  induction table as [|[k' v] t IH]; simpl; [reflexivity |].
  intros H. destruct (String.eqb k k') eqn:E.
  - apply String.eqb_eq in E. subst. tauto.
  - apply IH. tauto.
Qed.

(** C5.  The lookup [freq_map.get(key, 2)] gives 4, 3, 2 and 1 for "high",
    "medium", "low" and "rare" and the fallback 2 for every other key; the
    chart applies it to the lowercased [frequency] of a snapshot, so for
    every string the level is defined, lies between 1 and 4, and nothing is
    raised. *)
Theorem freq_level_total :
  app.freq_level "high" = 4%Z /\ app.freq_level "medium" = 3%Z
  /\ app.freq_level "low" = 2%Z /\ app.freq_level "rare" = 1%Z
  /\ (forall key, ~ In key ["high"; "medium"; "low"; "rare"] -> app.freq_level key = 2%Z)
  /\ (forall s, app.snapshot_freq (VDict [("frequency", VStr s)])
                = Returns (app.freq_level (lower s))
                /\ (1 <= app.freq_level (lower s) <= 4)%Z).
Proof.
  repeat split; try reflexivity.
  - intros key H. unfold app.freq_level. now apply table_get_miss.
  - unfold app.freq_level, app.freq_map, table_get.
    repeat (destruct (String.eqb _ _); [lia |]). lia.
  - unfold app.freq_level, app.freq_map, table_get.
    repeat (destruct (String.eqb _ _); [lia |]). lia.
Qed.

Lemma freq_level_total_witness :
  app.freq_level "seldom" = 2%Z
  /\ app.snapshot_freq (VDict [("frequency", VStr "HIGH")]) = Returns 4%Z.
Proof.
  destruct freq_level_total as (_ & _ & _ & _ & Hother & Hany).
  split.
  - apply (Hother "seldom"). simpl. intros [H | [H | [H | [H | []]]]]; discriminate.
  - exact (proj1 (Hany "HIGH")).
Defined.

(** ** The demo store and [analyze_term] *)

Lemma assoc_In k v kv : assoc k kv = Some v -> In (k, v) kv.
Proof.
  induction kv as [|[k' v'] kv IH]; simpl; [discriminate |].
  destruct (String.eqb k k') eqn:E.
  - apply String.eqb_eq in E. intros [= ->]. subst. now left.
  - intros H. right. now apply IH.
Qed.

(** The five terms of the store. *)
Lemma demo_terms : map fst app.DEMO_DATA = ["buddha"; "computer"; "virus"; "cloud"; "mouse"].
Proof. reflexivity. Qed.

(** Every stored record renders: none of the six builders raises on it. *)
Lemma demo_records_render key record :
  assoc key app.DEMO_DATA = Some record -> returned (app.render record) = true.
Proof.
  intros H. apply assoc_In in H. unfold app.DEMO_DATA in H. simpl in H.
  destruct H as [H | [H | [H | [H | [H | []]]]]];
    injection H as _ <-; vm_compute; reflexivity.
Qed.

(** The stored keys are lowercase ASCII and hold no whitespace. *)
Lemma demo_keys_plain key record :
  assoc key app.DEMO_DATA = Some record ->
  ascii_text key = true /\ map_chars ascii_lower key = key
  /\ spaceless key = true /\ key <> "".
Proof.
  intros H. apply assoc_In in H. unfold app.DEMO_DATA in H. simpl in H.
  destruct H as [H | [H | [H | [H | [H | []]]]]];
    injection H as <- _; repeat split; discriminate.
Qed.

Lemma render_parts data result :
  app.render data = Returns result ->
  exists report timeline status_pie freq_chart sankey,
    app.format_report data = Returns report
    /\ app.create_timeline_chart data = Returns timeline
    /\ app.create_status_pie data = Returns status_pie
    /\ app.create_frequency_chart data = Returns freq_chart
    /\ app.create_shift_sankey data = Returns sankey
    /\ result = (report, timeline, status_pie, freq_chart, sankey, json_dumps 2 data).
Proof.
  unfold app.render.
  destruct (app.format_report data) as [report |]; [| discriminate].
  destruct (app.create_timeline_chart data) as [timeline |]; [| discriminate].
  destruct (app.create_status_pie data) as [status_pie |]; [| discriminate].
  destruct (app.create_frequency_chart data) as [freq_chart |]; [| discriminate].
  destruct (app.create_shift_sankey data) as [sankey |]; [| discriminate].
  intros [= <-]. now exists report, timeline, status_pie, freq_chart, sankey.
Qed.

Lemma strip_nonempty term : strip term <> "" -> String.eqb term "" = false.
Proof.
  intros H. destruct term; [now elim H | reflexivity].
Qed.

Lemma existsb_eqb_In (x : string) (l : list string) :
  existsb (String.eqb x) l = true -> In x l.
Proof.
  induction l as [|y l IH]; [discriminate |].
  cbn [existsb In]. intros H. apply orb_true_iff in H as [H | H].
  - left. symmetry. now apply String.eqb_eq.
  - right. now apply IH.
Qed.

Section AnalyzeTerm.

Variable service : calls -> request -> reply.
Variable json_loads : string -> option value.

(** A term found in the store is rendered from the stored record, whatever
    the tracker, and without a request to the service. *)
Lemma analyze_term_found tracker term domain log data :
  strip term <> "" ->
  assoc (lower (strip term)) app.DEMO_DATA = Some data ->
  app.analyze_term service json_loads tracker term domain log = (app.render data, log).
Proof.
  intros Hne Hfound. unfold app.analyze_term.
  rewrite (strip_nonempty _ Hne).
  destruct (String.eqb (strip term) "") eqn:E; [apply String.eqb_eq in E; contradiction |].
  cbn [orb]. now rewrite Hfound.
Qed.

Lemma analyze_term_missing term domain log :
  strip term <> "" ->
  assoc (lower (strip term)) app.DEMO_DATA = None ->
  app.analyze_term service json_loads None term domain log
  = (Returns (app.miss_result term), log).
Proof.
  intros Hne Hmiss. unfold app.analyze_term.
  rewrite (strip_nonempty _ Hne).
  destruct (String.eqb (strip term) "") eqn:E; [apply String.eqb_eq in E; contradiction |].
  cbn [orb]. now rewrite Hmiss.
Qed.

Lemma analyze_term_blank tracker term domain log :
  blank term = true ->
  app.analyze_term service json_loads tracker term domain log
  = (Returns app.empty_term_result, log).
Proof.
  intros H. unfold app.analyze_term. rewrite (strip_blank _ H).
  cbn [String.eqb]. now rewrite orb_true_r.
Qed.

(** A padded casing of a stored key is normalised to that key. *)
Lemma normalised_key key record q l r :
  assoc key app.DEMO_DATA = Some record -> casing_of key q ->
  blank l = true -> blank r = true ->
  strip (l +:+ q +:+ r) = q /\ q <> "" /\ lower q = key.
Proof.
  intros Hk Hq Hl Hr.
  destruct (demo_keys_plain _ _ Hk) as (Hascii & Hlow & Hsp & Hne).
  pose proof (casing_ascii _ _ Hq Hascii) as Hqa.
  rewrite <- (casing_spaceless _ _ Hq Hascii) in Hsp.
  split; [apply strip_padded; auto using ascii_clean, chars_spaceless |].
  split.
  - intros ->. destruct key; [now elim Hne | exact Hq].
  - now rewrite (lower_ascii _ Hqa), (casing_lower _ _ Hq).
Qed.

(** C1.  For each of the five stored terms and each letter-casing [q] of
    it, [analyze_term] returns the report, the four charts and the JSON
    text that the renderers produce from the stored record of that term;
    the query's letter case, the tracker and the service play no part. *)
Theorem demo_lookup_ignores_case tracker domain log key record q :
  assoc key app.DEMO_DATA = Some record ->
  casing_of key q ->
  exists report timeline status_pie freq_chart sankey,
    app.format_report record = Returns report
    /\ app.create_timeline_chart record = Returns timeline
    /\ app.create_status_pie record = Returns status_pie
    /\ app.create_frequency_chart record = Returns freq_chart
    /\ app.create_shift_sankey record = Returns sankey
    /\ app.analyze_term service json_loads tracker q domain log
       = (Returns (report, timeline, status_pie, freq_chart, sankey, json_dumps 2 record), log).
Proof.
  intros Hk Hq.
  destruct (normalised_key key record q "" "" Hk Hq eq_refl eq_refl) as (Hs & Hne & Hlow).
  rewrite append_nil_l, append_empty_r in Hs.
  pose proof (demo_records_render _ _ Hk) as Hr.
  destruct (app.render record) as [result | e] eqn:E; [| discriminate].
  destruct (render_parts _ _ E) as (report & timeline & pie & freq & sankey & H1 & H2 & H3 & H4 & H5 & ->).
  exists report, timeline, pie, freq, sankey. repeat (split; [assumption |]).
  rewrite (analyze_term_found tracker q domain log record).
  - now rewrite E.
  - now rewrite Hs.
  - now rewrite Hs, Hlow.
Qed.

(** C3.  With no tracker configured, a term that is not blank and whose
    normalised form is not a key of the store makes [analyze_term] return,
    without an exception and without a request, the message "No data for
    '<term>'" with its hint, around the term as typed, four figures that
    plot nothing (the first only carries the note "No data for '<term>'",
    the other three are bare [go.Figure()]), and the empty JSON text. *)
Theorem miss_without_service term domain log :
  strip term <> "" ->
  assoc (lower (strip term)) app.DEMO_DATA = None ->
  app.analyze_term service json_loads None term domain log
  = (Returns ("⚠️ No data for '" +:+ term
              +:+ "'. Try demo terms: buddha, computer, virus, cloud, mouse"
              +:+ nl +:+ nl +:+ "Or set your API key to analyze custom terms.",
              add_annotation go_Figure
                [("text", AStr ("No data for '" +:+ term +:+ "'")); ("showarrow", ABool false)],
              go_Figure, go_Figure, go_Figure, ""), log)
  /\ Forall placeholder
       [add_annotation go_Figure
          [("text", AStr ("No data for '" +:+ term +:+ "'")); ("showarrow", ABool false)];
        go_Figure; go_Figure; go_Figure].
Proof.
  intros Hne Hmiss. split; [| repeat constructor].
  rewrite (analyze_term_missing _ _ _ Hne Hmiss).
  reflexivity.
Qed.

(** C9.  The query is stripped before it is lowercased and looked up: a
    casing of a stored key with whitespace on either side is rendered from
    the stored record, while a query of whitespace only (or the empty one)
    is answered at once with the request to enter a term, four bare
    figures and the empty JSON text; neither raises. *)
Theorem lookup_strips_whitespace tracker domain log :
  (forall key record q l r,
      assoc key app.DEMO_DATA = Some record -> casing_of key q ->
      blank l = true -> blank r = true ->
      app.analyze_term service json_loads tracker (l +:+ q +:+ r) domain log
      = (app.render record, log)
      /\ returned (app.render record) = true)
  /\ (forall term,
        blank term = true ->
        app.analyze_term service json_loads tracker term domain log
        = (Returns (app.empty_term_message, go_Figure, go_Figure, go_Figure, go_Figure, ""),
           log)).
Proof.
  split.
  - intros key record q l r Hk Hq Hl Hr.
    destruct (normalised_key key record q l r Hk Hq Hl Hr) as (Hs & Hne & Hlow).
    split; [| now apply (demo_records_render key)].
    apply analyze_term_found; rewrite Hs; [exact Hne | now rewrite Hlow].
  - intros term H. now apply analyze_term_blank.
Qed.

(** C6.  For "buddha" the report has the line that shows the domain,
    "Domain 領域: religion / philosophy" behind its label icon, and six
    snapshot entries (six lines that open a snapshot's status); for
    "xyzzynotaterm" without a tracker the result is the miss message as
    written below, the note figure, three bare figures and the empty JSON
    text. *)
Theorem buddha_and_miss_scenarios tracker domain log :
  (exists report timeline status_pie freq_chart sankey json_out,
      app.analyze_term service json_loads tracker "buddha" domain log
      = (Returns (report, timeline, status_pie, freq_chart, sankey, json_out), log)
      /\ In ("🏷️  " +:+ "Domain 領域: religion / philosophy") (text_lines report)
      /\ lines_starting "    Status: " report = 6)
  /\ app.analyze_term service json_loads None "xyzzynotaterm" domain log
     = (Returns ("⚠️ No data for 'xyzzynotaterm'. Try demo terms: buddha, computer, virus, cloud, mouse"
                 +:+ nl +:+ nl +:+ "Or set your API key to analyze custom terms.",
                 add_annotation go_Figure
                   [("text", AStr "No data for 'xyzzynotaterm'"); ("showarrow", ABool false)],
                 go_Figure, go_Figure, go_Figure, ""), log).
Proof.
  split.
  - rewrite (analyze_term_found tracker "buddha" domain log app.buddha_record);
      [| discriminate | reflexivity].
    destruct (app.render app.buddha_record) as [[[[[[report t] p] f] s] j] | e] eqn:E;
      [| vm_compute in E; discriminate].
    exists report, t, p, f, s, j. split; [reflexivity |].
    assert (H : (r ← app.render app.buddha_record;
                 Returns (existsb (String.eqb ("🏷️  " +:+ "Domain 領域: religion / philosophy"))
                            (text_lines (fst (fst (fst (fst (fst r)))))),
                          lines_starting "    Status: " (fst (fst (fst (fst (fst r)))))))
                = Returns (true, 6)) by (vm_compute; reflexivity).
    rewrite E in H. cbn [mbind outcome_bind fst] in H. injection H as Hin Hcount.
    split; [| exact Hcount].
    now apply existsb_eqb_In.
  - apply (analyze_term_missing "xyzzynotaterm"); [discriminate | reflexivity].
Qed.

End AnalyzeTerm.

Lemma demo_lookup_ignores_case_witness :
  exists report timeline status_pie freq_chart sankey,
    app.format_report app.buddha_record = Returns report
    /\ app.create_timeline_chart app.buddha_record = Returns timeline
    /\ app.create_status_pie app.buddha_record = Returns status_pie
    /\ app.create_frequency_chart app.buddha_record = Returns freq_chart
    /\ app.create_shift_sankey app.buddha_record = Returns sankey
    /\ app.analyze_term service_down parse_nothing None "BuDdHA" "general" []
       = (Returns (report, timeline, status_pie, freq_chart, sankey,
                   json_dumps 2 app.buddha_record), []).
Proof.
  apply (demo_lookup_ignores_case service_down parse_nothing None "general" []
           "buddha" app.buddha_record "BuDdHA").
  - reflexivity.
  - vm_compute. tauto.
Defined.

Lemma miss_without_service_witness :
  app.analyze_term service_down parse_nothing None " Zeitgeist　" "general" []
  = (Returns ("⚠️ No data for '" +:+ " Zeitgeist　"
              +:+ "'. Try demo terms: buddha, computer, virus, cloud, mouse"
              +:+ nl +:+ nl +:+ "Or set your API key to analyze custom terms.",
              add_annotation go_Figure
                [("text", AStr ("No data for '" +:+ " Zeitgeist　" +:+ "'"));
                 ("showarrow", ABool false)],
              go_Figure, go_Figure, go_Figure, ""), [])
  /\ Forall placeholder
       [add_annotation go_Figure
          [("text", AStr ("No data for '" +:+ " Zeitgeist　" +:+ "'"));
           ("showarrow", ABool false)];
        go_Figure; go_Figure; go_Figure].
Proof.
  apply (miss_without_service service_down parse_nothing " Zeitgeist　" "general" []).
  - vm_compute. discriminate.
  - vm_compute. reflexivity.
Defined.

Lemma lookup_strips_whitespace_witness :
  (app.analyze_term service_down parse_nothing None " 　Buddha  " "general" []
   = (app.render app.buddha_record, [])
   /\ returned (app.render app.buddha_record) = true)
  /\ app.analyze_term service_down parse_nothing None " 　 " "general" []
     = (Returns (app.empty_term_message, go_Figure, go_Figure, go_Figure, go_Figure, ""), []).
Proof.
  destruct (lookup_strips_whitespace service_down parse_nothing None "general" [])
    as [Hhit Hblank].
  split.
  - apply (Hhit "buddha" app.buddha_record "Buddha" " 　" "  ").
    + reflexivity.
    + vm_compute. tauto.
    + reflexivity.
    + reflexivity.
  - apply (Hblank " 　 "). reflexivity.
Defined.
(** ** [format_report] *)

Lemma has_key_false k kv : has_key k kv = false -> assoc k kv = None.
Proof. unfold has_key. now destruct (assoc k kv). Qed.

Lemma assoc_app_default key d k kv :
  assoc key kv = None ->
  assoc k (kv ++ [(key, d)])
  = match assoc k kv with
    | Some v => Some v
    | None => if String.eqb k key then Some d else None
    end.
Proof.
  intros Hnone. induction kv as [|[k' v'] kv IH]; simpl.
  - reflexivity.
  - simpl in Hnone. destruct (String.eqb key k') eqn:E; [discriminate |].
    destruct (String.eqb k k'); [reflexivity | now apply IH].
Qed.

(** Reading a field other than the one that was filled in. *)
Lemma dict_get_other key d k dflt kv :
  assoc key kv = None -> String.eqb k key = false ->
  dict_get (kv ++ [(key, d)]) k dflt = dict_get kv k dflt.
Proof.
  intros Hnone Hne. unfold dict_get.
  rewrite (assoc_app_default _ _ _ _ Hnone), Hne. now destruct (assoc k kv).
Qed.

(** Reading the field that was filled in, and reading it where it is
    missing. *)
Lemma dict_get_filled key d dflt kv :
  assoc key kv = None -> dict_get (kv ++ [(key, d)]) key dflt = d.
Proof.
  intros Hnone. unfold dict_get.
  rewrite (assoc_app_default _ _ _ _ Hnone), Hnone. now rewrite String.eqb_refl.
Qed.

Lemma dict_get_missing key dflt kv : assoc key kv = None -> dict_get kv key dflt = dflt.
Proof. intros Hnone. unfold dict_get. now rewrite Hnone. Qed.

Ltac fill_in Hnone :=
  unfold get; cbn [mbind outcome_bind mret outcome_ret];
  rewrite ?(dict_get_filled _ _ _ _ Hnone), ?(dict_get_missing _ _ _ Hnone);
  rewrite ?(dict_get_other _ _ _ _ _ Hnone) by reflexivity;
  try reflexivity.

Lemma snapshot_lines_default i snap key default :
  In (key, default) snapshot_defaults ->
  app.snapshot_lines (i, set_default key default snap) = app.snapshot_lines (i, snap).
Proof.
  intros Hin. destruct snap as [| | | | |kv]; try reflexivity.
  unfold set_default. destruct (has_key key kv) eqn:Hk; [reflexivity |].
  apply has_key_false in Hk. unfold app.snapshot_lines.
  unfold snapshot_defaults in Hin. simpl in Hin.
  destruct Hin as [H | [H | [H | [H | [H | []]]]]];
    injection H as <- <-; fill_in Hk.
Qed.

Lemma shift_lines_default i shift key default :
  In (key, default) shift_defaults ->
  app.shift_lines (i, set_default key default shift) = app.shift_lines (i, shift).
Proof.
  intros Hin. destruct shift as [| | | | |kv]; try reflexivity.
  unfold set_default. destruct (has_key key kv) eqn:Hk; [reflexivity |].
  apply has_key_false in Hk. unfold app.shift_lines.
  unfold shift_defaults in Hin. simpl in Hin.
  destruct Hin as [H | [H | [H | [H | [H | [H | []]]]]]];
    injection H as <- <-; fill_in Hk.
Qed.

Lemma report_lines_default key default kv :
  In (key, default) report_defaults -> assoc key kv = None ->
  app.report_lines (VDict (kv ++ [(key, default)])) = app.report_lines (VDict kv).
Proof.
  intros Hin Hk. unfold app.report_lines, app.related_lines.
  unfold report_defaults in Hin. simpl in Hin.
  destruct Hin as [H | [H | [H | [H | [H | [H | [H | [H | [H | [H | [H | [H | []]]]]]]]]]]]];
    injection H as <- <-; fill_in Hk.
Qed.

Lemma snapshot_lines_total l : forall n,
  forallb is_dict l = true -> returned (for_each app.snapshot_lines (enumerate n l)) = true.
Proof.
  induction l as [|x l IH]; intros n H; [reflexivity |].
  simpl in H. apply andb_true_iff in H as [Hx Hl].
  destruct x as [| | | | |kv]; try discriminate. specialize (IH (S n) Hl).
  pose proof (eq_refl : returned (app.snapshot_lines (n, VDict kv)) = true) as H0.
  cbn [enumerate for_each].
  destruct (app.snapshot_lines (n, VDict kv)); [| discriminate].
  cbn [mbind outcome_bind].
  destruct (for_each app.snapshot_lines (enumerate (S n) l)); [reflexivity | discriminate].
Qed.

Lemma shift_lines_returns n x :
  shift_ready x = true -> returned (app.shift_lines (n, x)) = true.
Proof.
  destruct x as [| | | | |kv]; try discriminate.
  unfold shift_ready, app.shift_lines, get, dict_get.
  destruct (assoc "shift_type" kv) as [[]|]; try discriminate; reflexivity.
Qed.

Lemma shift_lines_total l : forall n,
  forallb shift_ready l = true -> returned (for_each app.shift_lines (enumerate n l)) = true.
Proof.
  induction l as [|x l IH]; intros n H; [reflexivity |].
  simpl in H. apply andb_true_iff in H as [Hx Hl]. specialize (IH (S n) Hl).
  pose proof (shift_lines_returns n x Hx) as H0.
  cbn [enumerate for_each].
  destruct (app.shift_lines (n, x)); [| discriminate].
  cbn [mbind outcome_bind].
  destruct (for_each app.shift_lines (enumerate (S n) l)); [reflexivity | discriminate].
Qed.

Lemma names_total l : forallb is_str l = true -> returned (for_each as_str l) = true.
Proof.
  induction l as [|x l IH]; intros H; [reflexivity |].
  simpl in H. apply andb_true_iff in H as [Hx Hl].
  destruct x; try discriminate. specialize (IH Hl).
  cbn [for_each as_str mbind outcome_bind].
  destruct (for_each as_str l); [reflexivity | discriminate].
Qed.

Lemma ready_snapshots kv :
  report_ready (VDict kv) = true ->
  exists l, dict_get kv "snapshots" (VList []) = VList l /\ forallb is_dict l = true.
Proof.
  unfold report_ready, dict_get. intros H.
  apply andb_true_iff in H as [H _]. apply andb_true_iff in H as [H _].
  destruct (assoc "snapshots" kv) as [[| | | |l|]|]; try discriminate.
  - now exists l.
  - now exists [].
Qed.

Lemma ready_shifts kv :
  report_ready (VDict kv) = true ->
  exists l, dict_get kv "semantic_shifts" (VList []) = VList l /\ forallb shift_ready l = true.
Proof.
  unfold report_ready, dict_get. intros H.
  apply andb_true_iff in H as [H _]. apply andb_true_iff in H as [_ H].
  destruct (assoc "semantic_shifts" kv) as [[| | | |l|]|]; try discriminate.
  - now exists l.
  - now exists [].
Qed.

Lemma ready_related kv :
  report_ready (VDict kv) = true -> returned (app.related_lines (VDict kv)) = true.
Proof.
  unfold report_ready. intros H. apply andb_true_iff in H as [_ H].
  unfold app.related_lines, get, dict_get. cbn [mbind outcome_bind].
  destruct (assoc "related_terms" kv) as [[| | | |names|]|]; try discriminate;
    [| reflexivity].
  destruct (truthy (VList names)); [| reflexivity].
  cbn [py_iter mbind outcome_bind].
  pose proof (names_total names H) as Hn.
  destruct (for_each as_str names); [reflexivity | discriminate].
Qed.

Lemma report_lines_total kv :
  report_ready (VDict kv) = true -> returned (app.report_lines (VDict kv)) = true.
Proof.
  intros H.
  destruct (ready_snapshots kv H) as (snaps & Esnaps & Hsnaps).
  destruct (ready_shifts kv H) as (shifts & Eshifts & Hshifts).
  pose proof (ready_related kv H) as Hrel.
  pose proof (snapshot_lines_total snaps 1 Hsnaps) as H1.
  pose proof (shift_lines_total shifts 1 Hshifts) as H2.
  unfold app.report_lines, get. cbn [mbind outcome_bind].
  rewrite Esnaps, Eshifts. cbn [py_iter mbind outcome_bind].
  destruct (for_each app.snapshot_lines (enumerate 1 snaps)); [| discriminate].
  cbn [mbind outcome_bind].
  destruct (for_each app.shift_lines (enumerate 1 shifts)); [| discriminate].
  cbn [mbind outcome_bind].
  destruct (app.related_lines (VDict kv)); [reflexivity | discriminate].
Qed.

(** C4.  [format_report] reads nothing but the record it is given, so two
    calls on the same record give the same text.  On a record whose present
    fields have the shape the report walks through, whichever fields are
    missing, it returns a text and raises nothing; and the text is the one
    it gives when a missing field is written out with its default: for the
    fields of the record, of a snapshot and of a shift alike. *)
Theorem format_report_pure_total data :
  report_ready data = true ->
  (exists text,
      app.format_report data = Returns text
      /\ forall again, again = data -> app.format_report again = Returns text)
  /\ (truthy data = true ->
      forall key default, In (key, default) report_defaults ->
        app.format_report (set_default key default data) = app.format_report data)
  /\ (forall i snap key default, In (key, default) snapshot_defaults ->
        app.snapshot_lines (i, set_default key default snap) = app.snapshot_lines (i, snap))
  /\ (forall i shift key default, In (key, default) shift_defaults ->
        app.shift_lines (i, set_default key default shift) = app.shift_lines (i, shift)).
Proof.
  intros Hready.
  destruct data as [| | | | |kv]; try discriminate.
  split; [| split; [| split]].
  - assert (Ht : exists text, app.format_report (VDict kv) = Returns text).
    { pose proof (report_lines_total kv Hready) as H.
      unfold app.format_report.
      destruct (negb (truthy (VDict kv))); [now exists "No data available" |].
      destruct (app.report_lines (VDict kv)) as [lines |]; [| discriminate].
      now exists (String.concat nl lines). }
    destruct Ht as [text Ht]. exists text. split; [exact Ht |]. now intros again ->.
  - intros Htruthy key default Hin. unfold set_default.
    destruct (has_key key kv) eqn:Hk; [reflexivity |].
    apply has_key_false in Hk. unfold app.format_report.
    rewrite (report_lines_default _ _ _ Hin Hk).
    destruct kv; [discriminate |]. reflexivity.
  - intros. now apply snapshot_lines_default.
  - intros. now apply shift_lines_default.
Qed.

Lemma format_report_pure_total_witness :
  (exists text,
      app.format_report app.mouse_record = Returns text
      /\ forall again, again = app.mouse_record -> app.format_report again = Returns text)
  /\ app.format_report (VDict [("term", VStr "Mouse"); ("domain", app.NA)])
     = app.format_report (VDict [("term", VStr "Mouse")])
  /\ app.snapshot_lines (1, VDict [("period", VStr "1965-1984"); ("status", app.NA)])
     = app.snapshot_lines (1, VDict [("period", VStr "1965-1984")])
  /\ app.shift_lines (1, VDict [("shift_type", VStr "metaphor"); ("period_to", VStr "")])
     = app.shift_lines (1, VDict [("shift_type", VStr "metaphor")]).
Proof.
  split; [| split; [| split]].
  - apply (proj1 (format_report_pure_total app.mouse_record eq_refl)).
  - apply (proj1 (proj2 (format_report_pure_total (VDict [("term", VStr "Mouse")]) eq_refl))
             eq_refl "domain" app.NA).
    simpl. tauto.
  - apply (proj1 (proj2 (proj2 (format_report_pure_total (VDict []) eq_refl)))
             1 (VDict [("period", VStr "1965-1984")]) "status" app.NA).
    simpl. tauto.
  - apply (proj2 (proj2 (proj2 (format_report_pure_total (VDict []) eq_refl)))
             1 (VDict [("shift_type", VStr "metaphor")]) "period_to" (VStr "")).
    simpl. tauto.
Defined.

(** ** The record producers *)

Section Producers.

Variable service : calls -> request -> reply.
Variable json_loads : string -> option value.

Lemma ask_unusable rq log : unusable json_loads (service log rq) -> terminology_evolution_tracker.ask service json_loads rq log = None.
Proof.
  unfold unusable, terminology_evolution_tracker.ask.
  destruct (service log rq) as [text |]; [| reflexivity].
  destruct (re_search match_braces text); [tauto | reflexivity].
Qed.

Lemma ask_parsed rq log data :
  terminology_evolution_tracker.ask service json_loads rq log = Some data ->
  exists text m,
    service log rq = Replied text
    /\ re_search match_braces text = Some m
    /\ json_loads m = Some data.
Proof.
  unfold terminology_evolution_tracker.ask.
  destruct (service log rq) as [text |]; [| discriminate].
  destruct (re_search match_braces text) as [m |] eqn:Em; [| discriminate].
  intros H. exists text, m. split; [reflexivity | split; [exact Em | exact H]].
Qed.

(** C7.  Both producers, [SimpleTermTracker.analyze_term] of the web app
    and [analyze_term_evolution] of the library, send exactly one request
    whatever comes back; when the call raises, when the reply holds no
    brace-delimited part, or when that part does not parse, they return
    [None] (and the library stores nothing); and a record, when one is
    returned, is the parse of the whole matched part, never a piece of a
    reply that failed. *)
Theorem producer_failure_is_none term domain log :
  (forall self : app.SimpleTermTracker,
      app.client self = true ->
      let rq := Request "mistral-small-latest" (AnalyzePrompt term domain) in
      let out := app.tracker_analyze_term service json_loads self term domain log in
      out.2 = rq :: log
      /\ (unusable json_loads (service log rq) -> out.1 = None)
      /\ (forall data, out.1 = Some data ->
            exists text m,
              service log rq = Replied text
              /\ re_search match_braces text = Some m
              /\ json_loads m = Some data))
  /\ (forall (self : terminology_evolution_tracker.TerminologyEvolutionTracker) time_periods,
        let rq := Request (terminology_evolution_tracker.model self)
                    (EvolutionPrompt term domain
                       (terminology_evolution_tracker.periods_or_default time_periods)) in
        let out := terminology_evolution_tracker.analyze_term_evolution service json_loads self term domain time_periods log in
        out.2 = rq :: log
        /\ (unusable json_loads (service log rq) -> out.1.1 = None /\ out.1.2 = self)
        /\ (forall record, out.1.1 = Some record ->
              exists text m data,
                service log rq = Replied text
                /\ re_search match_braces text = Some m
                /\ json_loads m = Some data
                /\ terminology_evolution_tracker.record_of data term domain = Returns record)).
Proof.
  split.
  - intros self Hclient rq out. subst out.
    unfold app.tracker_analyze_term. rewrite Hclient. cbn [negb]. fold rq.
    unfold unusable.
    destruct (service log rq) as [text |]; cbn [fst snd];
      [| split; [reflexivity | split; [reflexivity | discriminate]]].
    destruct (re_search match_braces text) as [m |] eqn:Em; cbn [fst snd];
      [| split; [reflexivity | split; [reflexivity | discriminate]]].
    destruct (json_loads m) as [data |] eqn:E; cbn [fst snd].
    + split; [reflexivity | split; [discriminate |]].
      intros data' [= <-]. exists text, m.
      split; [reflexivity | split; [exact Em | exact E]].
    + split; [reflexivity | split; [reflexivity | discriminate]].
  - intros self time_periods rq out. subst out.
    unfold terminology_evolution_tracker.analyze_term_evolution. fold rq.
    destruct (terminology_evolution_tracker.ask service json_loads rq log) as [data |] eqn:E.
    + destruct (ask_parsed _ _ _ E) as (text & m & Hs & Hm & Hj).
      destruct (terminology_evolution_tracker.record_of data term domain) as [record | e] eqn:R;
        cbn [fst snd].
      * split; [reflexivity | split].
        -- intros Hu. rewrite (ask_unusable _ _ Hu) in E. discriminate.
        -- intros record' [= <-]. exists text, m, data.
           split; [exact Hs | split; [exact Hm | split; [exact Hj | exact R]]].
      * split; [reflexivity | split; [split; reflexivity | discriminate]].
    + cbn [fst snd]. split; [reflexivity | split; [split; reflexivity | discriminate]].
Qed.

(** ** The cache [evolution_database] *)

Lemma analyze_step s1 s2 term domain time_periods log :
  same_client s1 s2 ->
  let o1 := terminology_evolution_tracker.analyze_term_evolution service json_loads s1 term domain time_periods log in
  let o2 := terminology_evolution_tracker.analyze_term_evolution service json_loads s2 term domain time_periods log in
  o1.1.1 = o2.1.1 /\ o1.2 = o2.2
  /\ same_client o1.1.2 o2.1.2
  /\ dom (terminology_evolution_tracker.evolution_database s1) ⊆ dom (terminology_evolution_tracker.evolution_database o1.1.2)
  /\ (forall record, o1.1.1 = Some record -> terminology_evolution_tracker.evolution_database o1.1.2 !! term = Some record).
Proof.
  intros [Hkey Hmodel]. cbv zeta.
  unfold terminology_evolution_tracker.analyze_term_evolution. rewrite <- Hmodel.
  destruct (terminology_evolution_tracker.ask service json_loads _ log) as [data |].
  - destruct (terminology_evolution_tracker.record_of data term domain) as [record | e];
      cbn [fst snd terminology_evolution_tracker.evolution_database
           terminology_evolution_tracker.api_key terminology_evolution_tracker.model].
    + split; [reflexivity | split; [reflexivity | split; [split; first [exact Hkey | exact Hmodel | reflexivity] | split]]].
      * rewrite dom_insert_L. set_solver.
      * intros record' [= <-]. apply lookup_insert_eq.
    + split; [reflexivity | split; [reflexivity | split; [split; first [exact Hkey | exact Hmodel | reflexivity] | split]]];
        [reflexivity | discriminate].
  - cbn [fst snd].
    split; [reflexivity | split; [reflexivity | split; [split; first [exact Hkey | exact Hmodel | reflexivity] | split]]];
      [reflexivity | discriminate].
Qed.

Lemma analyze_multiple_steps terms : forall s1 s2 domain log,
  same_client s1 s2 ->
  let o1 := terminology_evolution_tracker.analyze_multiple_terms service json_loads s1 terms domain log in
  let o2 := terminology_evolution_tracker.analyze_multiple_terms service json_loads s2 terms domain log in
  o1.1.1 = o2.1.1 /\ o1.2 = o2.2
  /\ same_client o1.1.2 o2.1.2
  /\ dom (terminology_evolution_tracker.evolution_database s1) ⊆ dom (terminology_evolution_tracker.evolution_database o1.1.2).
Proof.
  induction terms as [|term rest IH]; intros s1 s2 domain log Hsame; cbv zeta.
  - cbn [terminology_evolution_tracker.analyze_multiple_terms fst snd].
    split; [reflexivity | split; [reflexivity | split; [exact Hsame | reflexivity]]].
  - cbn [terminology_evolution_tracker.analyze_multiple_terms].
    pose proof (analyze_step s1 s2 term domain None log Hsame) as Hstep. cbv zeta in Hstep.
    destruct (terminology_evolution_tracker.analyze_term_evolution service json_loads s1 term domain None log) as [[r1 s1'] log1].
    destruct (terminology_evolution_tracker.analyze_term_evolution service json_loads s2 term domain None log) as [[r2 s2'] log2].
    cbn [fst snd] in Hstep. destruct Hstep as (-> & -> & Hsame' & Hdom & _).
    specialize (IH s1' s2' domain log2 Hsame'). cbv zeta in IH.
    destruct (terminology_evolution_tracker.analyze_multiple_terms service json_loads s1' rest domain log2) as [[rs1 s1''] log1'].
    destruct (terminology_evolution_tracker.analyze_multiple_terms service json_loads s2' rest domain log2) as [[rs2 s2''] log2'].
    cbn [fst snd] in IH |- *. destruct IH as (-> & -> & Hsame'' & Hdom').
    split; [reflexivity | split; [reflexivity | split; [exact Hsame'' | set_solver]]].
Qed.

(** C8.  Run any public operation of the class on two instances that differ
    only in their cache: the value handed back and the requests sent are
    the same, so the cache is never read.  The keys of the cache after the
    operation include those before it, so nothing is removed; and a
    successful [analyze_term_evolution] leaves its record under the term. *)
Theorem cache_is_write_only op s1 s2 log :
  same_client s1 s2 ->
  (terminology_evolution_tracker.run service json_loads op s1 log).1.1 = (terminology_evolution_tracker.run service json_loads op s2 log).1.1
  /\ (terminology_evolution_tracker.run service json_loads op s1 log).2 = (terminology_evolution_tracker.run service json_loads op s2 log).2
  /\ dom (terminology_evolution_tracker.evolution_database s1) ⊆ dom (terminology_evolution_tracker.evolution_database (terminology_evolution_tracker.run service json_loads op s1 log).1.2)
  /\ (forall term domain time_periods record,
        op = terminology_evolution_tracker.AnalyzeTermEvolution term domain time_periods ->
        (terminology_evolution_tracker.run service json_loads op s1 log).1.1 = terminology_evolution_tracker.OptRecord (Some record) ->
        terminology_evolution_tracker.evolution_database (terminology_evolution_tracker.run service json_loads op s1 log).1.2 !! term = Some record).
Proof.
  intros Hsame. destruct op as [term domain tp | terms domain | terms domain
                               | text domain period | record | period | record | record indent];
    cbn [terminology_evolution_tracker.run].
  - pose proof (analyze_step s1 s2 term domain tp log Hsame) as H. cbv zeta in H.
    destruct (terminology_evolution_tracker.analyze_term_evolution service json_loads s1 term domain tp log) as [[r1 s1'] log1].
    destruct (terminology_evolution_tracker.analyze_term_evolution service json_loads s2 term domain tp log) as [[r2 s2'] log2].
    cbn [fst snd] in H |- *. destruct H as (-> & -> & _ & Hdom & Hstored).
    split; [reflexivity | split; [reflexivity | split; [exact Hdom |]]].
    intros term' domain' tp' record [= <- _ _] [= ->]. now apply Hstored.
  - pose proof (analyze_multiple_steps terms s1 s2 domain log Hsame) as H. cbv zeta in H.
    destruct (terminology_evolution_tracker.analyze_multiple_terms service json_loads s1 terms domain log) as [[r1 s1'] log1].
    destruct (terminology_evolution_tracker.analyze_multiple_terms service json_loads s2 terms domain log) as [[r2 s2'] log2].
    cbn [fst snd] in H |- *. destruct H as (-> & -> & _ & Hdom).
    split; [reflexivity | split; [reflexivity | split; [exact Hdom | discriminate]]].
  - unfold terminology_evolution_tracker.compare_terms_evolution. cbn [fst snd].
    destruct Hsame as [_ ->].
    split; [reflexivity | split; [reflexivity | split; [reflexivity | discriminate]]].
  - unfold terminology_evolution_tracker.detect_neologisms. cbn [fst snd].
    destruct Hsame as [_ ->].
    split; [reflexivity | split; [reflexivity | split; [reflexivity | discriminate]]].
  - cbn [fst snd].
    split; [reflexivity | split; [reflexivity | split; [reflexivity | discriminate]]].
  - cbn [fst snd].
    split; [reflexivity | split; [reflexivity | split; [reflexivity | discriminate]]].
  - cbn [fst snd].
    split; [reflexivity | split; [reflexivity | split; [reflexivity | discriminate]]].
  - cbn [fst snd].
    split; [reflexivity | split; [reflexivity | split; [reflexivity | discriminate]]].
Qed.

End Producers.

Lemma producer_failure_is_none_witness :
  (app.tracker_analyze_term (service_says "Sorry, I have no data on that.") parse_nothing
     web_tracker "zeitgeist" "general" []).1 = None
  /\ (app.tracker_analyze_term (service_says "Here it is: {not json}") parse_nothing
        web_tracker "zeitgeist" "general" []).1 = None
  /\ (terminology_evolution_tracker.analyze_term_evolution service_down parse_nothing
        fresh_tracker "zeitgeist" "general" None []).1.1 = None.
Proof.
  split; [| split].
  - apply (proj1 (proj2 (proj1 (producer_failure_is_none
             (service_says "Sorry, I have no data on that.") parse_nothing
             "zeitgeist" "general" []) web_tracker eq_refl))).
    exact I.
  - apply (proj1 (proj2 (proj1 (producer_failure_is_none
             (service_says "Here it is: {not json}") parse_nothing
             "zeitgeist" "general" []) web_tracker eq_refl))).
    reflexivity.
  - apply (proj1 (proj2 (proj2 (producer_failure_is_none service_down parse_nothing
             "zeitgeist" "general" []) fresh_tracker None))).
    exact I.
Defined.

Lemma cache_is_write_only_witness :
  (terminology_evolution_tracker.run
     (service_says "{}") (parse_only "{}" (VDict []))
     (terminology_evolution_tracker.AnalyzeTermEvolution "meme" "general" None)
     fresh_tracker []).1.1
  = (terminology_evolution_tracker.run
       (service_says "{}") (parse_only "{}" (VDict []))
       (terminology_evolution_tracker.AnalyzeTermEvolution "meme" "general" None)
       used_tracker []).1.1
  /\ dom (terminology_evolution_tracker.evolution_database used_tracker)
     ⊆ dom (terminology_evolution_tracker.evolution_database
              (terminology_evolution_tracker.run
                 (service_says "{}") (parse_only "{}" (VDict []))
                 (terminology_evolution_tracker.AnalyzeTermEvolution "meme" "general" None)
                 used_tracker []).1.2).
Proof.
  split.
  - apply (cache_is_write_only (service_says "{}") (parse_only "{}" (VDict []))
             (terminology_evolution_tracker.AnalyzeTermEvolution "meme" "general" None)
             fresh_tracker used_tracker []).
    split; reflexivity.
  - apply (cache_is_write_only (service_says "{}") (parse_only "{}" (VDict []))
             (terminology_evolution_tracker.AnalyzeTermEvolution "meme" "general" None)
             used_tracker used_tracker []).
    split; reflexivity.
Defined.
(** * Further properties of the code *)

(** ** More on the two year extractors *)

(** X1.  Of the nine entries of [mappings] only "present" and "bce" can
    ever decide the result of [extract_year]: a label in which one of the
    seven keys with digits occurs has already been answered by the regex.
    So the function is: the first match read as an integer, else 2023 for
    "present", else -400 for "bce", else 2000. *)
Theorem extract_year_live_keywords s :
  app.extract_year_str s
  = match re_search_chars match_signed_year (chars s) with
    | Some m => int_of_match m
    | None =>
        if contains "present" (lower s) then 2023%Z
        else if contains "bce" (lower s) then (-400)%Z
        else 2000%Z
    end.
Proof.
  unfold app.extract_year_str.
  destruct (re_search_chars match_signed_year (chars s)) as [m |] eqn:E; [reflexivity |].
  apply search_signed_year_none in E. apply three_digits_none_four in E.
  unfold app.mappings, first_keyword.
  rewrite (keyword_dead "pre-1900" s eq_refl E), (keyword_dead "1900" s eq_refl E),
    (keyword_dead "1950" s eq_refl E), (keyword_dead "1980" s eq_refl E),
    (keyword_dead "2000" s eq_refl E), (keyword_dead "2010" s eq_refl E),
    (keyword_dead "2020" s eq_refl E).
  destruct (contains "present" (lower s)); [reflexivity |].
  now destruct (contains "bce" (lower s)).
Qed.

(** X2.  In [_extract_year] the branches on "pre-1900", "1900", "1950",
    "1980", "2000", "2010" and "2020" are never taken: only "19th century"
    and "present" can decide a label that the regex did not answer. *)
Theorem _extract_year_live_keywords s :
  terminology_evolution_tracker._extract_year_str s
  = match re_search_chars match_digits_4 (chars s) with
    | Some m => int_of_match m
    | None =>
        if contains "19th century" (lower s) then 1850%Z
        else if contains "present" (lower s) then 2022%Z
        else 2000%Z
    end.
Proof.
  unfold terminology_evolution_tracker._extract_year_str.
  destruct (re_search_chars match_digits_4 (chars s)) as [m |] eqn:E; [reflexivity |].
  apply search_digits_4_none in E.
  unfold terminology_evolution_tracker.decade_of.
  rewrite (keyword_dead "pre-1900" s eq_refl E), (keyword_dead "1900" s eq_refl E),
    (keyword_dead "1950" s eq_refl E), (keyword_dead "1980" s eq_refl E),
    (keyword_dead "2000" s eq_refl E), (keyword_dead "2010" s eq_refl E),
    (keyword_dead "2020" s eq_refl E).
  cbn [orb].
  destruct (contains "19th century" (lower s)); [reflexivity |].
  now destruct (contains "present" (lower s)).
Qed.

(** X3.  Whatever the label (or other value) handed in, [extract_year]
    stays within -9999 .. 9999 and the library's [_extract_year] within
    0 .. 9999: the library never yields a year before the common era. *)
Theorem extract_year_range (period_str : value) :
  (-9999 <= app.extract_year period_str <= 9999)%Z
  /\ (0 <= terminology_evolution_tracker._extract_year period_str <= 9999)%Z.
Proof.
  split.
  - unfold app.extract_year, app.extract_year_str.
    destruct (re_search_chars match_signed_year (chars (py_str period_str))) as [m |] eqn:E.
    + destruct (re_search_chars_inv _ _ _ E) as (pre & rest & _ & Hm).
      now apply (match_signed_year_value rest).
    + unfold app.mappings, first_keyword.
      repeat (destruct (contains _ _); [lia |]). lia.
  - unfold terminology_evolution_tracker._extract_year,
      terminology_evolution_tracker._extract_year_str.
    destruct (re_search_chars match_digits_4 (chars (py_str period_str))) as [m |] eqn:E.
    + destruct (re_search_chars_inv _ _ _ E) as (pre & rest & _ & Hm).
      now apply (match_digits_4_value rest).
    + unfold terminology_evolution_tracker.decade_of.
      repeat (destruct (contains _ _); cbn [orb]; try lia).
Qed.

(** X4.  A label is read at its first run of three or more digits:
    [extract_year] returns the number made of the first three digits of the
    run, or of the first four when the run has four, and returns it negated
    exactly when a hyphen stands directly before the run.  Digits that come
    earlier in ones and twos, as in "5th c.", are passed over. *)
Theorem extract_year_reads_first_run pre ds post :
  has_three_digits pre = false -> ends_with_digit pre = false ->
  match_digits_3_4 (chars (ds +:+ post)) = Some (chars ds) ->
  app.extract_year (VStr (pre +:+ ds +:+ post))
  = if ends_with_hyphen pre then (- int_digits 0 (chars ds))%Z else int_digits 0 (chars ds).
Proof.
  intros T D Hm. unfold app.extract_year, py_str, app.extract_year_str, ends_with_hyphen.
  rewrite (chars_before_digits pre (ds +:+ post) (chars ds) Hm).
  rewrite (signed_first_run _ _ _ T D Hm).
  destruct (last_is_hyphen (chars pre)); [reflexivity |].
  apply int_of_digits.
  now destruct (match_digits_3_4_inv _ _ Hm) as (a & b & c & r & _ & Ha & _ & _ & [-> | (d & r' & _ & _ & ->)]).
Qed.

Lemma extract_year_reads_first_run_witness :
  app.extract_year (VStr "Old English-1965") = (-1965)%Z
  /\ app.extract_year (VStr "5th c. – 500 CE") = 500%Z
  /\ app.extract_year (VStr "１２３ 1984") = 123%Z.
Proof.
  split; [| split].
  - apply (extract_year_reads_first_run "Old English-" "1965" ""); reflexivity.
  - apply (extract_year_reads_first_run "5th c. – " "500" " CE"); reflexivity.
  - apply (extract_year_reads_first_run "" "１２３" " 1984"); reflexivity.
Defined.

(** ** The brace search of the producers *)

Lemma upto_last_brace_none s : upto_last_brace s = None -> has_char "}" s = false.
Proof.
  induction s as [|c s IH]; [reflexivity |]. simpl.
  destruct (upto_last_brace s); [discriminate |].
  destruct (Ascii.eqb c "}"); [discriminate |]. intros _. now apply IH.
Qed.

Lemma upto_last_brace_some s m :
  upto_last_brace s = Some m ->
  exists mid post, m = mid +:+ "}" /\ s = m +:+ post /\ has_char "}" post = false.
Proof.
  revert m. induction s as [|c s IH]; intros m; [discriminate |]. simpl.
  destruct (upto_last_brace s) as [m' |] eqn:E.
  - intros [= <-]. destruct (IH m' eq_refl) as (mid & post & -> & Hs & Hp).
    exists (String c mid), post. unapp. split; [reflexivity |]. split; [| exact Hp].
    now rewrite Hs at 1.
  - destruct (Ascii.eqb c "}") eqn:Ec; [| discriminate].
    intros [= <-]. apply Ascii.eqb_eq in Ec. subst c.
    exists "", s. unapp. split; [reflexivity |]. split; [reflexivity |].
    now apply upto_last_brace_none.
Qed.

Lemma upto_last_brace_found mid post :
  has_char "}" post = false ->
  upto_last_brace (mid +:+ String "}" post) = Some (mid +:+ "}").
Proof.
  intros Hp. induction mid as [|c mid IH]; unapp.
  - cbn [upto_last_brace].
    assert (H : upto_last_brace post = None).
    { destruct (upto_last_brace post) as [m |] eqn:E; [| reflexivity].
      destruct (upto_last_brace_some _ _ E) as (mid & post' & -> & Hs & _).
      rewrite Hs in Hp. clear -Hp. exfalso.
      induction mid as [|c mid IH]; [discriminate |].
      rewrite !append_cons in Hp. cbn [has_char] in Hp.
      apply orb_false_iff in Hp as [_ Hp]. now apply IH. }
    now rewrite H.
  - cbn [upto_last_brace]. now rewrite IH.
Qed.

Lemma search_braces_needs_closing s : has_char "}" s = false -> re_search match_braces s = None.
Proof.
  induction s as [|c s IH]; intros H; [reflexivity |].
  cbn [has_char] in H. apply orb_false_iff in H as [_ Hs].
  rewrite re_search_cons. unfold match_braces at 1.
  destruct (Ascii.eqb c "{"); [| now apply IH].
  destruct (upto_last_brace s) as [m |] eqn:E; [| now apply IH].
  destruct (upto_last_brace_some _ _ E) as (mid & post & -> & Hm & _).
  rewrite Hm in Hs. clear -Hs. exfalso.
  induction mid as [|x mid IH]; [discriminate |].
  rewrite !append_cons in Hs. cbn [has_char] in Hs.
  apply orb_false_iff in Hs as [_ Hs]. now apply IH.
Qed.

Lemma search_braces_found pre mid post :
  has_char "{" pre = false -> has_char "}" post = false ->
  re_search match_braces (pre +:+ String "{" (mid +:+ String "}" post))
  = Some (String "{" (mid +:+ "}")).
Proof.
  intros Hpre Hpost. induction pre as [|c pre IH]; unapp.
  - rewrite re_search_cons. unfold match_braces at 1. cbn [Ascii.eqb Bool.eqb].
    now rewrite (upto_last_brace_found _ _ Hpost).
  - cbn [has_char] in Hpre. apply orb_false_iff in Hpre as [Hc Hpre].
    rewrite re_search_cons. unfold match_braces at 1. rewrite Hc. now apply IH.
Qed.

(** X5.  The pattern [\{[\s\S]*\}] takes the text from the first opening
    brace to the last closing brace: the search answers [m] exactly when the
    reply is [pre {mid} post] with [m = {mid}], no opening brace in [pre]
    and no closing brace in [post].  Two objects in one reply are therefore
    taken as one text. *)
Theorem brace_search_first_to_last text m :
  re_search match_braces text = Some m
  <-> exists pre mid post,
        text = pre +:+ String "{" (mid +:+ "}" +:+ post)
        /\ m = String "{" (mid +:+ "}")
        /\ has_char "{" pre = false
        /\ has_char "}" post = false.
Proof.
  split.
  - revert m. induction text as [|c s IH]; intros m; [discriminate |].
    rewrite re_search_cons. unfold match_braces at 1.
    destruct (Ascii.eqb c "{") eqn:Ec.
    + apply Ascii.eqb_eq in Ec. subst c.
      destruct (upto_last_brace s) as [m' |] eqn:E.
      * intros [= <-]. destruct (upto_last_brace_some _ _ E) as (mid & post & -> & Hs & Hp).
        exists "", mid, post.
        split; [| split; [reflexivity | split; [reflexivity | exact Hp]]].
        rewrite Hs at 1. now rewrite append_assoc.
      * intros H. rewrite (search_braces_needs_closing _ (upto_last_brace_none _ E)) in H.
        discriminate.
    + intros H. destruct (IH m H) as (pre & mid & post & -> & -> & Hpre & Hpost).
      exists (String c pre), mid, post.
      split; [reflexivity | split; [reflexivity | split; [| exact Hpost]]].
      cbn [has_char]. now rewrite Ec.
  - intros (pre & mid & post & -> & -> & Hpre & Hpost).
    exact (search_braces_found pre mid post Hpre Hpost).
Qed.

Lemma json_dumps_dict_braces indent kv :
  exists mid, json_dumps indent (VDict kv) = String "{" (mid +:+ "}").
Proof.
  unfold json_dumps. destruct kv as [|e kv]; [now exists "" |].
  cbn [json_dumps_at].
  set (a := newline_indent indent 1). set (b := String.concat _ _). set (c := newline_indent indent 0).
  exists (a +:+ b +:+ c). unapp. f_equal. now rewrite !append_assoc.
Qed.

Section BraceRoundTrip.

Variable service : calls -> request -> reply.
Variable json_loads : string -> option value.

(** X6.  A reply that wraps one dumped object in prose without braces is
    cut back to exactly that object: [SimpleTermTracker.analyze_term] hands
    [json.loads] the text [json.dumps] produced, whatever the indentation,
    and returns what [json.loads] makes of it. *)
Theorem producer_recovers_dumped_object (self : app.SimpleTermTracker)
    term domain log pre post indent kv :
  app.client self = true ->
  has_char "{" pre = false -> has_char "}" post = false ->
  service log (Request "mistral-small-latest" (AnalyzePrompt term domain))
  = Replied (pre +:+ json_dumps indent (VDict kv) +:+ post) ->
  re_search match_braces (pre +:+ json_dumps indent (VDict kv) +:+ post)
  = Some (json_dumps indent (VDict kv))
  /\ (app.tracker_analyze_term service json_loads self term domain log).1
     = json_loads (json_dumps indent (VDict kv)).
Proof.
  intros Hc Hpre Hpost Hs.
  destruct (json_dumps_dict_braces indent kv) as [mid E].
  assert (Hm : re_search match_braces (pre +:+ json_dumps indent (VDict kv) +:+ post)
               = Some (json_dumps indent (VDict kv))).
  { rewrite E. unapp.
    rewrite append_assoc. exact (search_braces_found pre mid post Hpre Hpost). }
  split; [exact Hm |].
  unfold app.tracker_analyze_term. rewrite Hc. cbn [negb]. rewrite Hs, Hm.
  now destruct (json_loads (json_dumps indent (VDict kv))).
Qed.

End BraceRoundTrip.

Lemma brace_search_first_to_last_witness :
  re_search match_braces "first {a} then {b}." = Some "{a} then {b}".
Proof.
  apply (proj2 (brace_search_first_to_last "first {a} then {b}." "{a} then {b}")).
  exists "first ", "a} then {b", ".". repeat split.
Defined.

Lemma producer_recovers_dumped_object_witness :
  re_search match_braces
    ("Here you go: " +:+ json_dumps 2 (VDict [("term", VStr "meme")]) +:+ " Enjoy!")
  = Some (json_dumps 2 (VDict [("term", VStr "meme")]))
  /\ (app.tracker_analyze_term
        (service_says ("Here you go: " +:+ json_dumps 2 (VDict [("term", VStr "meme")])
                       +:+ " Enjoy!"))
        (parse_only (json_dumps 2 (VDict [("term", VStr "meme")])) (VDict [("term", VStr "meme")]))
        web_tracker "meme" "general" []).1
     = parse_only (json_dumps 2 (VDict [("term", VStr "meme")])) (VDict [("term", VStr "meme")])
         (json_dumps 2 (VDict [("term", VStr "meme")])).
Proof.
  apply (producer_recovers_dumped_object
           (service_says ("Here you go: " +:+ json_dumps 2 (VDict [("term", VStr "meme")])
                          +:+ " Enjoy!"))
           (parse_only (json_dumps 2 (VDict [("term", VStr "meme")])) (VDict [("term", VStr "meme")]))
           web_tracker "meme" "general" [] "Here you go: " " Enjoy!" 2 [("term", VStr "meme")]);
    reflexivity.
Defined.

(** ** [analyze_term] and the service *)

Lemma for_each_snapshot_lines_raises l : forall n x,
  In x l -> is_dict x = false ->
  for_each app.snapshot_lines (enumerate n l) = Raises AttributeError.
Proof.
  induction l as [|y l IH]; intros n x Hin Hx; [destruct Hin |].
  cbn [enumerate for_each].
  destruct y as [| | | | |kv]; try reflexivity.
  destruct Hin as [<- | Hin]; [discriminate |].
  pose proof (eq_refl : returned (app.snapshot_lines (n, VDict kv)) = true) as H0.
  destruct (app.snapshot_lines (n, VDict kv)); [| discriminate].
  cbn [mbind outcome_bind]. now rewrite (IH (S n) x Hin Hx).
Qed.

(** X7.  [format_report] does raise on a record of the wrong shape: a
    [snapshots] field that is [None], a boolean or a number gives a
    [TypeError], and a list of snapshots with an item that is not a
    dictionary gives an [AttributeError]. *)
Theorem format_report_raises kv :
  (forall x, assoc "snapshots" kv = Some x -> not_iterable x = true ->
             app.format_report (VDict kv) = Raises TypeError)
  /\ (forall l x, assoc "snapshots" kv = Some (VList l) -> In x l -> is_dict x = false ->
                  app.format_report (VDict kv) = Raises AttributeError).
Proof.
  split.
  - intros x Hx Hn. unfold app.format_report.
    destruct kv; [discriminate |]. cbn [truthy negb].
    unfold app.report_lines, get, dict_get. cbn [mbind outcome_bind]. rewrite Hx.
    now destruct x.
  - intros l x Hl Hin Hx. unfold app.format_report.
    destruct kv; [discriminate |]. cbn [truthy negb].
    unfold app.report_lines, get, dict_get. cbn [mbind outcome_bind]. rewrite Hl.
    cbn [py_iter mbind outcome_bind].
    now rewrite (for_each_snapshot_lines_raises l 1 x Hin Hx).
Qed.

Lemma format_report_raises_witness :
  app.format_report (VDict [("term", VStr "meme"); ("snapshots", VInt 3)]) = Raises TypeError
  /\ app.format_report (VDict [("snapshots", VList [VDict []; VStr "1990s"])])
     = Raises AttributeError.
Proof.
  split.
  - apply (proj1 (format_report_raises [("term", VStr "meme"); ("snapshots", VInt 3)])
             (VInt 3)); reflexivity.
  - apply (proj2 (format_report_raises [("snapshots", VList [VDict []; VStr "1990s"])])
             [VDict []; VStr "1990s"] (VStr "1990s")); [reflexivity | | reflexivity].
    right. now left.
Defined.

Section ApiBranch.

Variable service : calls -> request -> reply.
Variable json_loads : string -> option value.

(** X8.  One call of [analyze_term] sends at most one request, and the
    prompt carries the term exactly as typed (not stripped, not
    lowercased).  No request at all is sent for a blank term, for a term of
    the store, without a tracker, or with a tracker that has no client. *)
Theorem analyze_term_requests tracker term domain log :
  let out := app.analyze_term service json_loads tracker term domain log in
  (out.2 = log \/ out.2 = Request "mistral-small-latest" (AnalyzePrompt term domain) :: log)
  /\ (strip term = ""
      \/ assoc (lower (strip term)) app.DEMO_DATA <> None
      \/ tracker = None
      \/ (exists t, tracker = Some t /\ app.client t = false) -> out.2 = log).
Proof.
  cbv zeta. unfold app.analyze_term.
  destruct (String.eqb term "" || String.eqb (strip term) "") eqn:Hb;
    [cbn [snd]; tauto |].
  apply orb_false_iff in Hb as [_ Hb]. apply String.eqb_neq in Hb.
  destruct (assoc (lower (strip term)) app.DEMO_DATA) as [data |]; [cbn [snd]; tauto |].
  destruct tracker as [t |]; [| cbn [snd]; tauto].
  destruct (app.client t) eqn:Hc; [| cbn [snd]; tauto].
  unfold app.tracker_analyze_term. rewrite Hc. cbn [negb].
  assert (Hsent : forall o : outcome app.analysis * calls,
             o.2 = Request "mistral-small-latest" (AnalyzePrompt term domain) :: log ->
             (o.2 = log \/ o.2 = Request "mistral-small-latest" (AnalyzePrompt term domain) :: log)
             /\ (strip term = "" \/ None <> (None : option value) \/ Some t = None
                 \/ (exists t0, Some t = Some t0 /\ app.client t0 = false) -> o.2 = log)).
  { intros o Ho. split; [now right |].
    intros [H | [H | [H | (t0 & [= <-] & H)]]]; try contradiction; try discriminate.
    congruence. }
  destruct (service log _) as [text |]; [| now apply Hsent].
  destruct (re_search match_braces text) as [m |]; [| now apply Hsent].
  destruct (json_loads m) as [data |]; [| now apply Hsent].
  destruct (truthy data); now apply Hsent.
Qed.

(** X9.  For a term outside the store and a tracker with a client, the
    answer is decided by the one reply: a failed call, a reply without
    braces, a part that does not parse and an object that is empty all end
    in the miss message, not in an error; any other parsed object is
    rendered, and rendering is not guarded, so what it raises leaves
    [analyze_term]. *)
Theorem analyze_term_api_branch t term domain log :
  strip term <> "" ->
  assoc (lower (strip term)) app.DEMO_DATA = None ->
  app.client t = true ->
  let rq := Request "mistral-small-latest" (AnalyzePrompt term domain) in
  let out := app.analyze_term service json_loads (Some t) term domain log in
  (unusable json_loads (service log rq) -> out = (Returns (app.miss_result term), rq :: log))
  /\ (forall text m data,
        service log rq = Replied text ->
        re_search match_braces text = Some m ->
        json_loads m = Some data ->
        out = (if truthy data then app.render data else Returns (app.miss_result term),
               rq :: log)).
Proof.
  intros Hne Hmiss Hc rq out. subst out. unfold app.analyze_term.
  rewrite (strip_nonempty _ Hne).
  destruct (String.eqb (strip term) "") eqn:E; [apply String.eqb_eq in E; contradiction |].
  cbn [orb]. rewrite Hmiss, Hc.
  unfold app.tracker_analyze_term. rewrite Hc. cbn [negb]. fold rq.
  split.
  - unfold unusable. destruct (service log rq) as [text |]; [| reflexivity].
    destruct (re_search match_braces text) as [m |]; [| reflexivity].
    now intros ->.
  - intros text m data -> -> ->. now destruct (truthy data).
Qed.

(** X10.  In particular a reply whose object has a [snapshots] field that
    is [null], a boolean or a number makes [analyze_term] raise a
    [TypeError] after its one request: such a failure is not turned into
    the miss message. *)
Theorem analyze_term_raises_on_bad_reply t term domain log text m kv x :
  strip term <> "" ->
  assoc (lower (strip term)) app.DEMO_DATA = None ->
  app.client t = true ->
  service log (Request "mistral-small-latest" (AnalyzePrompt term domain)) = Replied text ->
  re_search match_braces text = Some m ->
  json_loads m = Some (VDict kv) ->
  assoc "snapshots" kv = Some x -> not_iterable x = true ->
  app.analyze_term service json_loads (Some t) term domain log
  = (Raises TypeError, Request "mistral-small-latest" (AnalyzePrompt term domain) :: log).
Proof.
  intros Hne Hmiss Hc Hs Hm Hj Hx Hn. unfold app.analyze_term.
  rewrite (strip_nonempty _ Hne).
  destruct (String.eqb (strip term) "") eqn:E; [apply String.eqb_eq in E; contradiction |].
  cbn [orb]. rewrite Hmiss, Hc.
  unfold app.tracker_analyze_term. rewrite Hc. cbn [negb]. rewrite Hs, Hm, Hj.
  destruct kv as [|e kv]; [discriminate |]. cbn [truthy].
  unfold app.render, app.format_report. cbn [truthy negb].
  unfold app.report_lines, get, dict_get. cbn [mbind outcome_bind]. rewrite Hx.
  now destruct x.
Qed.

End ApiBranch.

Lemma analyze_term_requests_witness :
  (app.analyze_term service_down parse_nothing (Some web_tracker) " Mouse " "general" []).2 = [].
Proof.
  apply (proj2 (analyze_term_requests service_down parse_nothing (Some web_tracker)
                  " Mouse " "general" [])).
  right. left. discriminate.
Defined.

Lemma analyze_term_api_branch_witness :
  app.analyze_term service_down parse_nothing (Some web_tracker) "meme" "general" []
  = (Returns (app.miss_result "meme"),
     [Request "mistral-small-latest" (AnalyzePrompt "meme" "general")])
  /\ app.analyze_term (service_says "{}") (parse_only "{}" (VDict []))
       (Some web_tracker) "meme" "general" []
     = (Returns (app.miss_result "meme"),
        [Request "mistral-small-latest" (AnalyzePrompt "meme" "general")]).
Proof.
  split.
  - apply (proj1 (analyze_term_api_branch service_down parse_nothing web_tracker
                    "meme" "general" [] ltac:(discriminate) eq_refl eq_refl)).
    exact I.
  - apply (proj2 (analyze_term_api_branch (service_says "{}") (parse_only "{}" (VDict []))
                    web_tracker "meme" "general" [] ltac:(discriminate) eq_refl eq_refl)
             "{}" "{}" (VDict [])); reflexivity.
Defined.

Lemma analyze_term_raises_on_bad_reply_witness :
  app.analyze_term (service_says "{x}") (parse_only "{x}" (VDict [("snapshots", VNone)]))
    (Some web_tracker) "meme" "general" []
  = (Raises TypeError, [Request "mistral-small-latest" (AnalyzePrompt "meme" "general")]).
Proof.
  apply (analyze_term_raises_on_bad_reply (service_says "{x}")
           (parse_only "{x}" (VDict [("snapshots", VNone)]))
           web_tracker "meme" "general" [] "{x}" "{x}" [("snapshots", VNone)] VNone);
    try reflexivity.
  discriminate.
Defined.

(** ** The chart builders *)

Lemma for_each_returns {A B} (f : A -> outcome B) l :
  (forall x, In x l -> returned (f x) = true) -> returned (for_each f l) = true.
Proof.
  induction l as [|x l IH]; intros H; [reflexivity |].
  cbn [for_each]. pose proof (H x (or_introl eq_refl)) as Hx.
  destruct (f x); [| discriminate]. cbn [mbind outcome_bind].
  assert (Hl : returned (for_each f l) = true) by (apply IH; intros; apply H; now right).
  now destruct (for_each f l).
Qed.

Lemma for_each_Forall2 {A B} (f : A -> outcome B) l ys :
  for_each f l = Returns ys -> Forall2 (fun x y => f x = Returns y) l ys.
Proof.
  revert ys. induction l as [|x l IH]; intros ys.
  - intros [= <-]. constructor.
  - cbn [for_each]. destruct (f x) as [y |] eqn:E; [| discriminate].
    cbn [mbind outcome_bind]. destruct (for_each f l) as [ys' |]; [| discriminate].
    intros [= <-]. constructor; [exact E | now apply IH].
Qed.

Lemma Forall2_length_eq {A B} (R : A -> B -> Prop) l ys :
  Forall2 R l ys -> length ys = length l.
Proof. induction 1; simpl; congruence. Qed.

Lemma Forall2_right {A B} (R : A -> B -> Prop) (P : B -> Prop) l ys :
  Forall2 R l ys -> (forall x y, R x y -> P y) -> Forall P ys.
Proof. induction 1; intros H'; constructor; eauto. Qed.

Lemma lacks_present kv key x :
  assoc key kv = Some x -> app.lacks (VDict kv) key = Returns false.
Proof.
  intros H. unfold app.lacks. destruct kv; [discriminate |]. cbn [truthy negb].
  unfold py_in, has_key. now rewrite H.
Qed.

Lemma snapshot_freq_level s y :
  app.snapshot_freq s = Returns y -> (1 <= y <= 4)%Z.
Proof.
  unfold app.snapshot_freq. destruct (get s "frequency" (VStr "medium")) as [v |]; [| discriminate].
  cbn [mbind outcome_bind]. destruct (str_lower v) as [key |]; [| discriminate].
  cbn [mbind outcome_bind]. intros [= <-].
  unfold app.freq_level, app.freq_map, table_get.
  repeat (destruct (String.eqb _ _); [lia |]). lia.
Qed.

(** X11.  When [snapshots] is a list of dictionaries whose [frequency],
    where present, is a string, [create_frequency_chart] returns a figure
    with one line whose x and y lists both have one entry per snapshot, in
    order, and whose y values all lie between 1 and 4.  An empty list gives
    an empty line, not the "No data" note. *)
Theorem frequency_chart_shape kv l :
  assoc "snapshots" kv = Some (VList l) ->
  forallb (str_or_missing "frequency") l = true ->
  exists fig t periods freqs,
    app.create_frequency_chart (VDict kv) = Returns fig
    /\ fig_data fig = [t] /\ fig_annotations fig = []
    /\ table_get (trace_args t) "x" (AList []) = AList periods
    /\ table_get (trace_args t) "y" (AList []) = AList (map AInt freqs)
    /\ length periods = length l /\ length freqs = length l
    /\ Forall (fun y => (1 <= y <= 4)%Z) freqs.
Proof.
  intros Hs Hl.
  assert (Hp : returned (for_each app.snapshot_period l) = true).
  { apply for_each_returns. intros x Hx.
    rewrite forallb_forall in Hl. specialize (Hl x Hx). now destruct x. }
  assert (Hf : returned (for_each app.snapshot_freq l) = true).
  { apply for_each_returns. intros x Hx.
    rewrite forallb_forall in Hl. specialize (Hl x Hx).
    destruct x as [| | | | |s]; try discriminate.
    unfold str_or_missing in Hl. unfold app.snapshot_freq, get, dict_get.
    now destruct (assoc "frequency" s) as [[]|]. }
  destruct (for_each app.snapshot_period l) as [periods |] eqn:Ep; [| discriminate].
  destruct (for_each app.snapshot_freq l) as [freqs |] eqn:Ef; [| discriminate].
  unfold app.create_frequency_chart. rewrite (lacks_present _ _ _ Hs).
  cbn [mbind outcome_bind]. unfold get, dict_get. rewrite Hs.
  cbn [mbind outcome_bind py_iter]. rewrite Ep, Ef. cbn [mbind outcome_bind].
  eexists _, _, periods, freqs.
  split; [reflexivity |]. split; [reflexivity |]. split; [reflexivity |].
  split; [reflexivity |]. split; [reflexivity |].
  pose proof (for_each_Forall2 _ _ _ Ep) as Fp. pose proof (for_each_Forall2 _ _ _ Ef) as Ff.
  split; [exact (Forall2_length_eq _ _ _ Fp) |].
  split; [exact (Forall2_length_eq _ _ _ Ff) |].
  apply (Forall2_right _ _ _ _ Ff). intros x y. apply snapshot_freq_level.
Qed.

Lemma frequency_chart_shape_witness :
  exists fig t periods freqs,
    app.create_frequency_chart (VDict [("snapshots", VList [VDict [("frequency", VStr "Rare")]])])
    = Returns fig
    /\ fig_data fig = [t] /\ fig_annotations fig = []
    /\ table_get (trace_args t) "x" (AList []) = AList periods
    /\ table_get (trace_args t) "y" (AList []) = AList (map AInt freqs)
    /\ length periods = 1 /\ length freqs = 1
    /\ Forall (fun y => (1 <= y <= 4)%Z) freqs.
Proof.
  apply (frequency_chart_shape [("snapshots", VList [VDict [("frequency", VStr "Rare")]])]
           [VDict [("frequency", VStr "Rare")]]); reflexivity.
Defined.

Lemma py_eq_str_l a y : py_eq (VStr a) y = true -> y = VStr a.
Proof.
  destruct y; try discriminate. simpl. intros H. apply String.eqb_eq in H. now subst.
Qed.

Lemma py_eq_str_refl a : py_eq (VStr a) (VStr a) = true.
Proof. simpl. apply String.eqb_refl. Qed.

Lemma status_is_str x :
  str_or_missing "status" x = true ->
  exists name, get x "status" (VStr "unknown") = Returns (VStr name).
Proof.
  destruct x as [| | | | |kv]; try discriminate.
  unfold str_or_missing, get, dict_get.
  destruct (assoc "status" kv) as [[| | |name| |]|]; try discriminate; eauto.
Qed.

Lemma count_up_keys name counts x :
  x ∈ map fst (app.count_up (VStr name) counts) ->
  x ∈ map fst counts \/ x = VStr name.
Proof.
  induction counts as [|[k n] r IH]; cbn [app.count_up map fst].
  - intros H. apply list_elem_of_singleton in H. now right.
  - destruct (py_eq k (VStr name)); cbn [map fst]; [tauto |].
    rewrite !elem_of_cons. intros [H | H]; [tauto |]. destruct (IH H); tauto.
Qed.

Lemma count_up_invariant name counts :
  Forall (fun e => is_str (fst e) = true /\ (1 <= snd e)%Z) counts ->
  NoDup (map fst counts) ->
  Forall (fun e => is_str (fst e) = true /\ (1 <= snd e)%Z) (app.count_up (VStr name) counts)
  /\ NoDup (map fst (app.count_up (VStr name) counts))
  /\ sum_Z (map snd (app.count_up (VStr name) counts)) = (sum_Z (map snd counts) + 1)%Z.
Proof.
  induction counts as [|[k n] r IH]; intros Hall Hnd; cbn [app.count_up].
  - split; [constructor; [split; [reflexivity | cbn; lia] | constructor] |].
    split; [apply NoDup_singleton | reflexivity].
  - inversion Hall as [|? ? [Hk Hn] Hr]; subst. cbn [fst snd] in Hk, Hn.
    cbn [map fst] in Hnd. apply NoDup_cons in Hnd as [Hnotin Hnd'].
    destruct (py_eq k (VStr name)) eqn:E.
    + split; [constructor; [cbn; split; [exact Hk | lia] | exact Hr] |].
      split; [cbn [map fst]; now apply NoDup_cons |].
      cbn [map snd]. unfold sum_Z. cbn [fold_right]. lia.
    + destruct (IH Hr Hnd') as (Hall' & Hnd'' & Hsum).
      split; [constructor; [cbn; split; [exact Hk | exact Hn] | exact Hall'] |].
      split.
      * cbn [map fst]. apply NoDup_cons. split; [| exact Hnd''].
        intros Hin. destruct (count_up_keys _ _ _ Hin) as [H | ->]; [contradiction |].
        rewrite py_eq_str_refl in E. discriminate.
      * cbn [map snd]. unfold sum_Z in *. cbn [fold_right]. lia.
Qed.

Lemma count_statuses_invariant l : forall counts,
  forallb (str_or_missing "status") l = true ->
  Forall (fun e => is_str (fst e) = true /\ (1 <= snd e)%Z) counts ->
  NoDup (map fst counts) ->
  exists counts',
    app.count_statuses l counts = Returns counts'
    /\ Forall (fun e => is_str (fst e) = true /\ (1 <= snd e)%Z) counts'
    /\ NoDup (map fst counts')
    /\ sum_Z (map snd counts') = (sum_Z (map snd counts) + Z.of_nat (length l))%Z.
Proof.
  induction l as [|x l IH]; intros counts Hl Hall Hnd.
  - exists counts. cbn [app.count_statuses length]. repeat split; try assumption. cbn. lia.
  - cbn [forallb] in Hl. apply andb_true_iff in Hl as [Hx Hl].
    destruct (status_is_str _ Hx) as [name Hs].
    cbn [app.count_statuses]. rewrite Hs. cbn [mbind outcome_bind hashable].
    destruct (count_up_invariant name counts Hall Hnd) as (Hall' & Hnd' & Hsum).
    destruct (IH _ Hl Hall' Hnd') as (counts' & E & H1 & H2 & H3).
    exists counts'. repeat split; try assumption.
    rewrite H3, Hsum. cbn [length]. lia.
Qed.

(** X12.  When [snapshots] is a list of dictionaries whose [status], where
    present, is a string, [create_status_pie] returns one pie whose labels
    are pairwise different, whose values are all at least 1 and add up to
    the number of snapshots. *)
Theorem status_pie_counts kv l :
  assoc "snapshots" kv = Some (VList l) ->
  forallb (str_or_missing "status") l = true ->
  exists fig t counts,
    app.create_status_pie (VDict kv) = Returns fig
    /\ fig_data fig = [t] /\ fig_annotations fig = []
    /\ table_get (trace_args t) "labels" (AList []) = AList (map (fun e => AVal (fst e)) counts)
    /\ table_get (trace_args t) "values" (AList []) = AList (map (fun e => AInt (snd e)) counts)
    /\ NoDup (map fst counts)
    /\ Forall (fun e => (1 <= snd e)%Z) counts
    /\ sum_Z (map snd counts) = Z.of_nat (length l).
Proof.
  intros Hs Hl.
  destruct (count_statuses_invariant l [] Hl (Forall_nil_2 _) (NoDup_nil_2 : NoDup (map fst [])))
    as (counts & E & Hall & Hnd & Hsum).
  unfold app.create_status_pie. rewrite (lacks_present _ _ _ Hs).
  cbn [mbind outcome_bind]. unfold get, dict_get. rewrite Hs.
  cbn [mbind outcome_bind py_iter]. rewrite E. cbn [mbind outcome_bind].
  eexists _, _, counts.
  split; [reflexivity |]. split; [reflexivity |]. split; [reflexivity |].
  split; [reflexivity |]. split; [reflexivity |].
  split; [exact Hnd |]. split; [| exact Hsum].
  eapply Forall_impl; [exact Hall |]. now intros e [_ H].
Qed.

Lemma status_pie_counts_witness :
  exists fig t counts,
    app.create_status_pie
      (VDict [("snapshots", VList [VDict [("status", VStr "evolving")]; VDict [];
                                   VDict [("status", VStr "evolving")]])])
    = Returns fig
    /\ fig_data fig = [t] /\ fig_annotations fig = []
    /\ table_get (trace_args t) "labels" (AList []) = AList (map (fun e => AVal (fst e)) counts)
    /\ table_get (trace_args t) "values" (AList []) = AList (map (fun e => AInt (snd e)) counts)
    /\ NoDup (map fst counts)
    /\ Forall (fun e => (1 <= snd e)%Z) counts
    /\ sum_Z (map snd counts) = 3%Z.
Proof.
  apply (status_pie_counts
           [("snapshots", VList [VDict [("status", VStr "evolving")]; VDict [];
                                 VDict [("status", VStr "evolving")]])]
           [VDict [("status", VStr "evolving")]; VDict [];
            VDict [("status", VStr "evolving")]]); reflexivity.
Defined.

Lemma list_has_str s xs : list_has (VStr s) xs = true <-> VStr s ∈ xs.
Proof.
  unfold list_has. induction xs as [|y xs IH]; cbn [existsb].
  - split; [discriminate | intros H; inversion H].
  - rewrite orb_true_iff, elem_of_cons, IH. split.
    + intros [H | H]; [left; symmetry; now apply py_eq_str_l | now right].
    + intros [<- | H]; [left; apply py_eq_str_refl | now right].
Qed.

Lemma append_new_str s xs :
  NoDup xs ->
  NoDup (app.append_new (VStr s) xs)
  /\ VStr s ∈ app.append_new (VStr s) xs
  /\ (forall x, x ∈ xs -> x ∈ app.append_new (VStr s) xs)
  /\ (forall x, x ∈ app.append_new (VStr s) xs -> x ∈ xs \/ x = VStr s)
  /\ length xs <= length (app.append_new (VStr s) xs) <= S (length xs).
Proof.
  intros Hnd. unfold app.append_new. destruct (list_has (VStr s) xs) eqn:E.
  - apply list_has_str in E. repeat split; auto; lia.
  - assert (Hn : VStr s ∉ xs).
    { intros H. apply list_has_str in H. congruence. }
    split; [apply NoDup_app; repeat split; [exact Hnd | | apply NoDup_singleton] |].
    + intros x Hx Hx'. apply list_elem_of_singleton in Hx'. now subst.
    + split; [apply elem_of_app; right; now apply list_elem_of_singleton |].
      split; [intros x Hx; apply elem_of_app; now left |].
      split.
      * intros x Hx. apply elem_of_app in Hx as [Hx | Hx]; [now left |].
        right. now apply list_elem_of_singleton in Hx.
      * rewrite length_app. cbn. lia.
Qed.

Lemma list_index_str s xs : VStr s ∈ xs -> list_index (VStr s) xs < length xs.
Proof.
  induction xs as [|y xs IH]; intros H; [inversion H |].
  cbn [list_index length]. destruct (py_eq y (VStr s)) eqn:E; [lia |].
  apply elem_of_cons in H as [<- | H].
  - rewrite py_eq_str_refl in E. discriminate.
  - specialize (IH H). lia.
Qed.

Lemma sliced_meaning key x :
  str_or_missing key x = true ->
  exists s, (v ← get x key (VStr "Unknown"); py_slice_to 30 v) = Returns (VStr s)
            /\ char_count s <= 30.
Proof.
  destruct x as [| | | | |kv]; try discriminate.
  unfold str_or_missing, get, dict_get.
  destruct (assoc key kv) as [[| | |t| |]|]; try discriminate; intros _;
    cbn [mbind outcome_bind py_slice_to]; eexists; split; try reflexivity;
    apply char_count_slice.
Qed.

Lemma sankey_step_invariant acc shift n :
  sankey_shift shift = true ->
  length (app.sources acc) = n /\ length (app.targets acc) = n
  /\ length (app.values acc) = n /\ length (app.colors acc) = n ->
  Forall (fun i => i < length (app.labels acc)) (app.sources acc ++ app.targets acc) ->
  NoDup (app.labels acc) ->
  Forall (fun x => exists s, x = VStr s /\ char_count s <= 30) (app.labels acc) ->
  length (app.labels acc) <= 2 * n ->
  exists acc',
    app.sankey_step acc shift = Returns acc'
    /\ (length (app.sources acc') = S n /\ length (app.targets acc') = S n
        /\ length (app.values acc') = S n /\ length (app.colors acc') = S n)
    /\ Forall (fun i => i < length (app.labels acc')) (app.sources acc' ++ app.targets acc')
    /\ NoDup (app.labels acc')
    /\ Forall (fun x => exists s, x = VStr s /\ char_count s <= 30) (app.labels acc')
    /\ length (app.labels acc') <= 2 * S n.
Proof.
  intros Hshift (Hs & Ht & Hv & Hc) Hidx Hnd Hlab Hlen.
  unfold sankey_shift in Hshift.
  apply andb_true_iff in Hshift as [Hshift Htype].
  apply andb_true_iff in Hshift as [Hbefore Hafter].
  destruct (sliced_meaning _ _ Hbefore) as (b & Eb & Hb).
  destruct (sliced_meaning _ _ Hafter) as (a & Ea & Ha).
  destruct shift as [| | | | |kv]; try discriminate.
  unfold app.sankey_step.
  unfold get in Eb, Ea |- *. cbn [mbind outcome_bind] in Eb, Ea |- *.
  rewrite Eb. cbn [mbind outcome_bind]. rewrite Ea. cbn [mbind outcome_bind].
  assert (Hty : exists key, str_lower (dict_get kv "shift_type" (VStr "unknown")) = Returns key).
  { unfold str_or_missing in Htype. unfold dict_get.
    destruct (assoc "shift_type" kv) as [[| | |t| |]|]; try discriminate; cbn; eauto. }
  destruct Hty as [key ->]. cbn [mbind outcome_bind mret outcome_ret].
  destruct (append_new_str b (app.labels acc) Hnd) as (Hnd1 & Hin1 & Hsub1 & Hsup1 & Hlen1).
  destruct (append_new_str a _ Hnd1) as (Hnd2 & Hin2 & Hsub2 & Hsup2 & Hlen2).
  set (labels' := app.append_new (VStr a) (app.append_new (VStr b) (app.labels acc))) in *.
  eexists. split; [reflexivity |]. cbn [app.sources app.targets app.values app.colors app.labels].
  split; [rewrite !length_app; cbn; lia |].
  split.
  - apply Forall_app in Hidx as [Hsrc Htgt].
    assert (Hgrow : forall l, Forall (fun i => i < length (app.labels acc)) l ->
                              Forall (fun i => i < length labels') l).
    { intros l Hl. eapply Forall_impl; [exact Hl |]. cbn. intros i Hi. lia. }
    rewrite !Forall_app. repeat split; auto.
    + constructor; [| constructor]. apply list_index_str. now apply Hsub2.
    + constructor; [| constructor]. now apply list_index_str.
  - split; [exact Hnd2 |]. split; [| lia].
    apply Forall_forall. intros x Hx.
    destruct (Hsup2 x Hx) as [Hx' | ->]; [| eauto].
    destruct (Hsup1 x Hx') as [Hx'' | ->]; [| eauto].
    rewrite Forall_forall in Hlab. now apply Hlab.
Qed.

Lemma sankey_loop_invariant l : forall acc n,
  forallb sankey_shift l = true ->
  length (app.sources acc) = n /\ length (app.targets acc) = n
  /\ length (app.values acc) = n /\ length (app.colors acc) = n ->
  Forall (fun i => i < length (app.labels acc)) (app.sources acc ++ app.targets acc) ->
  NoDup (app.labels acc) ->
  Forall (fun x => exists s, x = VStr s /\ char_count s <= 30) (app.labels acc) ->
  length (app.labels acc) <= 2 * n ->
  exists acc',
    app.sankey_loop acc l = Returns acc'
    /\ (length (app.sources acc') = n + length l /\ length (app.targets acc') = n + length l
        /\ length (app.values acc') = n + length l /\ length (app.colors acc') = n + length l)
    /\ Forall (fun i => i < length (app.labels acc')) (app.sources acc' ++ app.targets acc')
    /\ NoDup (app.labels acc')
    /\ Forall (fun x => exists s, x = VStr s /\ char_count s <= 30) (app.labels acc')
    /\ length (app.labels acc') <= 2 * (n + length l).
Proof.
  induction l as [|shift l IH]; intros acc n Hl Hn Hidx Hnd Hlab Hlen.
  - exists acc. cbn [app.sankey_loop length]. rewrite !Nat.add_0_r. repeat split; tauto.
  - cbn [forallb] in Hl. apply andb_true_iff in Hl as [Hshift Hl].
    destruct (sankey_step_invariant acc shift n Hshift Hn Hidx Hnd Hlab Hlen)
      as (acc1 & E1 & Hn1 & Hidx1 & Hnd1 & Hlab1 & Hlen1).
    destruct (IH acc1 (S n) Hl Hn1 Hidx1 Hnd1 Hlab1 Hlen1)
      as (acc' & E' & Hn' & Hidx' & Hnd' & Hlab' & Hlen').
    exists acc'. cbn [app.sankey_loop]. rewrite E1. cbn [mbind outcome_bind].
    split; [exact E' |]. cbn [length].
    replace (n + S (length l)) with (S n + length l) by lia. tauto.
Qed.

(** X13.  When [semantic_shifts] is a non-empty list of dictionaries whose
    meanings and type, where present, are strings, [create_shift_sankey]
    returns one Sankey trace with one link per shift; every source and
    target is the index of a node; the node labels are pairwise different
    texts of at most 30 characters, so two meanings that agree on their
    first 30 characters share a node; and there are at most two nodes per
    shift. *)
Theorem sankey_links_valid kv l :
  assoc "semantic_shifts" kv = Some (VList l) -> l <> [] ->
  forallb sankey_shift l = true ->
  exists fig t filled,
    app.create_shift_sankey (VDict kv) = Returns fig
    /\ fig_data fig = [t] /\ fig_annotations fig = []
    /\ node_labels t = AList (map AVal (app.labels filled))
    /\ link_attr "source" t = AList (map (fun n => AInt (Z.of_nat n)) (app.sources filled))
    /\ link_attr "target" t = AList (map (fun n => AInt (Z.of_nat n)) (app.targets filled))
    /\ length (app.sources filled) = length l
    /\ length (app.targets filled) = length l
    /\ Forall (fun i => i < length (app.labels filled))
         (app.sources filled ++ app.targets filled)
    /\ NoDup (app.labels filled)
    /\ Forall (fun x => exists s, x = VStr s /\ char_count s <= 30) (app.labels filled)
    /\ length (app.labels filled) <= 2 * length l.
Proof.
  intros Hs Hne Hl.
  destruct (sankey_loop_invariant l (app.SankeyLists [] [] [] [] []) 0 Hl)
    as (filled & E & (H1 & H2 & _ & _) & Hidx & Hnd & Hlab & Hlen).
  { now cbn. } { constructor. } { apply NoDup_nil_2. } { constructor. } { cbn. lia. }
  unfold app.create_shift_sankey. rewrite (lacks_present _ _ _ Hs).
  cbn [mbind outcome_bind]. unfold get, dict_get. rewrite Hs.
  cbn [mbind outcome_bind]. destruct l as [|x l]; [contradiction |].
  cbn [truthy negb py_iter mbind outcome_bind]. rewrite E. cbn [mbind outcome_bind].
  eexists _, _, filled.
  split; [reflexivity |]. split; [reflexivity |]. split; [reflexivity |].
  split; [reflexivity |]. split; [reflexivity |]. split; [reflexivity |].
  repeat (split; [assumption |]). assumption.
Qed.

Lemma sankey_links_valid_witness :
  exists fig t filled,
    app.create_shift_sankey
      (VDict [("semantic_shifts", VList [VDict [("meaning_before", VStr "rodent")]])])
    = Returns fig
    /\ fig_data fig = [t] /\ fig_annotations fig = []
    /\ node_labels t = AList (map AVal (app.labels filled))
    /\ link_attr "source" t = AList (map (fun n => AInt (Z.of_nat n)) (app.sources filled))
    /\ link_attr "target" t = AList (map (fun n => AInt (Z.of_nat n)) (app.targets filled))
    /\ length (app.sources filled) = 1
    /\ length (app.targets filled) = 1
    /\ Forall (fun i => i < length (app.labels filled))
         (app.sources filled ++ app.targets filled)
    /\ NoDup (app.labels filled)
    /\ Forall (fun x => exists s, x = VStr s /\ char_count s <= 30) (app.labels filled)
    /\ length (app.labels filled) <= 2.
Proof.
  apply (sankey_links_valid
           [("semantic_shifts", VList [VDict [("meaning_before", VStr "rodent")]])]
           [VDict [("meaning_before", VStr "rodent")]]);
    [reflexivity | discriminate | reflexivity].
Defined.

(** ** The library class *)

Lemma record_of_to_dict record term domain :
  terminology_evolution_tracker.record_of
    (terminology_evolution_tracker.to_dict record) term domain = Returns record.
Proof. now destruct record. Qed.

Section LibraryCalls.

Variable service : calls -> request -> reply.
Variable json_loads : string -> option value.

(** X15.  [analyze_term_evolution] touches the cache only under its own
    term: every other entry is as before, a failed analysis leaves the
    whole instance as it was, and the key and the model never change. *)
Theorem analyze_term_evolution_frame self term domain time_periods log :
  let out := terminology_evolution_tracker.analyze_term_evolution service json_loads
               self term domain time_periods log in
  (forall k, k <> term ->
     terminology_evolution_tracker.evolution_database out.1.2 !! k
     = terminology_evolution_tracker.evolution_database self !! k)
  /\ (out.1.1 = None -> out.1.2 = self)
  /\ terminology_evolution_tracker.api_key out.1.2 = terminology_evolution_tracker.api_key self
  /\ terminology_evolution_tracker.model out.1.2 = terminology_evolution_tracker.model self.
Proof.
  cbv zeta. unfold terminology_evolution_tracker.analyze_term_evolution.
  destruct (terminology_evolution_tracker.ask service json_loads _ log) as [data |];
    [| cbn [fst snd]; tauto].
  destruct (terminology_evolution_tracker.record_of data term domain) as [record |];
    [| cbn [fst snd]; tauto].
  cbn [fst snd terminology_evolution_tracker.evolution_database
       terminology_evolution_tracker.api_key terminology_evolution_tracker.model].
  split; [| split; [discriminate | split; reflexivity]].
  intros k Hk. now apply lookup_insert_ne.
Qed.

(** X14.  A record survives the trip through the service: when the reply
    is the [to_json] text of a record, with prose free of braces around it
    at most, and [json.loads] reads that text back as the dictionary it was
    dumped from, [analyze_term_evolution] returns that very record, stores
    it under the term asked for, and has sent one request. *)
Theorem analyze_term_evolution_round_trip self term domain time_periods log
    record indent pre post :
  has_char "{" pre = false -> has_char "}" post = false ->
  service log
    (Request (terminology_evolution_tracker.model self)
       (EvolutionPrompt term domain
          (terminology_evolution_tracker.periods_or_default time_periods)))
  = Replied (pre +:+ terminology_evolution_tracker.to_json record indent +:+ post) ->
  json_loads (terminology_evolution_tracker.to_json record indent)
  = Some (terminology_evolution_tracker.to_dict record) ->
  let out := terminology_evolution_tracker.analyze_term_evolution service json_loads
               self term domain time_periods log in
  out.1.1 = Some record
  /\ terminology_evolution_tracker.evolution_database out.1.2 !! term = Some record
  /\ length out.2 = S (length log).
Proof.
  intros Hpre Hpost Hs Hj. cbv zeta.
  unfold terminology_evolution_tracker.analyze_term_evolution,
    terminology_evolution_tracker.ask.
  rewrite Hs. unfold terminology_evolution_tracker.to_json in *.
  destruct (json_dumps_dict_braces indent
              [("term", terminology_evolution_tracker.term record);
               ("domain", terminology_evolution_tracker.domain record);
               ("origin_period", terminology_evolution_tracker.origin_period record);
               ("origin_language", terminology_evolution_tracker.origin_language record);
               ("etymology", terminology_evolution_tracker.etymology record);
               ("etymology_zh", terminology_evolution_tracker.etymology_zh record);
               ("snapshots", terminology_evolution_tracker.snapshots record);
               ("semantic_shifts", terminology_evolution_tracker.semantic_shifts record);
               ("related_terms", terminology_evolution_tracker.related_terms record);
               ("current_status", terminology_evolution_tracker.current_status record);
               ("future_prediction", terminology_evolution_tracker.future_prediction record);
               ("future_prediction_zh",
                terminology_evolution_tracker.future_prediction_zh record)]) as [mid E].
  change (VDict _) with (terminology_evolution_tracker.to_dict record) in E.
  assert (Hm : re_search match_braces
                 (pre +:+ json_dumps indent (terminology_evolution_tracker.to_dict record)
                  +:+ post)
               = Some (json_dumps indent (terminology_evolution_tracker.to_dict record))).
  { rewrite E. unapp. rewrite append_assoc.
    exact (search_braces_found pre mid post Hpre Hpost). }
  rewrite Hm, Hj, record_of_to_dict.
  cbn [fst snd terminology_evolution_tracker.evolution_database length].
  split; [reflexivity | split; [apply lookup_insert_eq | reflexivity]].
Qed.

Lemma analyze_term_evolution_step self term domain log :
  let out := terminology_evolution_tracker.analyze_term_evolution service json_loads
               self term domain None log in
  out.2 = evolution_request (terminology_evolution_tracker.model self) domain term :: log
  /\ terminology_evolution_tracker.model out.1.2 = terminology_evolution_tracker.model self
  /\ (forall k, k <> term ->
        terminology_evolution_tracker.evolution_database out.1.2 !! k
        = terminology_evolution_tracker.evolution_database self !! k).
Proof.
  cbv zeta. unfold terminology_evolution_tracker.analyze_term_evolution, evolution_request.
  cbn [terminology_evolution_tracker.periods_or_default].
  destruct (terminology_evolution_tracker.ask service json_loads _ log) as [data |];
    [| cbn [fst snd]; tauto].
  destruct (terminology_evolution_tracker.record_of data term domain) as [record |];
    [| cbn [fst snd]; tauto].
  cbn [fst snd terminology_evolution_tracker.evolution_database
       terminology_evolution_tracker.model].
  split; [reflexivity | split; [reflexivity |]].
  intros k Hk. now apply lookup_insert_ne.
Qed.

(** X16.  [analyze_multiple_terms] sends exactly one request per term, in
    the order of the list and with the default periods; it returns at most
    one record per term; and it leaves alone every cache entry whose key is
    not in the list. *)
Theorem analyze_multiple_terms_requests terms : forall self domain log,
  let out := terminology_evolution_tracker.analyze_multiple_terms service json_loads
               self terms domain log in
  out.2 = (rev (map (evolution_request (terminology_evolution_tracker.model self) domain)
                   terms) ++ log)%list
  /\ length out.1.1 <= length terms
  /\ terminology_evolution_tracker.model out.1.2 = terminology_evolution_tracker.model self
  /\ (forall k, k ∉ terms ->
        terminology_evolution_tracker.evolution_database out.1.2 !! k
        = terminology_evolution_tracker.evolution_database self !! k).
Proof.
  induction terms as [|term rest IH]; intros self domain log; cbv zeta.
  - cbn. repeat split; auto.
  - cbn [terminology_evolution_tracker.analyze_multiple_terms].
    pose proof (analyze_term_evolution_step self term domain log) as Hstep.
    destruct (terminology_evolution_tracker.analyze_term_evolution service json_loads
                self term domain None log) as [[r self1] log1].
    cbn [fst snd] in Hstep. destruct Hstep as (Hlog & Hmodel & Hframe).
    specialize (IH self1 domain log1). cbv zeta in IH.
    destruct (terminology_evolution_tracker.analyze_multiple_terms service json_loads
                self1 rest domain log1) as [[rs self2] log2].
    cbn [fst snd] in IH |- *. destruct IH as (Hlog2 & Hlen & Hmodel2 & Hframe2).
    split; [| split; [| split]].
    + rewrite Hlog2, Hlog, Hmodel. cbn [map rev]. now rewrite <- app_assoc.
    + destruct r; cbn [length]; lia.
    + congruence.
    + intros k Hk. apply not_elem_of_cons in Hk as [Hne Hk].
      rewrite (Hframe2 k Hk). now apply Hframe.
Qed.

End LibraryCalls.

(** X17.  [__init__] raises [ValueError] exactly when neither the argument
    nor the environment gives a non-empty key; otherwise the instance
    starts with an empty cache, the model asked for, and the argument's key
    in preference to the environment's. *)
Theorem init_needs_key api_key model environ_key :
  (terminology_evolution_tracker.init api_key model environ_key = Raises ValueError
   <-> no_key api_key /\ no_key environ_key)
  /\ (forall self,
        terminology_evolution_tracker.init api_key model environ_key = Returns self ->
        terminology_evolution_tracker.evolution_database self = ∅
        /\ terminology_evolution_tracker.model self = model
        /\ terminology_evolution_tracker.api_key self <> ""
        /\ (~ no_key api_key -> api_key = Some (terminology_evolution_tracker.api_key self))
        /\ (no_key api_key -> environ_key = Some (terminology_evolution_tracker.api_key self))).
Proof.
  unfold terminology_evolution_tracker.init, no_key.
  destruct api_key as [k |].
  - destruct (String.eqb k "") eqn:Ek.
    + apply String.eqb_eq in Ek. subst k.
      destruct environ_key as [e |].
      * destruct (String.eqb e "") eqn:Ee.
        -- apply String.eqb_eq in Ee. subst e. split; [tauto | discriminate].
        -- apply String.eqb_neq in Ee. split.
           ++ split; [discriminate |]. intros [_ [H | H]]; congruence.
           ++ intros self [= <-]. cbn. repeat split; auto. tauto.
      * split; [tauto | discriminate].
    + apply String.eqb_neq in Ek. rewrite (proj2 (String.eqb_neq k "") Ek). split.
      * split; [discriminate |]. intros [[H | H] _]; congruence.
      * intros self [= <-]. cbn. repeat split; auto.
        intros [H | H]; congruence.
  - destruct environ_key as [e |].
    + destruct (String.eqb e "") eqn:Ee.
      * apply String.eqb_eq in Ee. subst e. split; [tauto | discriminate].
      * apply String.eqb_neq in Ee. split.
        -- split; [discriminate |]. intros [_ [H | H]]; congruence.
        -- intros self [= <-]. cbn. repeat split; auto. intros H. elim H. now left.
    + split; [tauto | discriminate].
Qed.

Lemma timeline_period_keys x y :
  terminology_evolution_tracker.timeline_period x = Returns y ->
  dict_keys y = ["period"; "year_start"; "year_end"; "definition"; "status"; "frequency"].
Proof.
  destruct x; try discriminate. unfold terminology_evolution_tracker.timeline_period, get.
  cbn [mbind outcome_bind mret outcome_ret]. now intros [= <-].
Qed.

Lemma timeline_shift_keys x y :
  terminology_evolution_tracker.timeline_shift x = Returns y ->
  dict_keys y
  = ["type"; "period_from"; "period_to"; "meaning_before"; "meaning_after"; "explanation"].
Proof.
  destruct x; try discriminate. unfold terminology_evolution_tracker.timeline_shift, get.
  cbn [mbind outcome_bind mret outcome_ret]. now intros [= <-].
Qed.

(** X18.  On a record whose [snapshots] and [semantic_shifts] are lists of
    dictionaries, [generate_timeline_data] returns the five sections in
    order, with the origin as the only event, dated by [_extract_year], one
    period per snapshot and one entry per shift, each cut down to its six
    keys.  On a record whose [snapshots] cannot be iterated (a reply with
    [null] there) it raises a [TypeError]. *)
Theorem timeline_data_shape record :
  (forall l m,
      terminology_evolution_tracker.snapshots record = VList l ->
      terminology_evolution_tracker.semantic_shifts record = VList m ->
      forallb is_dict l = true -> forallb is_dict m = true ->
      exists event periods shifts,
        terminology_evolution_tracker.generate_timeline_data record
        = Returns (VDict [("term", terminology_evolution_tracker.term record);
                          ("domain", terminology_evolution_tracker.domain record);
                          ("events", VList [event]);
                          ("periods", VList periods);
                          ("shifts", VList shifts)])
        /\ get event "year" VNone
           = Returns (VInt (terminology_evolution_tracker._extract_year
                              (terminology_evolution_tracker.origin_period record)))
        /\ length periods = length l /\ length shifts = length m
        /\ Forall (fun p => dict_keys p
                            = ["period"; "year_start"; "year_end"; "definition"; "status";
                               "frequency"]) periods
        /\ Forall (fun s => dict_keys s
                            = ["type"; "period_from"; "period_to"; "meaning_before";
                               "meaning_after"; "explanation"]) shifts)
  /\ (not_iterable (terminology_evolution_tracker.snapshots record) = true ->
      terminology_evolution_tracker.generate_timeline_data record = Raises TypeError).
Proof.
  split.
  - intros l m Hl Hm Dl Dm.
    assert (Hp : returned (for_each terminology_evolution_tracker.timeline_period l) = true).
    { apply for_each_returns. intros x Hx. rewrite forallb_forall in Dl.
      specialize (Dl x Hx). now destruct x. }
    assert (Hs : returned (for_each terminology_evolution_tracker.timeline_shift m) = true).
    { apply for_each_returns. intros x Hx. rewrite forallb_forall in Dm.
      specialize (Dm x Hx). now destruct x. }
    destruct (for_each terminology_evolution_tracker.timeline_period l) as [periods |] eqn:Ep;
      [| discriminate].
    destruct (for_each terminology_evolution_tracker.timeline_shift m) as [shifts |] eqn:Es;
      [| discriminate].
    unfold terminology_evolution_tracker.generate_timeline_data.
    rewrite Hl, Hm. cbn [py_iter mbind outcome_bind]. rewrite Ep, Es.
    cbn [mbind outcome_bind mret outcome_ret].
    eexists _, periods, shifts. split; [reflexivity |]. split; [reflexivity |].
    pose proof (for_each_Forall2 _ _ _ Ep) as Fp. pose proof (for_each_Forall2 _ _ _ Es) as Fs.
    split; [exact (Forall2_length_eq _ _ _ Fp) |].
    split; [exact (Forall2_length_eq _ _ _ Fs) |].
    split.
    + apply (Forall2_right _ _ _ _ Fp). intros x y. apply timeline_period_keys.
    + apply (Forall2_right _ _ _ _ Fs). intros x y. apply timeline_shift_keys.
  - intros H. unfold terminology_evolution_tracker.generate_timeline_data.
    now destruct (terminology_evolution_tracker.snapshots record).
Qed.

(** ** The web app's key handling and the charts without data *)

Section KeyHandling.

Variable service : calls -> request -> reply.
Variable json_loads : string -> option value.

(** X19.  [initialize_tracker] with a blank key changes nothing: a tracker
    set earlier stays in use.  With a key it answers "API key set" whether
    or not the Mistral client could be built; when it could not, a term
    outside the store still gets the miss message and no request is sent. *)
Theorem initialize_tracker_effect mistral key tracker :
  (strip key = "" ->
   app.initialize_tracker mistral key tracker = (app.no_key_message, tracker))
  /\ (strip key <> "" ->
      app.initialize_tracker mistral key tracker
      = (app.key_set_message, Some {| app.api_key := strip key; app.client := mistral |})
      /\ (mistral = false ->
          forall term domain log,
            strip term <> "" -> assoc (lower (strip term)) app.DEMO_DATA = None ->
            app.analyze_term service json_loads
              (app.initialize_tracker mistral key tracker).2 term domain log
            = (Returns (app.miss_result term), log))).
Proof.
  unfold app.initialize_tracker. split.
  - intros ->. now rewrite andb_false_r.
  - intros Hne. rewrite (strip_nonempty _ Hne).
    destruct (String.eqb (strip key) "") eqn:E; [apply String.eqb_eq in E; contradiction |].
    cbn [negb andb]. split; [reflexivity |].
    intros -> term domain log Hterm Hmiss. cbn [snd]. unfold app.analyze_term.
    rewrite (strip_nonempty _ Hterm).
    destruct (String.eqb (strip term) "") eqn:Et; [apply String.eqb_eq in Et; contradiction |].
    cbn [orb]. now rewrite Hmiss.
Qed.

End KeyHandling.

(** X20.  The charts without their data: a record with no [snapshots] key
    gets the notes "No data available" (timeline) and "No data" (pie and
    frequency); with no [semantic_shifts] key the Sankey builder notes "No
    semantic shifts found", and with the key present but empty or otherwise
    false "No semantic shifts recorded".  None of them raises, and each
    note is a figure that plots nothing. *)
Theorem charts_without_data kv :
  (assoc "snapshots" kv = None ->
   app.create_timeline_chart (VDict kv) = Returns (app.annotated "No data available")
   /\ app.create_status_pie (VDict kv) = Returns (app.annotated "No data")
   /\ app.create_frequency_chart (VDict kv) = Returns (app.annotated "No data"))
  /\ (assoc "semantic_shifts" kv = None ->
      app.create_shift_sankey (VDict kv) = Returns (app.annotated "No semantic shifts found"))
  /\ (forall x, assoc "semantic_shifts" kv = Some x -> truthy x = false ->
        app.create_shift_sankey (VDict kv)
        = Returns (app.annotated "No semantic shifts recorded"))
  /\ (forall text, placeholder (app.annotated text)).
Proof.
  assert (Hlacks : forall key, assoc key kv = None -> app.lacks (VDict kv) key = Returns true).
  { intros key H. unfold app.lacks. destruct kv; [reflexivity |].
    cbn [truthy negb]. unfold py_in, has_key. now rewrite H. }
  split; [| split; [| split]].
  - intros H. unfold app.create_timeline_chart, app.create_status_pie,
      app.create_frequency_chart. now rewrite (Hlacks _ H).
  - intros H. unfold app.create_shift_sankey. now rewrite (Hlacks _ H).
  - intros x H Hx. unfold app.create_shift_sankey. rewrite (lacks_present _ _ _ H).
    cbn [mbind outcome_bind]. unfold get, dict_get. rewrite H.
    cbn [mbind outcome_bind]. now rewrite Hx.
  - reflexivity.
Qed.

(** ** The timeline *)

















(** ** Instances of the properties above *)

Lemma analyze_term_evolution_frame_witness :
  terminology_evolution_tracker.evolution_database
    (terminology_evolution_tracker.analyze_term_evolution
       (service_says "{}") (parse_only "{}" (VDict []))
       used_tracker "meme" "general" None []).1.2 !! "selfie"
  = terminology_evolution_tracker.evolution_database used_tracker !! "selfie".
Proof.
  apply (proj1 (analyze_term_evolution_frame (service_says "{}") (parse_only "{}" (VDict []))
                  used_tracker "meme" "general" None []) "selfie").
  discriminate.
Defined.

Lemma analyze_multiple_terms_requests_witness :
  terminology_evolution_tracker.evolution_database
    (terminology_evolution_tracker.analyze_multiple_terms
       (service_says "{}") (parse_only "{}" (VDict []))
       used_tracker ["meme"; "cloud"] "general" []).1.2 !! "selfie"
  = terminology_evolution_tracker.evolution_database used_tracker !! "selfie".
Proof.
  apply (proj2 (proj2 (proj2 (analyze_multiple_terms_requests
                                (service_says "{}") (parse_only "{}" (VDict []))
                                ["meme"; "cloud"] used_tracker "general" []))) "selfie").
  apply not_elem_of_cons. split; [discriminate |].
  apply not_elem_of_cons. split; [discriminate |]. apply not_elem_of_nil.
Defined.

Lemma init_needs_key_witness :
  terminology_evolution_tracker.init (Some "") "mistral-medium-latest" None = Raises ValueError.
Proof.
  apply (proj2 (proj1 (init_needs_key (Some "") "mistral-medium-latest" None))).
  split; [now right | now left].
Defined.

Lemma timeline_data_shape_witness :
  exists event periods shifts,
    terminology_evolution_tracker.generate_timeline_data dated_record
    = Returns (VDict [("term", VStr "selfie"); ("domain", VStr "general");
                      ("events", VList [event]);
                      ("periods", VList periods);
                      ("shifts", VList shifts)])
    /\ get event "year" VNone = Returns (VInt 2002)
    /\ length periods = 2 /\ length shifts = 1
    /\ Forall (fun p => dict_keys p
                        = ["period"; "year_start"; "year_end"; "definition"; "status";
                           "frequency"]) periods
    /\ Forall (fun s => dict_keys s
                        = ["type"; "period_from"; "period_to"; "meaning_before";
                           "meaning_after"; "explanation"]) shifts.
Proof.
  apply (proj1 (timeline_data_shape dated_record)
           [ VDict [("period", VStr "2000s"); ("year_start", VInt 2002);
                    ("status", VStr "emerging"); ("note", VStr "forum slang")];
             VDict [("period", VStr "2010s"); ("year_start", VInt 2010);
                    ("year_end", VInt 2019)] ]
           [ VDict [("shift_type", VStr "broadening"); ("period_from", VStr "2002")] ]);
    reflexivity.
Defined.

Lemma initialize_tracker_effect_witness :
  app.initialize_tracker false " 　 " (Some web_tracker) = (app.no_key_message, Some web_tracker)
  /\ app.analyze_term service_down parse_nothing
       (app.initialize_tracker false " sk-123　" None).2 "meme" "general" []
     = (Returns (app.miss_result "meme"), []).
Proof.
  split.
  - apply (proj1 (initialize_tracker_effect service_down parse_nothing
                    false " 　 " (Some web_tracker))).
    reflexivity.
  - apply (proj2 (proj2 (initialize_tracker_effect service_down parse_nothing
                           false " sk-123　" None) ltac:(discriminate)) eq_refl
             "meme" "general" []); [discriminate | reflexivity].
Defined.

Lemma charts_without_data_witness :
  app.create_timeline_chart (VDict [("term", VStr "meme")])
  = Returns (app.annotated "No data available")
  /\ app.create_shift_sankey (VDict [("term", VStr "meme"); ("semantic_shifts", VList [])])
     = Returns (app.annotated "No semantic shifts recorded").
Proof.
  split.
  - apply (proj1 (proj1 (charts_without_data [("term", VStr "meme")]) eq_refl)).
  - apply (proj1 (proj2 (proj2 (charts_without_data
                                  [("term", VStr "meme"); ("semantic_shifts", VList [])])))
             (VList [])); reflexivity.
Defined.


Lemma analyze_term_evolution_round_trip_witness :
  (terminology_evolution_tracker.analyze_term_evolution
     (service_says ("Sure: " +:+ terminology_evolution_tracker.to_json stored_record 2))
     (parse_only (terminology_evolution_tracker.to_json stored_record 2)
        (terminology_evolution_tracker.to_dict stored_record))
     fresh_tracker "selfie" "general" None []).1.1
  = Some stored_record.
Proof.
  apply (analyze_term_evolution_round_trip
           (service_says ("Sure: " +:+ terminology_evolution_tracker.to_json stored_record 2))
           (parse_only (terminology_evolution_tracker.to_json stored_record 2)
              (terminology_evolution_tracker.to_dict stored_record))
           fresh_tracker "selfie" "general" None [] stored_record 2 "Sure: " "");
    reflexivity.
Defined.
